(** * Parcel core: TransformerRunner and the asset request driver

    A shallow embedding of
      packages/core/core/src/TransformerRunner.js
      packages/core/core/src/requests/AssetRequest.js

    Conventions of the embedding.
    - Promises are run to completion in program order; a rejected promise is
      a [Throw] that aborts the rest of the computation.
    - Plugin hooks are functions of the arguments the runner hands them.  A
      hook that receives [new MutableAsset(input)] returns, besides its
      result, the asset as it leaves it (in-place edits through the view).
      [postProcess] receives views of the collected assets and returns,
      besides its result, all of them as it leaves them.
    - Every hook invocation is logged ([HookCall]); cache reads and writes
      are logged one level up ([Event]).
    - Arrays that are compared with [===] carry an address.
    - [runPipeline] can recurse for ever (pipelines that jump to each other),
      so it takes fuel. *)

From Stdlib Require Import ZArith Lia Strings.Byte.
From stdpp Require Import gmap strings list.

Local Open Scope Z_scope.

(** ** Outcomes and the hook log *)

Inductive Err :=
| MissingGenerate      (* Error('Asset has an AST but no generate method is
                          available on the transform') *)
| HeadOfEmptyPipeline  (* TypeError: pipeline[0] is undefined *)
| MapOfNull            (* TypeError: results.map, results is null *)
| IOError (path : string)
| HookThrew (msg : string)
| NullConfig           (* nullthrows *)
| OutOfFuel.           (* the model ran out of fuel; not a program error *)

Inductive Outcome (A : Type) :=
| Ok (a : A)
| Throw (e : Err).
Arguments Ok {A} a.
Arguments Throw {A} e.

Inductive HookResult (X : Type) :=
| Returned (x : X)
| Raised (msg : string).
Arguments Returned {X} x.
Arguments Raised {X} msg.

Inductive HookName :=
| GetConfig | CanReuseAST | Parse | Transform | Generate | PostProcess.

Record HookCall := { hc_transformer : nat; hc_hook : HookName }.

(** Computations of the pipeline: an outcome and the hooks called on the
    way, in call order. *)
Definition P (A : Type) : Type := (Outcome A * list HookCall)%type.

Definition ret {A} (a : A) : P A := (Ok a, []).
Definition throw {A} (e : Err) : P A := (Throw e, []).
Definition bind {A B} (m : P A) (k : A -> P B) : P B :=
  match m with
  | (Ok a, l) => let '(r, l') := k a in (r, l ++ l')
  | (Throw e, l) => (Throw e, l)
  end.
Definition liftO {A} (o : Outcome A) : P A := (o, []).

Notation "'let*' x ':=' m 'in' k" := (bind m (fun x => k))
  (at level 10, x pattern, m at level 100, k at level 200).

(** [await hook(...)]: one log entry, and the hook's exception rethrown. *)
Definition invoke {X} (t : nat) (h : HookName) (r : HookResult X) : P X :=
  (match r with Returned x => Ok x | Raised msg => Throw (HookThrew msg) end,
   [{| hc_transformer := t; hc_hook := h |}]).

(** A JavaScript array together with its identity. *)
Record JsArray (A : Type) := { addr : nat; items : list A }.
Arguments addr {A} _.
Arguments items {A} _.

(** [s.slice(0, -n)] for [n >= 0]; note that [-0] is [0]. *)
Definition slice_0_neg (s : string) (n : nat) : string :=
  match n with
  | O => EmptyString
  | _ => String.substring 0 (String.length s - n)%nat s
  end.

(** [s.slice(1)] *)
Definition slice_1 (s : string) : string :=
  match s with
  | EmptyString => EmptyString
  | String _ r => r
  end.

Definition truthy (s : string) : bool :=
  match s with EmptyString => false | _ => true end.

Module TransformerRunner_js.

Section Runner.

(** Values the runner never looks into. *)
Context {AST SourceMap PluginConfig Env Meta Dependency : Type}.

(** What the module imports from Node and from @parcel/utils. *)
Record Platform := {
  md5 : list byte -> string;            (* md5 digest of a byte sequence *)
  extname : string -> string;           (* path.extname *)
  stringify : Env -> string;            (* JSON.stringify on environments *)
  (* the chunks a read stream on a path delivers; None when the file
     cannot be read *)
  disk : string -> option (list (list byte))
}.

Variable pf : Platform.

Definition md5FromString (s : string) : string := md5 pf (String.list_byte_of_string s).

(** *** Data *)

Inductive Blob :=
| BString (s : string)
| BBuffer (b : list byte)
| BStream (path : string).   (* createReadStream(path) *)

Record File := { file_filePath : string; file_hash : string }.

Record InternalAsset := {
  asset_idBase : string;
  asset_filePath : string;
  asset_type : string;
  asset_content : Blob;
  asset_hash : option string;
  asset_ast : option AST;
  asset_map : option SourceMap;
  asset_env : Env;
  asset_time : Z;                 (* stats.time *)
  asset_size : Z;                 (* stats.size *)
  asset_sideEffects : option bool;
  asset_dependencies : list Dependency;
  asset_connectedFiles : list File;
  asset_isIsolated : bool;
  asset_meta : option Meta
}.

Record TransformerResult := {
  res_type : string;
  res_content : Blob;
  res_ast : option AST;
  res_map : option SourceMap;
  res_dependencies : list Dependency;
  res_connectedFiles : list File;
  res_env : option Env;
  res_isIsolated : bool;
  res_meta : option Meta
}.

(** What [transform] may return: a plain result or a [MutableAsset]. *)
Inductive TransformOutput :=
| Emitted (r : TransformerResult)
| Reified (a : InternalAsset).

Record GenerateOutput := { out_code : Blob; out_map : option SourceMap }.

Record Transformer := {
  tid : nat;   (* identity of the plugin object *)
  t_getConfig :
    option (InternalAsset -> HookResult (option PluginConfig * InternalAsset));
  t_canReuseAST : option (AST -> HookResult bool);
  t_parse :
    option (InternalAsset -> option PluginConfig ->
            HookResult (option AST * InternalAsset));
  t_transform :
    InternalAsset -> option PluginConfig ->
    HookResult (list TransformOutput * InternalAsset);
  t_generate :
    option (InternalAsset -> option PluginConfig ->
            HookResult (GenerateOutput * InternalAsset));
  (* the results, or null, and the assets behind the views as the hook
     leaves them *)
  t_postProcess :
    option (list InternalAsset -> option PluginConfig ->
            HookResult (option (list TransformerResult) * list InternalAsset))
}.

Record CacheEntry := {
  entry_filePath : string;
  entry_env : Env;
  entry_hash : string;
  entry_assets : list InternalAsset;
  entry_initialAssets : option (list InternalAsset)
}.

Record AssetRequest := {
  req_filePath : string;
  req_env : Env;
  req_code : option string;
  req_sideEffects : option bool
}.

Record ParcelOptions := {
  opt_cache : option bool;   (* undefined, true or false *)
  opt_cacheDir : string
}.

(** The [generate] closure of [runTransform]: it captures the transformer
    and the config it was created with. *)
Record GenerateFunc := {
  gen_transformer : Transformer;
  gen_config : option PluginConfig
}.

Record PipelineOpts := {
  po_input : InternalAsset;
  po_originalPipeline : JsArray Transformer;
  po_pipeline : list Transformer;
  po_cacheEntry : option CacheEntry;
  po_previousGenerate : option GenerateFunc
}.

Record PipelineResult := {
  pr_assets : list InternalAsset;
  pr_initialAssets : option (list InternalAsset)
}.

(** Functional updates of the asset fields the runner assigns. *)
Definition set_content_map (a : InternalAsset) (c : Blob)
    (m : option SourceMap) : InternalAsset :=
  {| asset_idBase := asset_idBase a; asset_filePath := asset_filePath a;
     asset_type := asset_type a; asset_content := c;
     asset_hash := asset_hash a; asset_ast := asset_ast a; asset_map := m;
     asset_env := asset_env a; asset_time := asset_time a;
     asset_size := asset_size a; asset_sideEffects := asset_sideEffects a;
     asset_dependencies := asset_dependencies a;
     asset_connectedFiles := asset_connectedFiles a;
     asset_isIsolated := asset_isIsolated a; asset_meta := asset_meta a |}.

Definition set_ast (a : InternalAsset) (x : option AST) : InternalAsset :=
  {| asset_idBase := asset_idBase a; asset_filePath := asset_filePath a;
     asset_type := asset_type a; asset_content := asset_content a;
     asset_hash := asset_hash a; asset_ast := x; asset_map := asset_map a;
     asset_env := asset_env a; asset_time := asset_time a;
     asset_size := asset_size a; asset_sideEffects := asset_sideEffects a;
     asset_dependencies := asset_dependencies a;
     asset_connectedFiles := asset_connectedFiles a;
     asset_isIsolated := asset_isIsolated a; asset_meta := asset_meta a |}.

(** *** Helpers that live outside the two source files *)

Definition hashOfBlob (c : Blob) : option string :=
  match c with
  | BString s => Some (md5FromString s)
  | BBuffer b => Some (md5 pf b)
  | BStream _ => None
  end.

Definition sizeOfBlob (c : Blob) : Z :=
  match c with
  | BString s => Z.of_nat (String.length s)
  | BBuffer b => Z.of_nat (length b)
  | BStream _ => 0
  end.

(** Modelled from the spec: [InternalAsset.createChildAsset] (./Asset) is
    not among the sources.  "Each result becomes a child asset of the
    input: it inherits idBase [...], carries the declared type, and has
    its own content hash." *)
Definition createChildAsset (input : InternalAsset)
    (result : TransformerResult) : InternalAsset :=
  {| asset_idBase := asset_idBase input;
     asset_filePath := asset_filePath input;
     asset_type := res_type result;
     asset_content := res_content result;
     asset_hash := hashOfBlob (res_content result);
     asset_ast := res_ast result;
     asset_map := res_map result;
     asset_env := default (asset_env input) (res_env result);
     asset_time := 0;
     asset_size := sizeOfBlob (res_content result);
     asset_sideEffects := asset_sideEffects input;
     asset_dependencies := res_dependencies result;
     asset_connectedFiles := res_connectedFiles result;
     asset_isIsolated := res_isIsolated result;
     asset_meta := res_meta result |}.

(** Modelled from the spec: [md5FromFilePath] (@parcel/utils),
    "fingerprintFile(path)": the digest of the file's bytes. *)
Definition md5FromFilePath (path : string) : Outcome string :=
  match disk pf path with
  | Some chunks => Ok (md5 pf (concat chunks))
  | None => Throw (IOError path)
  end.

(** [Promise.all(xs.map(f))] *)
Fixpoint allO {A B} (f : A -> Outcome B) (xs : list A) : Outcome (list B) :=
  match xs with
  | [] => Ok []
  | x :: xs' =>
      match f x with
      | Throw e => Throw e
      | Ok y =>
          match allO f xs' with
          | Throw e => Throw e
          | Ok ys => Ok (y :: ys)
          end
      end
  end.

(** *** TransformerRunner.js, module-level functions *)

Definition BUFFER_LIMIT : Z := 5000000.

(* lines 312-323 *)
Definition isEqualPipeline (a b : JsArray Transformer) : bool :=
  if (addr a =? addr b)%nat then true
  else if negb (length (items a) =? length (items b))%nat then false
  else forallb (fun '(p, q) => (tid p =? tid q)%nat)
               (combine (items a) (items b)).

(** "Shallow-equal", in the words of the specification: the same length
    and, element by element, the same plugin object. *)
Definition shallowEqual (a b : list Transformer) : Prop :=
  Forall2 (fun p q => tid p = tid q) a b.

(** Two arrays at one address are one array. *)
Definition sameObject (a b : JsArray Transformer) : Prop :=
  addr a = addr b -> items a = items b.

(** The [generate] closure (lines 272-285) applied to an asset. *)
Definition callGenerate (g : GenerateFunc) (input : InternalAsset)
    : P (GenerateOutput * InternalAsset) :=
  match t_generate (gen_transformer g) with
  | Some h => invoke (tid (gen_transformer g)) Generate (h input (gen_config g))
  | None => throw MissingGenerate
  end.

(* lines 325-335 *)
Definition finalize (asset : InternalAsset) (generate : GenerateFunc)
    : P InternalAsset :=
  match asset_ast asset with
  | Some _ =>
      let* (result, asset) := callGenerate generate asset in
      ret (set_content_map asset (out_code result) (out_map result))
  | None => ret asset
  end.

(* lines 347-353 *)
Definition checkConnectedFiles (files : list File) : Outcome bool :=
  match allO (fun file => md5FromFilePath (file_filePath file)) files with
  | Throw e => Throw e
  | Ok hashes =>
      Ok (forallb (fun '(file, h) => String.eqb (file_hash file) h)
                  (combine files hashes))
  end.

(* lines 337-345 *)
Definition checkCachedAssets (assets : list InternalAsset) : Outcome bool :=
  match allO (fun asset => checkConnectedFiles (asset_connectedFiles asset))
             assets with
  | Throw e => Throw e
  | Ok results => Ok (forallb id results)
  end.

(* lines 355-357 *)
Definition reqCacheKey (req : AssetRequest) : string :=
  md5FromString (req_filePath req +:+ stringify pf (req_env req)).

Record Summary := { sum_content : Blob; sum_hash : string; sum_size : Z }.

(** The callback handed to [TapStream] (lines 376-387), as a step on the
    two variables it updates. *)
Definition tap (filePath : string) (st : Blob * Z) (buf : list byte)
    : Blob * Z :=
  let '(content, size) := st in
  let size := size + Z.of_nat (length buf) in
  match content with
  | BBuffer b =>
      if BUFFER_LIMIT <? size then (BStream filePath, size)
      else (BBuffer (b ++ buf), size)
  | _ => (content, size)
  end.

(* lines 359-397.  Modelled from the spec: [md5FromReadableStream] and
   [TapStream] (@parcel/utils), "streams bytes through a digest while
   invoking tap(chunk) once per chunk". *)
Definition summarizeRequest (req : AssetRequest) : Outcome Summary :=
  match req_code req with
  | None =>
      match disk pf (req_filePath req) with
      | None => Throw (IOError (req_filePath req))
      | Some chunks =>
          let '(content, size) :=
            fold_left (tap (req_filePath req)) chunks (BBuffer [], 0) in
          Ok {| sum_content := content;
                sum_hash := md5 pf (concat chunks);
                sum_size := size |}
      end
  | Some code =>
      Ok {| sum_content := BString code;
            sum_hash := md5FromString code;
            sum_size := Z.of_nat (length (String.list_byte_of_string code)) |}
  end.

(* lines 399-422 *)
Definition normalizeAssets (results : list TransformOutput)
    : list TransformerResult :=
  List.map (fun result =>
    match result with
    | Emitted r => r
    | Reified a =>
        {| res_type := asset_type a;
           res_content := asset_content a;
           res_ast := asset_ast a;
           res_map := asset_map a;
           res_dependencies := asset_dependencies a;
           res_connectedFiles := asset_connectedFiles a;
           res_env := Some (asset_env a);
           res_isIsolated := asset_isIsolated a;
           res_meta := asset_meta a |}
    end) results.

(** *** The class TransformerRunner *)

Record Config := {
  getTransformers : string -> JsArray Transformer
}.

Record TransformerRunner := {
  options : ParcelOptions;
  config : Config
}.

Variable this : TransformerRunner.

Record TransformStep := {
  ts_input : InternalAsset;            (* input, as the hooks left it *)
  ts_results : list TransformerResult;
  ts_generate : GenerateFunc;
  ts_config : option PluginConfig
}.

(* lines 226-234 *)
Definition loadConfig (input : InternalAsset) (transformer : Transformer)
    : P (option PluginConfig * InternalAsset) :=
  match t_getConfig transformer with
  | Some h => invoke (tid transformer) GetConfig (h input)
  | None => ret (None, input)
  end.

(** [!transformer.canReuseAST || !transformer.canReuseAST({ast, options})] *)
Definition cannotReuse (transformer : Transformer) (ast : AST) : P bool :=
  match t_canReuseAST transformer with
  | None => ret true
  | Some h =>
      let* b := invoke (tid transformer) CanReuseAST (h ast) in
      ret (negb b)
  end.

(* lines 236-248 *)
Definition regenerate (input : InternalAsset) (transformer : Transformer)
    (previousGenerate : option GenerateFunc) : P InternalAsset :=
  match asset_ast input with
  | None => ret input
  | Some ast =>
      let* cannot := cannotReuse transformer ast in
      match cannot, previousGenerate with
      | true, Some prev =>
          let* (output, input) := callGenerate prev input in
          ret (set_ast (set_content_map input (out_code output)
                                        (out_map output)) None)
      | _, _ => ret input
      end
  end.

(* lines 250-258 *)
Definition parseIfMissing (input : InternalAsset) (transformer : Transformer)
    (config : option PluginConfig) : P InternalAsset :=
  match asset_ast input, t_parse transformer with
  | None, Some h =>
      let* (ast, input) := invoke (tid transformer) Parse (h input config) in
      ret (set_ast input ast)
  | _, _ => ret input
  end.

(* lines 211-309 *)
Definition runTransform (input : InternalAsset) (transformer : Transformer)
    (previousGenerate : option GenerateFunc) : P TransformStep :=
  let* (config, input) := loadConfig input transformer in
  let* input := regenerate input transformer previousGenerate in
  let* input := parseIfMissing input transformer config in
  let* (outputs, input) :=
    invoke (tid transformer) Transform (t_transform transformer input config) in
  ret {| ts_input := input;
         ts_results := normalizeAssets outputs;
         ts_generate := {| gen_transformer := transformer;
                           gen_config := config |};
         ts_config := config |}.

(** The elements of [assets] after a hook has been handed
    [assets.map(asset => new MutableAsset(asset))] (line 294).  The hook
    edits the assets through the views and has no handle on the array:
    the array keeps its length, and its element [i] is what the hook left
    behind view [i]. *)
Fixpoint editedInPlace (assets views : list InternalAsset)
    : list InternalAsset :=
  match assets, views with
  | [], _ => []
  | _ :: _, [] => assets
  | _ :: assets', view :: views' => view :: editedInPlace assets' views'
  end.

(** The [postProcess] closure (lines 288-306) applied to the collected
    assets: what it returns, and the collected assets as the call leaves
    them.  [results.map] of a hook that yields null is a TypeError. *)
Definition postProcess (input : InternalAsset) (transformer : Transformer)
    (config : option PluginConfig) (assets : list InternalAsset)
    : P (option (list InternalAsset) * list InternalAsset) :=
  match t_postProcess transformer with
  | Some h =>
      let* (results, views) :=
        invoke (tid transformer) PostProcess (h assets config) in
      let assets := editedInPlace assets views in
      match results with
      | Some results =>
          ret (Some (List.map (createChildAsset input) results), assets)
      | None => throw MapOfNull
      end
  | None => ret (None, assets)
  end.

(** What the body of the [for] loop of [runPipeline] does with one result:
    the four ways out of lines 149-199. *)
Inductive ChildStep :=
| ReuseCached (cachedAssets : list InternalAsset)          (* 159-160 *)
| Finalize (asset : InternalAsset) (generate : GenerateFunc) (* 178 *)
| RunTail (o : PipelineOpts)                               (* 181-186 *)
| Jump (o : PipelineOpts).                                 (* 192-196 *)

(* lines 151-153 *)
Definition cachedMatches (cacheEntry : CacheEntry) (asset : InternalAsset)
    : list InternalAsset :=
  List.filter
    (fun child =>
       match asset_hash child, asset_hash asset with
       | Some h, Some h' => truthy h && String.eqb h h'
       | _, _ => false
       end)
    (default (entry_assets cacheEntry) (entry_initialAssets cacheEntry)).

(* lines 150-162 *)
Definition reuseFromCache (cacheEntry : option CacheEntry)
    (asset : InternalAsset) : Outcome (option (list InternalAsset)) :=
  match cacheEntry with
  | None => Ok None
  | Some ce =>
      match cachedMatches ce asset with
      | [] => Ok None
      | cachedAssets =>
          match checkCachedAssets cachedAssets with
          | Throw e => Throw e
          | Ok true => Ok (Some cachedAssets)
          | Ok false => Ok None
          end
      end
  end.

(* lines 167-170 *)
Definition nextFilePath (input : InternalAsset) (result : TransformerResult)
    : string :=
  slice_0_neg (asset_filePath input)
              (String.length (extname pf (asset_filePath input)))
  +:+ "." +:+ res_type result.

(* lines 164-172 *)
Definition nextPipelineFor (input : InternalAsset) (inputType : string)
    (originalPipeline : JsArray Transformer) (result : TransformerResult)
    : JsArray Transformer :=
  if String.eqb (res_type result) inputType then originalPipeline
  else getTransformers (config this) (nextFilePath input result).

(* lines 147-199, up to the calls *)
Definition planChild (input : InternalAsset) (inputType : string)
    (originalPipeline : JsArray Transformer) (pipeline : list Transformer)
    (cacheEntry : option CacheEntry) (generate : GenerateFunc)
    (result : TransformerResult) : P ChildStep :=
  let asset := createChildAsset input result in
  let* reuse := liftO (reuseFromCache cacheEntry asset) in
  match reuse with
  | Some cachedAssets => ret (ReuseCached cachedAssets)
  | None =>
      let nextPipeline :=
        nextPipelineFor input inputType originalPipeline result in
      if isEqualPipeline originalPipeline nextPipeline then
        if (length pipeline =? 1)%nat then ret (Finalize asset generate)
        else
          ret (RunTail {| po_input := asset;
                          po_originalPipeline := originalPipeline;
                          po_pipeline := tail pipeline;   (* slice(1) *)
                          po_cacheEntry := None;
                          po_previousGenerate := Some generate |})
      else
        ret (Jump {| po_input := asset;
                     po_originalPipeline := nextPipeline;
                     po_pipeline := items nextPipeline;
                     po_cacheEntry := None;
                     po_previousGenerate := Some generate |})
  end.

(** The calls themselves; [rec] is [this.runPipeline]. *)
Definition runChild (rec : PipelineOpts -> P PipelineResult)
    (step : ChildStep) (assets : list InternalAsset)
    : P (list InternalAsset) :=
  match step with
  | ReuseCached cachedAssets => ret (assets ++ cachedAssets)
  | Finalize asset generate =>
      let* a := finalize asset generate in
      ret (assets ++ [a])
  | RunTail o | Jump o =>
      let* nextPipelineResult := rec o in
      ret (assets ++ pr_assets nextPipelineResult)
  end.

(* lines 145-200 *)
Fixpoint forEachResult (rec : PipelineOpts -> P PipelineResult)
    (input : InternalAsset) (inputType : string)
    (originalPipeline : JsArray Transformer) (pipeline : list Transformer)
    (cacheEntry : option CacheEntry) (generate : GenerateFunc)
    (results : list TransformerResult) (assets : list InternalAsset)
    : P (list InternalAsset) :=
  match results with
  | [] => ret assets
  | result :: more =>
      let* step := planChild input inputType originalPipeline pipeline
                             cacheEntry generate result in
      let* assets := runChild rec step assets in
      forEachResult rec input inputType originalPipeline pipeline
                    cacheEntry generate more assets
  end.

(* lines 202-208 *)
Definition finishPipeline (input : InternalAsset) (transformer : Transformer)
    (config : option PluginConfig) (assets : list InternalAsset)
    : P PipelineResult :=
  let* (finalAssets, assets) :=
    postProcess input transformer config assets in
  ret {| pr_assets := default assets finalAssets;
         pr_initialAssets :=
           match finalAssets with Some _ => Some assets | None => None end |}.

(* lines 127-209.  [pipeline[0]] of an empty array is [undefined], and
   [runTransform] then fails on [transformer.getConfig]. *)
Fixpoint runPipeline (fuel : nat) (opts : PipelineOpts) : P PipelineResult :=
  match fuel with
  | O => throw OutOfFuel
  | S fuel =>
      let inputType := asset_type (po_input opts) in
      match po_pipeline opts with
      | [] => throw HeadOfEmptyPipeline
      | transformer :: _ =>
          let* step := runTransform (po_input opts) transformer
                                    (po_previousGenerate opts) in
          let* assets :=
            forEachResult (runPipeline fuel) (ts_input step) inputType
                          (po_originalPipeline opts) (po_pipeline opts)
                          (po_cacheEntry opts) (ts_generate step)
                          (ts_results step) [] in
          finishPipeline (ts_input step) transformer (ts_config step) assets
      end
  end.

(** *** transform: the cache around the pipeline *)

(** The persistent state behind [new Cache(cacheDir)]: request entries
    ([cache.get]/[cache.set]) and committed content. *)
Record Store := {
  entries : gmap string CacheEntry;
  blobs : gmap string (list byte)
}.

Inductive Event :=
| Report                  (* report({type: 'buildProgress', ...}) *)
| CacheGet (key : string)
| CacheSet (key : string)
| Hook (c : HookCall).

Definition T (A : Type) : Type := Store -> Outcome A * Store * list Event.

Definition retT {A} (a : A) : T A := fun st => (Ok a, st, []).
Definition bindT {A B} (m : T A) (k : A -> T B) : T B :=
  fun st =>
    match m st with
    | (Ok a, st', l) => let '(r, st'', l') := k a st' in (r, st'', l ++ l')
    | (Throw e, st', l) => (Throw e, st', l)
    end.
Definition liftP {A} (m : P A) : T A :=
  fun st => (fst m, st, List.map Hook (snd m)).
Definition emit (e : Event) : T unit := fun st => (Ok tt, st, [e]).

(** The three components of a run. *)
Definition outcomeOf {A} (r : Outcome A * Store * list Event) : Outcome A :=
  fst (fst r).
Definition storeOf {A} (r : Outcome A * Store * list Event) : Store :=
  snd (fst r).
Definition logOf {A} (r : Outcome A * Store * list Event) : list Event :=
  snd r.

Notation "'let!' x ':=' m 'in' k" := (bindT m (fun x => k))
  (at level 10, x pattern, m at level 100, k at level 200).

Definition cacheGet (key : string) : T (option CacheEntry) :=
  fun st => (Ok (entries st !! key), st, [CacheGet key]).

Definition cacheSet (key : string) (entry : CacheEntry) : T unit :=
  fun st =>
    (Ok tt,
     {| entries := <[key := entry]> (entries st); blobs := blobs st |},
     [CacheSet key]).

Definition blobBytes (c : Blob) : Outcome (list byte) :=
  match c with
  | BString s => Ok (String.list_byte_of_string s)
  | BBuffer b => Ok b
  | BStream path =>
      match disk pf path with
      | Some chunks => Ok (concat chunks)
      | None => Throw (IOError path)
      end
  end.

(** Modelled from the spec: [InternalAsset.commit] (./Asset) is not among
    the sources.  "commit(asset) (write content [...] under
    content-derived keys)"; "commit is idempotent on content hash". *)
Definition commit (asset : InternalAsset) : T unit :=
  fun st =>
    match blobBytes (asset_content asset) with
    | Throw e => (Throw e, st, [])
    | Ok bytes =>
        (Ok tt,
         {| entries := entries st;
            blobs := <[md5 pf bytes := bytes]> (blobs st) |},
         [])
    end.

(** [Promise.all(unique(xs).map(asset => asset.commit()))].  [unique]
    drops repeated references to one asset; committing is idempotent, so
    each occurrence is committed here. *)
Fixpoint commitAll (assets : list InternalAsset) : T unit :=
  match assets with
  | [] => retT tt
  | asset :: more => let! _ := commit asset in commitAll more
  end.

(** [this.options.cache !== false && req.code == null] *)
Definition lookupEnabled (req : AssetRequest) : bool :=
  match opt_cache (options this), req_code req with
  | Some false, _ => false
  | _, Some _ => false
  | _, None => true
  end.

(* lines 79-85 *)
Definition validEntry (cacheEntry : option CacheEntry) (hash : string)
    : Outcome (option CacheEntry) :=
  match cacheEntry with
  | None => Ok None
  | Some ce =>
      if String.eqb (entry_hash ce) hash then
        match checkCachedAssets (entry_assets ce) with
        | Throw e => Throw e
        | Ok true => Ok (Some ce)
        | Ok false => Ok None
        end
      else Ok None
  end.

(* lines 87-103 *)
Definition inputAsset (req : AssetRequest) (s : Summary) : InternalAsset :=
  {| asset_idBase :=
       match req_code req with
       | Some code => if truthy code then sum_hash s else req_filePath req
       | None => req_filePath req
       end;
     asset_filePath := req_filePath req;
     asset_type := slice_1 (extname pf (req_filePath req));
     asset_content := sum_content s;
     asset_hash := Some (sum_hash s);
     asset_ast := None;
     asset_map := None;
     asset_env := req_env req;
     asset_time := 0;
     asset_size := sum_size s;
     asset_sideEffects := req_sideEffects req;
     asset_dependencies := [];
     asset_connectedFiles := [];
     asset_isIsolated := false;
     asset_meta := None |}.

(* lines 63-125 *)
Definition transform (fuel : nat) (req : AssetRequest) : T CacheEntry :=
  let! _ := emit Report in
  let! cacheEntry :=
    (if lookupEnabled req then cacheGet (reqCacheKey req) else retT None) in
  let! s := liftP (liftO (summarizeRequest req)) in
  let! valid := liftP (liftO (validEntry cacheEntry (sum_hash s))) in
  match valid with
  | Some cacheEntry => retT cacheEntry
  | None =>
      let input := inputAsset req s in
      let pipeline := getTransformers (config this) (req_filePath req) in
      let! r := liftP (runPipeline fuel
                         {| po_input := input;
                            po_originalPipeline := pipeline;
                            po_pipeline := items pipeline;
                            po_cacheEntry := cacheEntry;
                            po_previousGenerate := None |}) in
      let cacheEntry :=
        {| entry_filePath := req_filePath req;
           entry_env := req_env req;
           entry_hash := sum_hash s;
           entry_assets := pr_assets r;
           entry_initialAssets := pr_initialAssets r |} in
      let! _ := commitAll (pr_assets r ++ default [] (pr_initialAssets r)) in
      let! _ := cacheSet (reqCacheKey req) cacheEntry in
      retT cacheEntry
  end.

(** *** Names used to state properties of [runPipeline] *)

(** The children of [opts], as [runPipeline] with [fuel] left collects
    them after the head transformer's step. *)
Definition childrenOf (fuel : nat) (opts : PipelineOpts) (step : TransformStep)
    : P (list InternalAsset) :=
  forEachResult (runPipeline fuel) (ts_input step)
                (asset_type (po_input opts)) (po_originalPipeline opts)
                (po_pipeline opts) (po_cacheEntry opts) (ts_generate step)
                (ts_results step) [].

(** The computation does not fail on the head of an empty pipeline. *)
Definition headInBounds {A} (m : P A) : Prop :=
  fst m <> Throw HeadOfEmptyPipeline.

(** *** Names for the parts of a [transform] run *)

(** The entry a lookup yields, if a lookup is made. *)
Definition lookedUp (req : AssetRequest) (st : Store) : option CacheEntry :=
  if lookupEnabled req then entries st !! reqCacheKey req else None.

(** The events up to the end of the lookup. *)
Definition lookupLog (req : AssetRequest) : list Event :=
  Report :: (if lookupEnabled req then [CacheGet (reqCacheKey req)]
             else []).

(** The pipeline run of a request that is not answered from the cache. *)
Definition requestPipeline (fuel : nat) (req : AssetRequest)
    (cached : option CacheEntry) (s : Summary) :=
  runPipeline fuel
    {| po_input := inputAsset req s;
       po_originalPipeline := getTransformers (config this) (req_filePath req);
       po_pipeline := items (getTransformers (config this) (req_filePath req));
       po_cacheEntry := cached;
       po_previousGenerate := None |}.

Definition freshEntry (req : AssetRequest) (s : Summary)
    (r : PipelineResult) : CacheEntry :=
  {| entry_filePath := req_filePath req;
     entry_env := req_env req;
     entry_hash := sum_hash s;
     entry_assets := pr_assets r;
     entry_initialAssets := pr_initialAssets r |}.

(** *** Names used to state further properties *)

(** The file can be read. *)
Definition readable (file : File) : Prop :=
  disk pf (file_filePath file) <> None.

(** The file can be read and no longer has the recorded digest. *)
Definition changed (file : File) : Prop :=
  exists chunks,
    disk pf (file_filePath file) = Some chunks
    /\ md5 pf (concat chunks) <> file_hash file.

(** The file can be read and still has the recorded digest. *)
Definition unchanged (file : File) : Prop :=
  exists chunks,
    disk pf (file_filePath file) = Some chunks
    /\ md5 pf (concat chunks) = file_hash file.

(** The log entry of a call of [transformer.transform]. *)
Definition transformCall (transformer : Transformer) : HookCall :=
  {| hc_transformer := tid transformer; hc_hook := Transform |}.

(** A transformer with the [transform] hook only which, for an asset of type
    [ty] without AST, emits one result of that type without AST. *)
Definition plainStep (ty : string) (transformer : Transformer) : Prop :=
  t_getConfig transformer = None
  /\ t_canReuseAST transformer = None
  /\ t_parse transformer = None
  /\ t_postProcess transformer = None
  /\ forall input config,
       asset_type input = ty ->
       asset_ast input = None ->
       exists outputs input' result,
         t_transform transformer input config = Returned (outputs, input')
         /\ normalizeAssets outputs = [result]
         /\ res_type result = ty
         /\ res_ast result = None.

(** A call that [runTransform] may make before [transform]: any hook but
    [transform] and [postProcess], on this transformer or, for [generate],
    on the one before. *)
Definition beforeTransform (transformer : Transformer) (c : HookCall) : Prop :=
  hc_hook c <> Transform /\ hc_hook c <> PostProcess
  /\ (hc_hook c = Generate \/ hc_transformer c = tid transformer).

End Runner.

End TransformerRunner_js.

Module AssetRequest_js.

Section Request.

(** Values the driver only passes along. *)
Context {Env OptionsRef Payload ConfigRequest : Type}.

Record AssetRequestInput := {
  filePath : string;
  env : Env;
  code : option string;
  sideEffects : option bool;
  optionsRef : OptionsRef
}.

(** [{optionsRef, ...rest} = input]: the input without its [optionsRef]. *)
Record RequestBody := {
  rb_filePath : string;
  rb_env : Env;
  rb_code : option string;
  rb_sideEffects : option bool
}.

Definition withoutOptionsRef (input : AssetRequestInput) : RequestBody :=
  {| rb_filePath := filePath input; rb_env := env input;
     rb_code := code input; rb_sideEffects := sideEffects input |}.

(** An asset as the worker returns it. *)
Record Asset := {
  payload : Payload;
  stats_time : Z;
  stats_size : Z;
  includedFiles : list string      (* the keys of the Map, in order *)
}.

Record ConfigRequestResult := {
  resolvedPath : option string;
  cfg_includedFiles : list string;
  watchGlob : option string;
  shouldInvalidateOnStartup : bool;
  devDeps : list (string * string)
}.

Record ConfigRequestPair := {
  request : ConfigRequest;
  result : ConfigRequestResult
}.

Record DepVersionRequest := {
  moduleSpecifier : string;
  resolveFrom : option string
}.

(** The objects handed to [md5FromObject]. *)
Inductive Hashable :=
| HBody (b : RequestBody)
| HConfigRequest (r : ConfigRequest)
| HDepVersion (r : DepVersionRequest).

(** The edges a request can register on itself. *)
Inductive Invalidation :=
| InvalidateOnFileUpdate (path : string)
| InvalidateOnFileDelete (path : string)
| InvalidateOnFileCreate (glob : string)
| InvalidateOnStartup.

(** Calls on [api], in order; a child request carries the edges its [run]
    installs. *)
Inductive ApiCall :=
| Edge (i : Invalidation)
| RunParcelConfigRequest
| RunRequest (id type : string) (installs : list Invalidation).

Record WorkerArgs := {
  wa_configCachePath : string;
  wa_optionsRef : OptionsRef;
  wa_request : RequestBody
}.

Record WorkerResult := {
  wr_assets : list Asset;
  wr_configRequests : list ConfigRequestPair
}.

(** [{input, api, options, farm}] as far as [run] uses them, and the
    imports of the module. *)
Record RunOpts := {
  md5FromObject : Hashable -> string;
  realpath : string -> Outcome string;       (* options.inputFS.realpath *)
  lockFile : option string;                  (* options.lockFile *)
  (* api.runRequest(createParcelConfigRequest()): ?{cachePath} *)
  parcelConfig : Outcome (option string);
  (* what [await api.runRequest(child)] settles to for the child request
     with this id and type *)
  childRequest : string -> string -> Outcome unit;
  (* farm.createHandle('runTransform') *)
  farmRunTransform : WorkerArgs -> Outcome WorkerResult;
  clock : nat -> Z                           (* the n-th Date.now() *)
}.

Record RunState := {
  reads : nat;                (* calls of Date.now() so far *)
  calls : list ApiCall
}.

Definition R (A : Type) : Type := RunState -> Outcome A * RunState.

Definition retR {A} (a : A) : R A := fun st => (Ok a, st).
Definition bindR {A B} (m : R A) (k : A -> R B) : R B :=
  fun st =>
    match m st with
    | (Ok a, st') => k a st'
    | (Throw e, st') => (Throw e, st')
    end.
Definition liftR {A} (o : Outcome A) : R A := fun st => (o, st).

Notation "'let+' x ':=' m 'in' k" := (bindR m (fun x => k))
  (at level 10, x pattern, m at level 100, k at level 200).

Definition api (c : ApiCall) : R unit :=
  fun st => (Ok tt, {| reads := reads st; calls := calls st ++ [c] |}).

Definition now (o : RunOpts) : R Z :=
  fun st => (Ok (clock o (reads st)),
             {| reads := S (reads st); calls := calls st |}).

Fixpoint forEach {A} (f : A -> R unit) (xs : list A) : R unit :=
  match xs with
  | [] => retR tt
  | x :: xs' => let+ _ := f x in forEach f xs'
  end.

(* lines 22-24 *)
Definition generateRequestId (o : RunOpts) (type : string) (obj : Hashable)
    : string :=
  type +:+ ":" +:+ md5FromObject o obj.

(* line 35 *)
Definition type : string := "asset_request".

(* lines 37-41 *)
Definition getId (o : RunOpts) (input : AssetRequestInput) : string :=
  type +:+ ":" +:+ md5FromObject o (HBody (withoutOptionsRef input)).

Record AssetRequest := {
  ar_type : string;
  ar_id : string;
  ar_input : AssetRequestInput
}.

(* lines 26-33; the [run] field is [run] below *)
Definition createAssetRequest (o : RunOpts) (input : AssetRequestInput)
    : AssetRequest :=
  {| ar_type := "asset_request"; ar_id := getId o input; ar_input := input |}.

Definition set_time (time : Z) (asset : Asset) : Asset :=
  {| payload := payload asset; stats_time := time;
     stats_size := stats_size asset; includedFiles := includedFiles asset |}.

(* lines 74-98: what the [run] of a config request installs *)
Definition configRequestEdges (result : ConfigRequestResult)
    : list Invalidation :=
  match resolvedPath result with
  | Some p => [InvalidateOnFileUpdate p; InvalidateOnFileDelete p]
  | None => []
  end
  ++ flat_map (fun filePath =>
                 [InvalidateOnFileUpdate filePath;
                  InvalidateOnFileUpdate filePath])
              (cfg_includedFiles result)
  ++ match watchGlob result with
     | Some g => [InvalidateOnFileCreate g]
     | None => []
     end
  ++ (if shouldInvalidateOnStartup result then [InvalidateOnStartup] else []).

(* lines 112-116 *)
Definition versionRequestEdges (o : RunOpts) : list Invalidation :=
  match lockFile o with
  | Some l => [InvalidateOnFileUpdate l]
  | None => []
  end.

(** [await api.runRequest({id, type, run, input: null})] (lines 71, 109):
    the call, with the edges the child's [run] installs, and what the
    promise settles to.  A rejection is not caught. *)
Definition runRequest (o : RunOpts) (id type : string)
    (installs : list Invalidation) : R unit :=
  let+ _ := api (RunRequest id type installs) in
  liftR (childRequest o id type).

(* lines 69-120 *)
Definition addConfigRequest (o : RunOpts) (cr : ConfigRequestPair) : R unit :=
  let id := generateRequestId o "config_request" (HConfigRequest (request cr)) in
  let+ _ := runRequest o id "config_request"
                       (configRequestEdges (result cr)) in
  forEach
    (fun dep : string * string =>
       let depVersionRequst :=
         {| moduleSpecifier := fst dep;
            resolveFrom := resolvedPath (result cr) |} in
       let id := generateRequestId o "dep_version_request"
                                   (HDepVersion depVersionRequst) in
       runRequest o id "version_request" (versionRequestEdges o))
    (devDeps (result cr)).

(* lines 43-123 *)
Definition run (o : RunOpts) (input : AssetRequestInput) : R (list Asset) :=
  let+ real := liftR (realpath o (filePath input)) in
  let+ _ := api (Edge (InvalidateOnFileUpdate real)) in
  let+ start := now o in
  let request := withoutOptionsRef input in
  let+ _ := api RunParcelConfigRequest in
  let+ cfg := liftR (parcelConfig o) in
  let+ cachePath :=
    liftR (match cfg with Some c => Ok c | None => Throw NullConfig end) in
  let+ r := liftR (farmRunTransform o
                     {| wa_configCachePath := cachePath;
                        wa_optionsRef := optionsRef input;
                        wa_request := request |}) in
  let+ finish := now o in
  let time := finish - start in
  let assets := List.map (set_time time) (wr_assets r) in
  let+ _ := forEach
              (fun asset =>
                 forEach (fun filePath =>
                            let+ _ := api (Edge (InvalidateOnFileUpdate filePath)) in
                            api (Edge (InvalidateOnFileDelete filePath)))
                         (includedFiles asset))
              assets in
  let+ _ := forEach (addConfigRequest o) (wr_configRequests r) in
  retR assets.

(** *** Names used to state properties of [run] *)

(** The calls [run] makes for one asset (lines 61-66). *)
Definition assetCalls (asset : Asset) : list ApiCall :=
  flat_map (fun filePath =>
              [Edge (InvalidateOnFileUpdate filePath);
               Edge (InvalidateOnFileDelete filePath)])
           (includedFiles asset).

(** The calls [run] makes for one config request (lines 69-120). *)
Definition configRequestCalls (o : RunOpts) (cr : ConfigRequestPair)
    : list ApiCall :=
  RunRequest (generateRequestId o "config_request" (HConfigRequest (request cr)))
             "config_request" (configRequestEdges (result cr))
  :: List.map
       (fun dep : string * string =>
          RunRequest
            (generateRequestId o "dep_version_request"
               (HDepVersion {| moduleSpecifier := fst dep;
                               resolveFrom := resolvedPath (result cr) |}))
            "version_request" (versionRequestEdges o))
       (devDeps (result cr)).

(** What an awaited call settles to: a child request as the tracker
    decides, the registration of an edge at once. *)
Definition settles (o : RunOpts) (c : ApiCall) : Outcome unit :=
  match c with
  | RunRequest id type _ => childRequest o id type
  | _ => Ok tt
  end.

(** Calls awaited one after the other: the calls made, which end with the
    first that fails, and the outcome. *)
Fixpoint awaitCalls (o : RunOpts) (cs : list ApiCall)
    : list ApiCall * Outcome unit :=
  match cs with
  | [] => ([], Ok tt)
  | c :: cs' =>
      match settles o c with
      | Ok _ => (c :: fst (awaitCalls o cs'), snd (awaitCalls o cs'))
      | Throw e => ([c], Throw e)
      end
  end.

End Request.

End AssetRequest_js.

(** * Concrete plugins, files and requests, used in the examples below *)

Module Demo.

Import TransformerRunner_js.

(** The opaque values are numbers and strings here: an AST and a plugin
    config are handles, an environment is its JSON text. *)
Definition Plugin : Type := @Transformer nat string nat string unit string.
Definition Result : Type := @TransformerResult nat string string unit string.
Definition DemoAsset : Type := @InternalAsset nat string string unit string.
Definition DemoEntry : Type := @CacheEntry nat string string unit string.
Definition DemoStore : Type := @Store nat string string unit string.

(** The extension of a path without directories: from its last dot on. *)
Fixpoint lastDot (s : string) : option string :=
  match s with
  | EmptyString => None
  | String c r =>
      match lastDot r with
      | Some e => Some e
      | None => if Ascii.eqb c (Ascii.ascii_of_nat 46) then Some (String c r) else None
      end
  end.

Definition demo_extname (s : string) : string := default EmptyString (lastDot s).

(** A stand-in for the digest: the bytes themselves behind a mark. *)
Definition demo_md5 (b : list byte) : string :=
  "#" +:+ String.string_of_list_byte b.

Definition files (path : string) : option (list (list byte)) :=
  if String.eqb path "a.md" then Some [String.list_byte_of_string "# hi"]
  else if String.eqb path "a.js" then Some [String.list_byte_of_string "x=1"]
  else if String.eqb path "a.ng" then Some [String.list_byte_of_string "n"]
  else if String.eqb path "a.pp" then Some [String.list_byte_of_string "p"]
  else if String.eqb path "b.txt" then Some [String.list_byte_of_string "dep"]
  else None.

Definition pf : @Platform string :=
  {| md5 := demo_md5; extname := demo_extname; stringify := id;
     disk := files |}.

Definition emitted (type content : string) (ast : option nat) : Result :=
  {| res_type := type; res_content := BString content; res_ast := ast;
     res_map := None; res_dependencies := []; res_connectedFiles := [];
     res_env := None; res_isIsolated := false; res_meta := None |}.

(** Markdown to HTML: one result of another type. *)
Definition mdT : Plugin :=
  {| tid := 1; t_getConfig := None; t_canReuseAST := None; t_parse := None;
     t_transform := fun input _ =>
       Returned ([Emitted (emitted "html" "<p>hi</p>" None)], input);
     t_generate := None; t_postProcess := None |}.

(** HTML: returns the asset it was given. *)
Definition htmlT : Plugin :=
  {| tid := 2; t_getConfig := None; t_canReuseAST := None; t_parse := None;
     t_transform := fun input _ => Returned ([Reified input], input);
     t_generate := None; t_postProcess := None |}.

(** First JavaScript stage: parses, leaves an AST, can generate. *)
Definition jsP : Plugin :=
  {| tid := 3;
     t_getConfig := Some (fun input => Returned (Some 30%nat, input));
     t_canReuseAST := None;
     t_parse := Some (fun input _ => Returned (Some 7%nat, input));
     t_transform := fun input _ =>
       Returned ([Emitted (emitted "js" "y=1" (Some 7%nat))], input);
     t_generate := Some (fun input _ =>
       Returned ({| out_code := BString "y=1;"; out_map := Some "m" |}, input));
     t_postProcess := None |}.

(** Second JavaScript stage: cannot reuse the AST of the first. *)
Definition jsQ : Plugin :=
  {| tid := 4; t_getConfig := None;
     t_canReuseAST := Some (fun _ => Returned false);
     t_parse := Some (fun input _ => Returned (Some 8%nat, input));
     t_transform := fun input _ => Returned ([Reified input], input);
     t_generate := Some (fun input _ =>
       Returned ({| out_code := BString "z=1;"; out_map := None |}, input));
     t_postProcess := None |}.

(** A stage that can reuse any AST. *)
Definition jsR : Plugin :=
  {| tid := 7; t_getConfig := None;
     t_canReuseAST := Some (fun _ => Returned true);
     t_parse := Some (fun input _ => Returned (Some 9%nat, input));
     t_transform := fun input _ => Returned ([Reified input], input);
     t_generate := None; t_postProcess := None |}.

(** Leaves an AST and has no [generate]. *)
Definition noGen : Plugin :=
  {| tid := 5; t_getConfig := None; t_canReuseAST := None; t_parse := None;
     t_transform := fun input _ =>
       Returned ([Emitted (emitted "ng" "data" (Some 1%nat))], input);
     t_generate := None; t_postProcess := None |}.

(** Two results, merged into one by [postProcess]. *)
Definition postT : Plugin :=
  {| tid := 6; t_getConfig := None; t_canReuseAST := None; t_parse := None;
     t_transform := fun input _ =>
       Returned ([Emitted (emitted "pp" "one" None);
                  Emitted (emitted "pp" "two" None)], input);
     t_generate := None;
     t_postProcess := Some (fun assets _ =>
       Returned (Some [emitted "pp" "merged" None], assets)) |}.

(** The same two results, with a [postProcess] hook that yields null. *)
Definition nullT : Plugin :=
  {| tid := 9; t_getConfig := None; t_canReuseAST := None; t_parse := None;
     t_transform := t_transform postT;
     t_generate := None;
     t_postProcess := Some (fun assets _ => Returned (None, assets)) |}.

(** The same two results, merged by a [postProcess] hook that first
    rewrites, through the views, the content of the assets it is handed. *)
Definition editT : Plugin :=
  {| tid := 10; t_getConfig := None; t_canReuseAST := None; t_parse := None;
     t_transform := t_transform postT;
     t_generate := None;
     t_postProcess := Some (fun assets _ =>
       Returned (Some [emitted "pp" "merged" None],
                 List.map (fun a => set_content_map a (BString "edited") None)
                          assets)) |}.

Definition mdPipeline : JsArray Plugin := {| addr := 10; items := [mdT] |}.
Definition htmlPipeline : JsArray Plugin := {| addr := 11; items := [htmlT] |}.
Definition jsPipeline : JsArray Plugin := {| addr := 12; items := [jsP; jsQ] |}.
Definition ngPipeline : JsArray Plugin := {| addr := 13; items := [noGen] |}.
Definition ppPipeline : JsArray Plugin := {| addr := 14; items := [postT] |}.

Definition pipelineFor (path : string) : JsArray Plugin :=
  let ext := demo_extname path in
  if String.eqb ext ".md" then mdPipeline
  else if String.eqb ext ".js" then jsPipeline
  else if String.eqb ext ".ng" then ngPipeline
  else if String.eqb ext ".pp" then ppPipeline
  else htmlPipeline.

Definition runner : @TransformerRunner nat string nat string unit string :=
  {| options := {| opt_cache := None; opt_cacheDir := ".cache" |};
     config := {| getTransformers := pipelineFor |} |}.

Definition fileRequest (path : string) : @AssetRequest string :=
  {| req_filePath := path; req_env := "{}"; req_code := None;
     req_sideEffects := None |}.

Definition inlineRequest : @AssetRequest string :=
  {| req_filePath := "a.md"; req_env := "{}"; req_code := Some "# inline";
     req_sideEffects := None |}.

Definition emptyStore : DemoStore := {| entries := ∅; blobs := ∅ |}.

(** The input asset of a request for a file of [Demo.files]. *)
Definition inputOf (path content : string) : DemoAsset :=
  inputAsset pf (fileRequest path)
    {| sum_content := BBuffer (String.list_byte_of_string content);
       sum_hash := demo_md5 (String.list_byte_of_string content);
       sum_size := Z.of_nat (String.length content) |}.

Definition htmlResult : Result := emitted "html" "<p>hi</p>" None.

(** The [generate] closures of three of the plugins. *)
Definition genMd : GenerateFunc := {| gen_transformer := mdT; gen_config := None |}.
Definition genP : GenerateFunc :=
  {| gen_transformer := jsP; gen_config := Some 30%nat |}.
Definition genNone : GenerateFunc :=
  {| gen_transformer := noGen; gen_config := None |}.

(** An asset with an AST, as the first JavaScript stage leaves its child. *)
Definition withAst : DemoAsset := createChildAsset pf (inputOf "a.js" "x=1")
                                    (emitted "js" "y=1" (Some 7%nat)).

(** An entry for a.md whose asset depends on b.txt as it is on disk. *)
Definition cachedHtml : DemoAsset :=
  {| asset_idBase := "a.md"; asset_filePath := "a.md"; asset_type := "html";
     asset_content := BString "<p>hi</p>";
     asset_hash := Some "#<p>hi</p>"; asset_ast := None; asset_map := None;
     asset_env := "{}"; asset_time := 0; asset_size := 9;
     asset_sideEffects := None; asset_dependencies := [];
     asset_connectedFiles :=
       [{| file_filePath := "b.txt"; file_hash := "#dep" |}];
     asset_isIsolated := false; asset_meta := None |}.

Definition freshMdEntry : DemoEntry :=
  {| entry_filePath := "a.md"; entry_env := "{}"; entry_hash := "## hi";
     entry_assets := [cachedHtml]; entry_initialAssets := None |}.

(** The same entry, recorded when a.md had other content. *)
Definition staleMdEntry : DemoEntry :=
  {| entry_filePath := "a.md"; entry_env := "{}"; entry_hash := "## old";
     entry_assets := [cachedHtml]; entry_initialAssets := None |}.

Definition storeWith (e : DemoEntry) : DemoStore :=
  {| entries := {[ "#a.md{}" := e ]}; blobs := ∅ |}.

Definition mdSummary : Summary :=
  {| sum_content := BBuffer (String.list_byte_of_string "# hi");
     sum_hash := "## hi"; sum_size := 4 |}.

Definition ppOpts
    : @PipelineOpts nat string nat string unit string :=
  {| po_input := inputOf "a.pp" "p"; po_originalPipeline := ppPipeline;
     po_pipeline := items ppPipeline; po_cacheEntry := None;
     po_previousGenerate := None |}.

Definition nullOpts
    : @PipelineOpts nat string nat string unit string :=
  {| po_input := inputOf "a.pp" "p";
     po_originalPipeline := {| addr := 17; items := [nullT] |};
     po_pipeline := [nullT]; po_cacheEntry := None;
     po_previousGenerate := None |}.

Definition editOpts
    : @PipelineOpts nat string nat string unit string :=
  {| po_input := inputOf "a.pp" "p";
     po_originalPipeline := {| addr := 18; items := [editT] |};
     po_pipeline := [editT]; po_cacheEntry := None;
     po_previousGenerate := None |}.

(** A file of 5,000,001 bytes, delivered in one chunk. *)
Definition bigChunk : list byte := repeat x00 (Z.to_nat 5000001).

Definition bigPf : @Platform string :=
  {| md5 := demo_md5; extname := demo_extname; stringify := id;
     disk := fun _ => Some [bigChunk] |}.

(** Emits no result. *)
Definition dropT : Plugin :=
  {| tid := 8; t_getConfig := None; t_canReuseAST := None; t_parse := None;
     t_transform := fun input _ => Returned ([], input);
     t_generate := None; t_postProcess := None |}.

Definition dropOpts
    : @PipelineOpts nat string nat string unit string :=
  {| po_input := inputOf "a.ng" "n";
     po_originalPipeline := {| addr := 15; items := [dropT; noGen] |};
     po_pipeline := [dropT; noGen]; po_cacheEntry := None;
     po_previousGenerate := None |}.

Definition htmlOpts
    : @PipelineOpts nat string nat string unit string :=
  {| po_input := inputOf "x.html" "h";
     po_originalPipeline := {| addr := 16; items := [htmlT; htmlT] |};
     po_pipeline := [htmlT; htmlT]; po_cacheEntry := None;
     po_previousGenerate := None |}.

(** The entry for a.md, recorded when b.txt had other content. *)
Definition outdatedHtml : DemoAsset :=
  {| asset_idBase := "a.md"; asset_filePath := "a.md"; asset_type := "html";
     asset_content := BString "<p>hi</p>";
     asset_hash := Some "#<p>hi</p>"; asset_ast := None; asset_map := None;
     asset_env := "{}"; asset_time := 0; asset_size := 9;
     asset_sideEffects := None; asset_dependencies := [];
     asset_connectedFiles :=
       [{| file_filePath := "b.txt"; file_hash := "#old" |}];
     asset_isIsolated := false; asset_meta := None |}.

Definition outdatedEntry : DemoEntry :=
  {| entry_filePath := "a.md"; entry_env := "{}"; entry_hash := "## hi";
     entry_assets := [outdatedHtml]; entry_initialAssets := None |}.

(** Inline code for the path a.md, with the bytes a.md has on disk. *)
Definition inlineHi : @AssetRequest string :=
  {| req_filePath := "a.md"; req_env := "{}"; req_code := Some "# hi";
     req_sideEffects := None |}.

(** The same files, with a.md delivered in two chunks. *)
Definition splitPf : @Platform string :=
  {| md5 := demo_md5; extname := demo_extname; stringify := id;
     disk := fun path =>
       if String.eqb path "a.md"
       then Some [String.list_byte_of_string "# ";
                  String.list_byte_of_string "hi"]
       else files path |}.

(** The entry for a.md, with an asset that depends on a file that is gone. *)
Definition danglingHtml : DemoAsset :=
  {| asset_idBase := "a.md"; asset_filePath := "a.md"; asset_type := "html";
     asset_content := BString "<p>hi</p>";
     asset_hash := Some "#<p>hi</p>"; asset_ast := None; asset_map := None;
     asset_env := "{}"; asset_time := 0; asset_size := 9;
     asset_sideEffects := None; asset_dependencies := [];
     asset_connectedFiles :=
       [{| file_filePath := "gone.txt"; file_hash := "#dep" |}];
     asset_isIsolated := false; asset_meta := None |}.

Definition danglingEntry : DemoEntry :=
  {| entry_filePath := "a.md"; entry_env := "{}"; entry_hash := "## hi";
     entry_assets := [danglingHtml]; entry_initialAssets := None |}.

End Demo.

Module DemoRequest.

Import AssetRequest_js.

Definition input : @AssetRequestInput string nat :=
  {| filePath := "a.md"; env := "{}"; code := None; sideEffects := None;
     optionsRef := 1%nat |}.

Definition htmlAsset : @Asset string :=
  {| payload := "<p>hi</p>"; stats_time := 0; stats_size := 9;
     includedFiles := ["a.md"; "b.txt"] |}.

Definition cssAsset : @Asset string :=
  {| payload := "p{}"; stats_time := 0; stats_size := 3;
     includedFiles := [] |}.

Definition babelrc : @ConfigRequestPair string :=
  {| request := "babel";
     result := {| resolvedPath := Some ".babelrc";
                  cfg_includedFiles := ["package.json"];
                  watchGlob := None;
                  shouldInvalidateOnStartup := false;
                  devDeps := [("dep", "1.0.0")] |} |}.

Definition opts : @RunOpts string nat string string :=
  {| md5FromObject := fun h =>
       match h with
       | HBody b => rb_filePath b
       | HConfigRequest r => r
       | HDepVersion r => moduleSpecifier r
       end;
     realpath := fun p => Ok ("/real/" +:+ p);
     lockFile := Some "yarn.lock";
     parcelConfig := Ok (Some ".parcel-cache/config");
     childRequest := fun _ _ => Ok tt;
     farmRunTransform := fun _ =>
       Ok {| wr_assets := [htmlAsset; cssAsset];
             wr_configRequests := [babelrc] |};
     clock := fun n => 1000 + 250 * Z.of_nat n |}.

Definition start : RunState := {| reads := 0; calls := [] |}.

(** The same request with a worker that fails. *)
Definition failingOpts : @RunOpts string nat string string :=
  {| md5FromObject := md5FromObject opts;
     realpath := realpath opts;
     lockFile := lockFile opts;
     parcelConfig := parcelConfig opts;
     childRequest := childRequest opts;
     farmRunTransform := fun _ => Throw (HookThrew "worker");
     clock := clock opts |}.

(** The same request when the version request for dep is rejected. *)
Definition rejectingOpts : @RunOpts string nat string string :=
  {| md5FromObject := md5FromObject opts;
     realpath := realpath opts;
     lockFile := lockFile opts;
     parcelConfig := parcelConfig opts;
     childRequest := fun id _ =>
       if String.eqb id "dep_version_request:dep"
       then Throw (HookThrew "cancelled") else Ok tt;
     farmRunTransform := farmRunTransform opts;
     clock := clock opts |}.

End DemoRequest.

(** * Properties of TransformerRunner.js *)

Section RunnerFacts.

Import TransformerRunner_js.

Context {AST SourceMap PluginConfig Env Meta Dependency : Type}.
Variable pf : @Platform Env.
Variable this : @TransformerRunner AST SourceMap PluginConfig Env Meta Dependency.

Local Abbreviation Asset := (@InternalAsset AST SourceMap Env Meta Dependency).
Local Abbreviation Entry := (@CacheEntry AST SourceMap Env Meta Dependency).
Local Abbreviation Store := (@Store AST SourceMap Env Meta Dependency).
Local Abbreviation Opts := (@PipelineOpts AST SourceMap PluginConfig Env Meta Dependency).
Local Abbreviation Plugin := (@Transformer AST SourceMap PluginConfig Env Meta Dependency).
Local Abbreviation GenFn := (@GenerateFunc AST SourceMap PluginConfig Env Meta Dependency).

(** ** The pipeline monad *)

Lemma bind_Ok {A B} (m : P A) (k : A -> P B) a l :
  m = (Ok a, l) -> bind m k = (fst (k a), l ++ snd (k a)).
Proof. intros ->. unfold bind. destruct (k a); reflexivity. Qed.

Lemma bind_Throw {A B} (m : P A) (k : A -> P B) e l :
  m = (Throw e, l) -> bind m k = (Throw e, l).
Proof. intros ->. reflexivity. Qed.

Lemma bind_ret {A B} (a : A) (k : A -> P B) : bind (ret a) k = k a.
Proof. unfold bind, ret. destruct (k a); reflexivity. Qed.

(** ** summarizeRequest *)

Lemma tap_stream path p size chunks :
  fold_left (tap path) chunks (BStream p, size)
  = (BStream p, size + Z.of_nat (length (concat chunks))).
Proof.
  revert size. induction chunks as [|c cs IH]; intros size; simpl.
  - f_equal. lia.
  - rewrite IH. f_equal. rewrite length_app. lia.
Qed.

Lemma tap_buffer path b chunks :
  Z.of_nat (length b) <= BUFFER_LIMIT ->
  fold_left (tap path) chunks (BBuffer b, Z.of_nat (length b))
  = (if Z.of_nat (length (b ++ concat chunks)) <=? BUFFER_LIMIT
     then BBuffer (b ++ concat chunks) else BStream path,
     Z.of_nat (length (b ++ concat chunks))).
Proof.
  revert b. induction chunks as [|c cs IH]; intros b Hb; simpl.
  - rewrite app_nil_r. destruct (Z.leb_spec (Z.of_nat (length b)) BUFFER_LIMIT);
      [reflexivity | lia].
  - destruct (Z.ltb_spec BUFFER_LIMIT (Z.of_nat (length b) + Z.of_nat (length c)))
      as [Hover | Hfit].
    + rewrite tap_stream.
      destruct (Z.leb_spec (Z.of_nat (length (b ++ c ++ concat cs))) BUFFER_LIMIT)
        as [Hle | Hgt].
      * rewrite !length_app in Hle. lia.
      * f_equal. rewrite !length_app. lia.
    + replace (Z.of_nat (length b) + Z.of_nat (length c))
        with (Z.of_nat (length (b ++ c))) by (rewrite length_app; lia).
      rewrite IH by (rewrite length_app; lia).
      rewrite <- app_assoc. reflexivity.
Qed.

(** What [summarizeRequest] returns for a file: the whole content in a
    buffer up to [BUFFER_LIMIT] bytes, a fresh stream above. *)
Lemma summarizeRequest_file req chunks :
  req_code req = None ->
  disk pf (req_filePath req) = Some chunks ->
  summarizeRequest pf req
  = Ok {| sum_content :=
            if Z.of_nat (length (concat chunks)) <=? BUFFER_LIMIT
            then BBuffer (concat chunks) else BStream (req_filePath req);
          sum_hash := md5 pf (concat chunks);
          sum_size := Z.of_nat (length (concat chunks)) |}.
Proof.
  intros Hcode Hdisk. unfold summarizeRequest. rewrite Hcode, Hdisk.
  change 0 with (Z.of_nat (length (@nil byte))).
  rewrite tap_buffer by (unfold BUFFER_LIMIT; simpl; lia).
  reflexivity.
Qed.

(** C7, as the code has it.  For a file request the hash and the size are
    those of the whole file; the content is the whole file in a buffer when
    the size is at most 5,000,000 bytes ([BUFFER_LIMIT]), and a fresh read
    stream on the path from 5,000,001 bytes on. *)
Theorem file_is_buffered_up_to_BUFFER_LIMIT req chunks :
  req_code req = None ->
  disk pf (req_filePath req) = Some chunks ->
  exists s,
    summarizeRequest pf req = Ok s
    /\ sum_hash s = md5 pf (concat chunks)
    /\ sum_size s = Z.of_nat (length (concat chunks))
    /\ (sum_size s <= 5000000 -> sum_content s = BBuffer (concat chunks))
    /\ (5000001 <= sum_size s -> sum_content s = BStream (req_filePath req)).
Proof.
  intros Hcode Hdisk. eexists. split; [by apply summarizeRequest_file|].
  simpl. unfold BUFFER_LIMIT. repeat split.
  - intros Hle. destruct (Z.leb_spec (Z.of_nat (length (concat chunks))) 5000000);
      [reflexivity|lia].
  - intros Hgt. destruct (Z.leb_spec (Z.of_nat (length (concat chunks))) 5000000);
      [lia|reflexivity].
Qed.

(** ** transform *)

Lemma commitAll_log (assets : list Asset) (st : Store) :
  logOf (commitAll pf assets st) = []
  /\ entries (storeOf (commitAll pf assets st)) = entries st.
Proof.
  revert st. induction assets as [|a l IH]; intros st; simpl; [auto|].
  unfold bindT, commit.
  destruct (blobBytes pf (asset_content a)) as [bytes|e]; simpl; [|auto].
  specialize (IH {| entries := entries st;
                    blobs := <[md5 pf bytes := bytes]> (blobs st) |}).
  destruct (commitAll pf l _) as [[o st'] lg]. simpl in *.
  destruct IH as [-> ->]. auto.
Qed.

Lemma commitAll_outcome (assets : list Asset) (st st' : Store) :
  outcomeOf (commitAll pf assets st) = outcomeOf (commitAll pf assets st').
Proof.
  revert st st'. induction assets as [|a l IH]; intros st st'; simpl; [auto|].
  unfold bindT, commit.
  destruct (blobBytes pf (asset_content a)) as [bytes|e]; simpl; [|auto].
  specialize (IH {| entries := entries st;
                    blobs := <[md5 pf bytes := bytes]> (blobs st) |}
                 {| entries := entries st';
                    blobs := <[md5 pf bytes := bytes]> (blobs st') |}).
  destruct (commitAll pf l {| entries := entries st; blobs := _ |})
    as [[o1 t1] l1].
  destruct (commitAll pf l {| entries := entries st'; blobs := _ |})
    as [[o2 t2] l2].
  unfold outcomeOf in *. simpl in *. exact IH.
Qed.

Ltac unfold_transform :=
  unfold transform, bindT, emit, cacheGet, cacheSet, retT, liftP, liftO,
    outcomeOf, storeOf, logOf.

Lemma transform_hit fuel req (st : Store) (ce : Entry) s :
  lookupEnabled this req = true ->
  entries st !! reqCacheKey pf req = Some ce ->
  summarizeRequest pf req = Ok s ->
  entry_hash ce = sum_hash s ->
  checkCachedAssets pf (entry_assets ce) = Ok true ->
  transform pf this fuel req st
  = (Ok ce, st, [Report; CacheGet (reqCacheKey pf req)]).
Proof.
  intros Hlook Hget Hsum Hhash Hcheck.
  unfold_transform. rewrite Hlook. simpl. rewrite Hget, Hsum. simpl.
  unfold validEntry. rewrite Hhash, String.eqb_refl, Hcheck. reflexivity.
Qed.

(** C1.  A request that finds a cached entry whose hash is the re-hashed
    source and whose assets' connected files all re-hash to their recorded
    hashes is answered with that entry: the store is left as it was and the
    log holds the progress report and the cache read, no hook call. *)
Theorem cache_hit_runs_no_hook fuel req (st : Store) (ce : Entry) s :
  lookupEnabled this req = true ->
  entries st !! reqCacheKey pf req = Some ce ->
  summarizeRequest pf req = Ok s ->
  entry_hash ce = sum_hash s ->
  checkCachedAssets pf (entry_assets ce) = Ok true ->
  outcomeOf (transform pf this fuel req st) = Ok ce
  /\ storeOf (transform pf this fuel req st) = st
  /\ logOf (transform pf this fuel req st)
     = [Report; CacheGet (reqCacheKey pf req)]
  /\ forall c, Hook c ∉ logOf (transform pf this fuel req st).
Proof.
  intros Hlook Hget Hsum Hhash Hcheck.
  rewrite (transform_hit fuel req st ce s) by assumption.
  repeat split. intros c Hc. cbn in Hc.
  apply elem_of_cons in Hc as [Hc | Hc]; [discriminate|].
  apply elem_of_cons in Hc as [Hc | Hc]; [discriminate|].
  by apply elem_of_nil in Hc.
Qed.

Lemma transform_eq fuel req (st : Store) :
  transform pf this fuel req st =
  match summarizeRequest pf req with
  | Throw e => (Throw e, st, lookupLog pf this req)
  | Ok s =>
      match validEntry pf (lookedUp pf this req st) (sum_hash s) with
      | Throw e => (Throw e, st, lookupLog pf this req)
      | Ok (Some ce) => (Ok ce, st, lookupLog pf this req)
      | Ok None =>
          match requestPipeline pf this fuel req (lookedUp pf this req st) s with
          | (Throw e, hooks) =>
              (Throw e, st, lookupLog pf this req ++ List.map Hook hooks)
          | (Ok r, hooks) =>
              match commitAll pf
                      (pr_assets r ++ default [] (pr_initialAssets r)) st with
              | (Throw e, st1, _) =>
                  (Throw e, st1, lookupLog pf this req ++ List.map Hook hooks)
              | (Ok _, st1, _) =>
                  (Ok (freshEntry req s r),
                   {| entries := <[reqCacheKey pf req := freshEntry req s r]>
                                   (entries st1);
                      blobs := blobs st1 |},
                   lookupLog pf this req ++ List.map Hook hooks
                     ++ [CacheSet (reqCacheKey pf req)])
              end
          end
      end
  end.
Proof.
  unfold_transform. unfold lookedUp, lookupLog, requestPipeline, freshEntry.
  destruct (lookupEnabled this req); simpl;
    (destruct (summarizeRequest pf req) as [s|e]; simpl; [|reflexivity]);
    try (match goal with
         | |- context [validEntry pf ?c ?h] =>
             destruct (validEntry pf c h) as [[ce|]|e]; simpl;
             [reflexivity| |reflexivity]
         end);
    (match goal with
     | |- context [runPipeline pf this fuel ?o] =>
         destruct (runPipeline pf this fuel o) as [[r|e] hooks]; simpl;
         [|rewrite ?app_nil_r; reflexivity]
     end);
    match goal with
    | |- context [commitAll pf ?l st] =>
        pose proof (commitAll_log l st) as [Hlog _];
        destruct (commitAll pf l st) as [[[[]|e] st1] lg];
        unfold logOf in Hlog; simpl in Hlog; subst lg; simpl;
        rewrite ?app_nil_r; reflexivity
    end.
Qed.

Lemma validEntry_Some (cached : option Entry) h ce :
  validEntry pf cached h = Ok (Some ce) ->
  cached = Some ce /\ entry_hash ce = h
  /\ checkCachedAssets pf (entry_assets ce) = Ok true.
Proof.
  unfold validEntry. destruct cached as [c|]; [|discriminate].
  destruct (String.eqb_spec (entry_hash c) h) as [Hh|]; [|discriminate].
  destruct (checkCachedAssets pf (entry_assets c)) as [[]|] eqn:Hc;
    try discriminate.
  intros [= ->]. auto.
Qed.

Lemma lookedUp_Some req (st : Store) ce :
  lookedUp pf this req st = Some ce ->
  lookupEnabled this req = true /\ entries st !! reqCacheKey pf req = Some ce.
Proof. unfold lookedUp. destruct (lookupEnabled this req); [auto|discriminate]. Qed.

Lemma lookupEnabled_false req :
  lookupEnabled this req = false
  <-> (req_code req <> None \/ opt_cache (options this) = Some false).
Proof.
  unfold lookupEnabled.
  destruct (opt_cache (options this)) as [[]|], (req_code req);
    split; intros H; try discriminate; try reflexivity; auto;
    destruct H as [H|H]; congruence.
Qed.

Lemma not_in_hooks (e : Event) (hooks : list HookCall) :
  (forall c, e <> Hook c) -> ~ In e (List.map Hook hooks).
Proof. intros He Hin. apply in_map_iff in Hin as (c & <- & _). by eapply He. Qed.

Lemma transform_Ok_inv fuel req (st : Store) (e : Entry) :
  outcomeOf (transform pf this fuel req st) = Ok e ->
  (exists s, summarizeRequest pf req = Ok s /\ entry_hash e = sum_hash s)
  /\ entries (storeOf (transform pf this fuel req st)) !! reqCacheKey pf req
     = Some e
  /\ (forall k, k <> reqCacheKey pf req ->
        entries (storeOf (transform pf this fuel req st)) !! k
        = entries st !! k)
  /\ (lookupEnabled this req = false ->
        entries (storeOf (transform pf this fuel req st))
        = <[reqCacheKey pf req := e]> (entries st)).
Proof.
  rewrite transform_eq.
  destruct (summarizeRequest pf req) as [s|]; [|discriminate].
  destruct (validEntry pf (lookedUp pf this req st) (sum_hash s))
    as [[ce|]|] eqn:Hvalid; [| |discriminate].
  - apply validEntry_Some in Hvalid as (Hl & Hhash & _).
    apply lookedUp_Some in Hl as [Hen Hget].
    unfold outcomeOf, storeOf. simpl. intros [= <-].
    split; [eauto|]. split; [assumption|]. split; [reflexivity|congruence].
  - destruct (requestPipeline pf this fuel req _ s) as [[r|] hooks];
      [|discriminate].
    match goal with
    | |- context [commitAll pf ?l st] =>
        pose proof (commitAll_log l st) as [_ Hent];
        destruct (commitAll pf l st) as [[[[]|] st1] lg]; [|discriminate]
    end.
    unfold outcomeOf, storeOf in *. simpl in *. intros [= <-].
    rewrite Hent. split; [eauto|]. split; [apply lookup_insert_eq|].
    split; [|reflexivity]. intros k Hk. by apply lookup_insert_ne.
Qed.


(** C4, as the code has it.  Whatever the request, file or inline code, a
    run of [transform] that completes leaves its entry in the request cache
    under [md5(filePath + JSON.stringify(env))] and changes no other key;
    a request for which no lookup is made (inline code among them) always
    writes that key. *)
Theorem completed_request_is_persisted fuel req (st : Store) (e : Entry) :
  outcomeOf (transform pf this fuel req st) = Ok e ->
  entries (storeOf (transform pf this fuel req st)) !! reqCacheKey pf req
    = Some e
  /\ (forall k, k <> reqCacheKey pf req ->
        entries (storeOf (transform pf this fuel req st)) !! k
        = entries st !! k)
  /\ (lookupEnabled this req = false ->
        entries (storeOf (transform pf this fuel req st))
        = <[reqCacheKey pf req := e]> (entries st)).
Proof. intros Hok. by apply transform_Ok_inv in Hok as [_ H]. Qed.

(** C5.  No lookup is made exactly for inline code and for
    [options.cache === false]; then the log has no cache read and the
    outcome is the same whatever the cache holds.  Otherwise the run starts
    with the one lookup, under the request's key. *)
Theorem lookup_only_for_files_with_cache_on fuel req :
  (lookupEnabled this req = false
   <-> (req_code req <> None \/ opt_cache (options this) = Some false))
  /\ (lookupEnabled this req = false ->
      forall st st' : Store,
        (forall k, ~ In (CacheGet k) (logOf (transform pf this fuel req st)))
        /\ outcomeOf (transform pf this fuel req st)
           = outcomeOf (transform pf this fuel req st'))
  /\ (lookupEnabled this req = true ->
      forall st : Store, exists rest,
        logOf (transform pf this fuel req st)
        = Report :: CacheGet (reqCacheKey pf req) :: rest
        /\ forall k, ~ In (CacheGet k) rest).
Proof.
  split; [apply lookupEnabled_false|]. split.
  - intros Hoff st st'. rewrite !transform_eq.
    unfold lookedUp, lookupLog. rewrite Hoff.
    destruct (summarizeRequest pf req) as [s|]; simpl.
    2:{ split; [|reflexivity]. intros k [Hk|[]]; discriminate. }
    destruct (requestPipeline pf this fuel req None s) as [[r|] hooks].
    2:{ split; [|reflexivity]. unfold logOf; simpl.
        intros k [Hk|Hk]; [discriminate|].
        revert Hk. apply not_in_hooks. discriminate. }
    pose proof (commitAll_outcome
                  (pr_assets r ++ default [] (pr_initialAssets r)) st st')
      as Hsame.
    destruct (commitAll pf _ st) as [[[[]|] st1] lg];
      destruct (commitAll pf _ st') as [[[[]|] st1'] lg'];
      unfold outcomeOf, logOf in *; simpl in *; try discriminate;
      (split; [|congruence]);
      intros k [Hk|Hk]; try discriminate;
      try (apply in_app_or in Hk as [Hk|[Hk|[]]]; [|discriminate]);
      revert Hk; apply not_in_hooks; discriminate.
  - intros Hon st. rewrite transform_eq. unfold lookupLog. rewrite Hon.
    destruct (summarizeRequest pf req) as [s|]; simpl.
    2:{ exists []. split; [reflexivity|]. intros k []. }
    destruct (validEntry pf _ (sum_hash s)) as [[ce|]|]; simpl.
    1,3: exists []; (split; [reflexivity|]); intros k [].
    destruct (requestPipeline pf this fuel req _ s) as [[r|] hooks].
    2:{ eexists. split; [reflexivity|]. intros k.
        apply not_in_hooks. discriminate. }
    destruct (commitAll pf _ st) as [[[[]|] st1] lg]; unfold logOf; simpl;
      (eexists; split; [reflexivity|]); intros k Hk;
      try (apply in_app_or in Hk as [Hk|[Hk|[]]]; [|discriminate]);
      revert Hk; apply not_in_hooks; discriminate.
Qed.

(** ** runTransform *)

Lemma cannotReuse_true (transformer : Plugin) (ast : AST) :
  fst (cannotReuse transformer ast) = Ok true
  <-> (t_canReuseAST transformer = None
       \/ exists h, t_canReuseAST transformer = Some h
                    /\ h ast = Returned false).
Proof.
  unfold cannotReuse. destruct (t_canReuseAST transformer) as [h|]; simpl.
  - split.
    + destruct (h ast) as [[]|] eqn:Hh; simpl; try discriminate.
      intros _. right. eauto.
    + intros [|(h' & [= <-] & ->)]; [discriminate|reflexivity].
  - split; auto.
Qed.

Lemma cannotReuse_false (transformer : Plugin) (ast : AST) :
  fst (cannotReuse transformer ast) = Ok false
  <-> exists h, t_canReuseAST transformer = Some h /\ h ast = Returned true.
Proof.
  unfold cannotReuse. destruct (t_canReuseAST transformer) as [h|]; simpl.
  - split.
    + destruct (h ast) as [[]|] eqn:Hh; simpl; try discriminate. eauto.
    + intros (h' & [= <-] & ->). reflexivity.
  - split; [discriminate|]. intros (h & ? & _). discriminate.
Qed.

Lemma regenerate_calls_previous (input : Asset) (transformer : Plugin)
    (prev : GenFn) ast :
  asset_ast input = Some ast ->
  fst (cannotReuse transformer ast) = Ok true ->
  regenerate input transformer (Some prev)
  = (match fst (callGenerate prev input) with
     | Ok (output, input') =>
         Ok (set_ast (set_content_map input' (out_code output)
                                      (out_map output)) None)
     | Throw e => Throw e
     end,
     snd (cannotReuse transformer ast) ++ snd (callGenerate prev input)).
Proof.
  intros Hast Hcannot. unfold regenerate. rewrite Hast.
  destruct (cannotReuse transformer ast) as [o l]. simpl in Hcannot. subst o.
  unfold bind. simpl.
  destruct (callGenerate prev input) as [[[output input']|e] l']; simpl;
    rewrite ?app_nil_r; reflexivity.
Qed.

Lemma regenerate_keeps_reusable (input : Asset) (transformer : Plugin)
    (previousGenerate : option GenFn)
    ast :
  asset_ast input = Some ast ->
  fst (cannotReuse transformer ast) = Ok false ->
  regenerate input transformer previousGenerate
  = (Ok input, [{| hc_transformer := tid transformer;
                  hc_hook := CanReuseAST |}]).
Proof.
  intros Hast Hcan. apply cannotReuse_false in Hcan as (h & Hh & Hret).
  unfold regenerate, cannotReuse. rewrite Hast, Hh. unfold invoke, bind.
  rewrite Hret. reflexivity.
Qed.

(** C3.  The AST steps of [runTransform], which run between [getConfig] and
    [transform].  (1) With an AST that the transformer cannot reuse and a
    [previousGenerate], [previousGenerate] is called; its output overwrites
    content and map and the AST is set to null.  (2) Without an AST and with
    a [parse] hook, [parse] is called and its result is the AST.  (3) With
    an AST the transformer can reuse, the asset is left as it is, and neither
    [previousGenerate] nor [parse] is called. *)
Theorem runTransform_reconciles_ast (input : Asset) (transformer : Plugin)
    (previousGenerate : option GenFn) (config : option PluginConfig) :
  runTransform input transformer previousGenerate
  = (let* (config, input) := loadConfig input transformer in
     let* input := regenerate input transformer previousGenerate in
     let* input := parseIfMissing input transformer config in
     let* (outputs, input) :=
       invoke (tid transformer) Transform
              (t_transform transformer input config) in
     ret {| ts_input := input;
            ts_results := normalizeAssets outputs;
            ts_generate := {| gen_transformer := transformer;
                              gen_config := config |};
            ts_config := config |})
  /\ (forall ast prev gen output input',
        asset_ast input = Some ast ->
        (t_canReuseAST transformer = None
         \/ exists h, t_canReuseAST transformer = Some h
                      /\ h ast = Returned false) ->
        previousGenerate = Some prev ->
        t_generate (gen_transformer prev) = Some gen ->
        gen input (gen_config prev) = Returned (output, input') ->
        exists regenerated,
          fst (regenerate input transformer previousGenerate) = Ok regenerated
          /\ In {| hc_transformer := tid (gen_transformer prev);
                   hc_hook := Generate |}
                (snd (regenerate input transformer previousGenerate))
          /\ asset_content regenerated = out_code output
          /\ asset_map regenerated = out_map output
          /\ asset_ast regenerated = None)
  /\ (forall parse ast input',
        asset_ast input = None ->
        t_parse transformer = Some parse ->
        parse input config = Returned (ast, input') ->
        parseIfMissing input transformer config
        = (Ok (set_ast input' ast),
           [{| hc_transformer := tid transformer; hc_hook := Parse |}])
        /\ asset_ast (set_ast input' ast) = ast)
  /\ (forall ast h,
        asset_ast input = Some ast ->
        t_canReuseAST transformer = Some h ->
        h ast = Returned true ->
        regenerate input transformer previousGenerate
        = (Ok input, [{| hc_transformer := tid transformer;
                        hc_hook := CanReuseAST |}])
        /\ parseIfMissing input transformer config = (Ok input, [])).
Proof.
  split; [reflexivity|]. split; [|split].
  - intros ast prev gen output input' Hast Hcannot -> Hgen Hret.
    apply cannotReuse_true in Hcannot.
    rewrite (regenerate_calls_previous input transformer prev ast Hast Hcannot).
    unfold callGenerate. rewrite Hgen. unfold invoke. rewrite Hret. simpl.
    eexists. split; [reflexivity|]. split; [|auto].
    apply in_or_app. right. left. reflexivity.
  - intros parse ast input' Hast Hparse Hret.
    unfold parseIfMissing. rewrite Hast, Hparse. unfold invoke, bind.
    rewrite Hret. simpl. split; reflexivity.
  - intros ast h Hast Hh Hret. split.
    + apply (regenerate_keeps_reusable input transformer previousGenerate ast Hast).
      apply cannotReuse_false. eauto.
    + unfold parseIfMissing. rewrite Hast. reflexivity.
Qed.

(** ** runPipeline: what happens to a child *)

Lemma forallb_combine_tid (a b : list Plugin) :
  length a = length b ->
  forallb (fun '(p, q) => (tid p =? tid q)%nat) (combine a b) = true
  <-> shallowEqual a b.
Proof.
  revert b. induction a as [|p a IH]; intros [|q b] Hlen; simpl in *;
    try discriminate.
  - split; [constructor|reflexivity].
  - rewrite andb_true_iff, Nat.eqb_eq, IH by lia. split.
    + intros [Hpq Hab]. by constructor.
    + intros Hall. inversion Hall; subst. auto.
Qed.

Lemma shallowEqual_refl (a : list Plugin) : shallowEqual a a.
Proof. induction a; by constructor. Qed.

Lemma isEqualPipeline_shallow (a b : JsArray Plugin) :
  sameObject a b ->
  isEqualPipeline a b = true <-> shallowEqual (items a) (items b).
Proof.
  intros Hsame. unfold isEqualPipeline.
  destruct (Nat.eqb_spec (addr a) (addr b)) as [Haddr|_].
  - rewrite (Hsame Haddr). split; [intros _; apply shallowEqual_refl|auto].
  - destruct (Nat.eqb_spec (length (items a)) (length (items b))) as [Hlen|Hlen];
      simpl.
    + by apply forallb_combine_tid.
    + split; [discriminate|]. intros Hall.
      apply Forall2_length in Hall. contradiction.
Qed.

Lemma isEqualPipeline_refl (a : JsArray Plugin) : isEqualPipeline a a = true.
Proof. unfold isEqualPipeline. by rewrite Nat.eqb_refl. Qed.

Lemma bind_assoc {A B C} (m : P A) (f : A -> P B) (g : B -> P C) :
  bind (bind m f) g = bind m (fun a => bind (f a) g).
Proof.
  destruct m as [[a|e] l]; unfold bind; [|reflexivity].
  destruct (f a) as [[b|e] l1]; [|reflexivity].
  destruct (g b) as [o l2]. by rewrite app_assoc.
Qed.

Lemma bind_ext {A B} (m : P A) (f g : A -> P B) :
  (forall a, f a = g a) -> bind m f = bind m g.
Proof. intros H. destruct m as [[a|e] l]; unfold bind; by rewrite ?H. Qed.

(** One turn of the loop, once the way out of its body is known. *)
Lemma forEachResult_cons (rec : Opts -> P PipelineResult) (input : Asset)
    inputType (originalPipeline : JsArray Plugin) pipeline cacheEntry
    (generate : GenFn) result more assets step :
  planChild pf this input inputType originalPipeline pipeline cacheEntry
            generate result = (Ok step, []) ->
  forEachResult pf this rec input inputType originalPipeline pipeline
                cacheEntry generate (result :: more) assets
  = match step with
    | ReuseCached cachedAssets =>
        forEachResult pf this rec input inputType originalPipeline pipeline
                      cacheEntry generate more (assets ++ cachedAssets)
    | Finalize asset g =>
        let* a := finalize asset g in
        forEachResult pf this rec input inputType originalPipeline pipeline
                      cacheEntry generate more (assets ++ [a])
    | RunTail o | Jump o =>
        let* nextPipelineResult := rec o in
        forEachResult pf this rec input inputType originalPipeline pipeline
                      cacheEntry generate more
                      (assets ++ pr_assets nextPipelineResult)
    end.
Proof.
  intros Hplan. cbn [forEachResult]. rewrite Hplan.
  change (Ok step, []) with (ret (A := ChildStep) step). rewrite bind_ret.
  destruct step as [cachedAssets|asset g|o|o]; cbn [runChild].
  - by rewrite bind_ret.
  - rewrite bind_assoc. apply bind_ext. intros a. by rewrite bind_ret.
  - rewrite bind_assoc. apply bind_ext. intros r. by rewrite bind_ret.
  - rewrite bind_assoc. apply bind_ext. intros r. by rewrite bind_ret.
Qed.

(** The way out of the loop body for a child that is not taken over from
    the cache entry. *)
Lemma planChild_not_reused (input : Asset) (inputType : string)
    (originalPipeline : JsArray Plugin) (pipeline : list Plugin)
    (cacheEntry : option Entry) (generate : GenFn)
    (result : TransformerResult) :
  reuseFromCache pf cacheEntry (createChildAsset pf input result) = Ok None ->
  sameObject originalPipeline
             (getTransformers (config this) (nextFilePath pf input result)) ->
  exists step,
    planChild pf this input inputType originalPipeline pipeline cacheEntry
              generate result = (Ok step, [])
    /\ ((exists o, step = Jump o)
        <-> (res_type result <> inputType
             /\ ~ shallowEqual
                    (items originalPipeline)
                    (items (getTransformers (config this)
                                            (nextFilePath pf input result)))))
    /\ (forall o, step = Jump o ->
          o = {| po_input := createChildAsset pf input result;
                 po_originalPipeline :=
                   getTransformers (config this) (nextFilePath pf input result);
                 po_pipeline :=
                   items (getTransformers (config this)
                                          (nextFilePath pf input result));
                 po_cacheEntry := None;
                 po_previousGenerate := Some generate |})
    /\ ((forall o, step <> Jump o) ->
          (length pipeline = 1%nat ->
             step = Finalize (createChildAsset pf input result) generate)
          /\ (length pipeline <> 1%nat ->
                step = RunTail
                         {| po_input := createChildAsset pf input result;
                            po_originalPipeline := originalPipeline;
                            po_pipeline := tail pipeline;
                            po_cacheEntry := None;
                            po_previousGenerate := Some generate |})).
Proof.
  intros Hreuse Hsame. unfold planChild. rewrite Hreuse.
  unfold liftO, bind, nextPipelineFor.
  destruct (String.eqb_spec (res_type result) inputType) as [Htype|Htype].
  - rewrite isEqualPipeline_refl.
    destruct (Nat.eqb_spec (length pipeline) 1) as [Hlen|Hlen]; simpl;
      (eexists; split; [reflexivity|]);
      (split; [split; [intros [o [=]] | intros [Hne _]; contradiction]|]);
      (split; [intros o [=]|]); intros _; (split; [intros Hl|intros Hl]);
      try reflexivity; contradiction.
  - destruct (isEqualPipeline originalPipeline _) eqn:Heq.
    + apply (isEqualPipeline_shallow _ _ Hsame) in Heq.
      destruct (Nat.eqb_spec (length pipeline) 1) as [Hlen|Hlen]; simpl;
        (eexists; split; [reflexivity|]);
        (split; [split; [intros [o [=]] | intros [_ Hne]; contradiction]|]);
        (split; [intros o [=]|]); intros _; (split; [intros Hl|intros Hl]);
        try reflexivity; contradiction.
    + simpl. eexists. split; [reflexivity|].
      split; [split; [intros _|eauto]|].
      * split; [assumption|]. intros Hsh.
        apply (isEqualPipeline_shallow _ _ Hsame) in Hsh. congruence.
      * split; [by intros o [= <-]|]. intros Hno. exfalso. by eapply Hno.
Qed.

Lemma reuseFromCache_None_iff (cacheEntry : option Entry) (asset : Asset) :
  reuseFromCache pf cacheEntry asset = Ok None
  <-> cacheEntry = None
      \/ exists ce,
           cacheEntry = Some ce
           /\ (cachedMatches ce asset = []
               \/ checkCachedAssets pf (cachedMatches ce asset) = Ok false).
Proof.
  unfold reuseFromCache. destruct cacheEntry as [ce|]; [|by split; auto].
  destruct (cachedMatches ce asset) as [|c cs] eqn:Hmatch.
  - split; [intros _; right; exists ce; rewrite Hmatch; auto|reflexivity].
  - destruct (checkCachedAssets pf (c :: cs)) as [[]|e] eqn:Hcheck.
    + split; [discriminate|].
      intros [H|(ce' & [= <-] & [H|H])]; try discriminate; congruence.
    + split; [intros _; right; exists ce; rewrite Hmatch; auto|reflexivity].
    + split; [discriminate|].
      intros [H|(ce' & [= <-] & [H|H])]; try discriminate; congruence.
Qed.

Lemma reuseFromCache_Some (ce : Entry) (asset : Asset) :
  cachedMatches ce asset <> [] ->
  checkCachedAssets pf (cachedMatches ce asset) = Ok true ->
  reuseFromCache pf (Some ce) asset = Ok (Some (cachedMatches ce asset)).
Proof.
  intros Hne Hcheck. unfold reuseFromCache.
  destruct (cachedMatches ce asset) as [|c cs]; [contradiction|].
  by rewrite Hcheck.
Qed.

(** C2, as the code has it.  [rec] is [this.runPipeline], and the equations
    on [forEachResult] say what the loop of [runPipeline] does with the
    child made of [result] before it goes on to the results after it.

    A child is not taken over from the cache entry when there is no entry,
    or no cached asset with the child's hash, or those do not pass
    [checkCachedAssets].  For such a child the jump (a run of the recomputed
    pipeline from its head, with the current [generate] as
    [previousGenerate], whose assets are collected) is made exactly when the
    result's type differs from the input's type and the pipeline recomputed
    for the path with the new extension is not shallow-equal to the original
    one.  Otherwise the child stays on the original pipeline: it is
    finalized and collected when one transformer is left, and sent down the
    tail of the pipeline, whose assets are collected, if more are.

    A child whose hash matches cached assets that pass [checkCachedAssets] is
    replaced by those assets: they are collected, and no pipeline, recomputed
    or original, is run for it and no hook called.  When [checkCachedAssets]
    fails on them, the loop fails with its error. *)
Theorem jump_iff_type_and_pipeline_differ (rec : Opts -> P PipelineResult)
    (input : Asset) (inputType : string)
    (originalPipeline : JsArray Plugin) (pipeline : list Plugin)
    (cacheEntry : option Entry) (generate : GenFn)
    (result : TransformerResult) (more : list TransformerResult)
    (assets : list Asset) :
  sameObject originalPipeline
             (getTransformers (config this) (nextFilePath pf input result)) ->
  (reuseFromCache pf cacheEntry (createChildAsset pf input result) = Ok None
   <-> cacheEntry = None
       \/ exists ce,
            cacheEntry = Some ce
            /\ (cachedMatches ce (createChildAsset pf input result) = []
                \/ checkCachedAssets
                     pf (cachedMatches ce (createChildAsset pf input result))
                   = Ok false))
  /\ (reuseFromCache pf cacheEntry (createChildAsset pf input result) = Ok None ->
      exists step,
        planChild pf this input inputType originalPipeline pipeline cacheEntry
                  generate result = (Ok step, [])
        /\ ((exists o, step = Jump o)
            <-> (res_type result <> inputType
                 /\ ~ shallowEqual
                        (items originalPipeline)
                        (items (getTransformers (config this)
                                  (nextFilePath pf input result)))))
        /\ (forall o, step = Jump o ->
              o = {| po_input := createChildAsset pf input result;
                     po_originalPipeline :=
                       getTransformers (config this)
                                       (nextFilePath pf input result);
                     po_pipeline :=
                       items (getTransformers (config this)
                                              (nextFilePath pf input result));
                     po_cacheEntry := None;
                     po_previousGenerate := Some generate |}
              /\ forEachResult pf this rec input inputType originalPipeline
                               pipeline cacheEntry generate (result :: more)
                               assets
                 = let* nextPipelineResult := rec o in
                   forEachResult pf this rec input inputType originalPipeline
                                 pipeline cacheEntry generate more
                                 (assets ++ pr_assets nextPipelineResult))
        /\ ((forall o, step <> Jump o) ->
              (length pipeline = 1%nat ->
                 step = Finalize (createChildAsset pf input result) generate
                 /\ forEachResult pf this rec input inputType originalPipeline
                                  pipeline cacheEntry generate (result :: more)
                                  assets
                    = let* a := finalize (createChildAsset pf input result)
                                         generate in
                      forEachResult pf this rec input inputType
                                    originalPipeline pipeline cacheEntry
                                    generate more (assets ++ [a]))
              /\ (length pipeline <> 1%nat ->
                    step = RunTail
                             {| po_input := createChildAsset pf input result;
                                po_originalPipeline := originalPipeline;
                                po_pipeline := tail pipeline;
                                po_cacheEntry := None;
                                po_previousGenerate := Some generate |}
                    /\ forEachResult pf this rec input inputType
                                     originalPipeline pipeline cacheEntry
                                     generate (result :: more) assets
                       = let* nextPipelineResult :=
                           rec {| po_input := createChildAsset pf input result;
                                  po_originalPipeline := originalPipeline;
                                  po_pipeline := tail pipeline;
                                  po_cacheEntry := None;
                                  po_previousGenerate := Some generate |} in
                         forEachResult pf this rec input inputType
                                       originalPipeline pipeline cacheEntry
                                       generate more
                                       (assets ++ pr_assets nextPipelineResult))))
  /\ (forall ce,
        cacheEntry = Some ce ->
        cachedMatches ce (createChildAsset pf input result) <> [] ->
        checkCachedAssets
          pf (cachedMatches ce (createChildAsset pf input result)) = Ok true ->
        planChild pf this input inputType originalPipeline pipeline cacheEntry
                  generate result
        = (Ok (ReuseCached
                 (cachedMatches ce (createChildAsset pf input result))), [])
        /\ forEachResult pf this rec input inputType originalPipeline pipeline
                         cacheEntry generate (result :: more) assets
           = forEachResult pf this rec input inputType originalPipeline
                           pipeline cacheEntry generate more
                           (assets
                            ++ cachedMatches ce
                                 (createChildAsset pf input result)))
  /\ (forall ce e,
        cacheEntry = Some ce ->
        cachedMatches ce (createChildAsset pf input result) <> [] ->
        checkCachedAssets
          pf (cachedMatches ce (createChildAsset pf input result)) = Throw e ->
        forEachResult pf this rec input inputType originalPipeline pipeline
                      cacheEntry generate (result :: more) assets
        = (Throw e, [])).
Proof.
  intros Hsame. split; [apply reuseFromCache_None_iff|].
  split; [|split].
  - intros Hreuse.
    destruct (planChild_not_reused input inputType originalPipeline pipeline
                cacheEntry generate result Hreuse Hsame)
      as (step & Hplan & Hiff & Hjump & Hstay).
    exists step. split; [exact Hplan|]. split; [exact Hiff|].
    pose proof (forEachResult_cons rec input inputType originalPipeline
                  pipeline cacheEntry generate result more assets step Hplan)
      as Hloop.
    split.
    + intros o Ho. split; [by apply Hjump|]. by rewrite Hloop, Ho.
    + intros Hno. destruct (Hstay Hno) as [Hone Hmore]. split.
      * intros Hlen. split; [by apply Hone|]. by rewrite Hloop, (Hone Hlen).
      * intros Hlen. split; [by apply Hmore|]. by rewrite Hloop, (Hmore Hlen).
  - intros ce -> Hne Hcheck.
    assert (Hplan : planChild pf this input inputType originalPipeline pipeline
                      (Some ce) generate result
                    = (Ok (ReuseCached
                             (cachedMatches ce
                                (createChildAsset pf input result))), [])).
    { unfold planChild. by rewrite (reuseFromCache_Some ce _ Hne Hcheck). }
    split; [exact Hplan|].
    by rewrite (forEachResult_cons rec input inputType originalPipeline
                  pipeline (Some ce) generate result more assets _ Hplan).
  - intros ce e -> Hne Hcheck. cbn [forEachResult].
    unfold planChild, reuseFromCache.
    destruct (cachedMatches ce (createChildAsset pf input result)) as [|c cs];
      [contradiction|].
    by rewrite Hcheck.
Qed.

(** ** runPipeline: the end of a run *)

Lemma runPipeline_finish fuel (opts : Opts) transformer rest step l1 assets l2 :
  po_pipeline opts = transformer :: rest ->
  runTransform (po_input opts) transformer (po_previousGenerate opts)
    = (Ok step, l1) ->
  childrenOf pf this fuel opts step = (Ok assets, l2) ->
  runPipeline pf this (S fuel) opts
  = (fst (finishPipeline pf (ts_input step) transformer (ts_config step) assets),
     l1 ++ l2
     ++ snd (finishPipeline pf (ts_input step) transformer (ts_config step)
                            assets)).
Proof.
  intros Hpipe Hstep Hloop. unfold childrenOf in Hloop. simpl.
  rewrite Hpipe in *. rewrite Hstep. unfold bind at 1.
  rewrite Hloop. unfold bind at 1.
  destruct (finishPipeline pf _ transformer _ assets) as [o l3]. simpl.
  by rewrite app_assoc.
Qed.

Lemma editedInPlace_length (assets views : list Asset) :
  length (editedInPlace assets views) = length assets.
Proof.
  revert views. induction assets as [|a assets IH]; intros [|v views]; simpl;
    auto.
Qed.

Lemma editedInPlace_untouched (assets : list Asset) :
  editedInPlace assets assets = assets.
Proof. induction assets as [|a assets IH]; simpl; [|rewrite IH]; reflexivity. Qed.

(** C6, as the code has it.  When the head transformer's step and the loop
    over its results have completed with [assets]: with a [postProcess] hook
    that returns results, the run returns the children made of those results
    as [assets] and the array of collected assets as [initialAssets], which
    has the length it had and, for a hook that leaves the assets it is
    handed as they were, the elements it had; without the hook the run
    returns the collected assets and [initialAssets] is null.  A hook that
    yields null fails the run, so that a run that completes has
    [initialAssets] null exactly when the transformer has no hook. *)
Theorem postProcess_decides_initialAssets fuel (opts : Opts)
    (transformer : Plugin) rest step l1 assets l2 :
  po_pipeline opts = transformer :: rest ->
  runTransform (po_input opts) transformer (po_previousGenerate opts)
    = (Ok step, l1) ->
  childrenOf pf this fuel opts step = (Ok assets, l2) ->
  (forall hook results views,
     t_postProcess transformer = Some hook ->
     hook assets (ts_config step) = Returned (Some results, views) ->
     runPipeline pf this (S fuel) opts
     = (Ok {| pr_assets :=
                List.map (createChildAsset pf (ts_input step)) results;
              pr_initialAssets := Some (editedInPlace assets views) |},
        l1 ++ l2 ++ [{| hc_transformer := tid transformer;
                        hc_hook := PostProcess |}])
     /\ length (editedInPlace assets views) = length assets
     /\ (views = assets -> editedInPlace assets views = assets))
  /\ (t_postProcess transformer = None ->
      runPipeline pf this (S fuel) opts
      = (Ok {| pr_assets := assets; pr_initialAssets := None |}, l1 ++ l2))
  /\ (forall hook views,
        t_postProcess transformer = Some hook ->
        hook assets (ts_config step) = Returned (None, views) ->
        runPipeline pf this (S fuel) opts
        = (Throw MapOfNull,
           l1 ++ l2 ++ [{| hc_transformer := tid transformer;
                           hc_hook := PostProcess |}]))
  /\ (forall r,
        fst (runPipeline pf this (S fuel) opts) = Ok r ->
        pr_initialAssets r = None <-> t_postProcess transformer = None).
Proof.
  intros Hpipe Hstep Hloop.
  rewrite (runPipeline_finish fuel opts transformer rest step l1 assets l2)
    by assumption.
  unfold finishPipeline, postProcess. split; [|split; [|split]].
  - intros hook results views -> Hret. unfold invoke, bind. rewrite Hret.
    split; [reflexivity|]. split; [apply editedInPlace_length|].
    intros ->. apply editedInPlace_untouched.
  - intros ->. simpl. by rewrite !app_nil_r.
  - intros hook views -> Hret. unfold invoke, bind. rewrite Hret. reflexivity.
  - intros r. destruct (t_postProcess transformer) as [hook|].
    + unfold invoke, bind.
      destruct (hook assets (ts_config step)) as [[[results|] views]|]; simpl;
        try discriminate.
      intros [= <-]. split; discriminate.
    + simpl. by intros [= <-].
Qed.

(** ** Errors are not caught *)

Lemma bind_Ok_inv {A B} (m : P A) (k : A -> P B) b l :
  bind m k = (Ok b, l) ->
  exists a l1 l2, m = (Ok a, l1) /\ k a = (Ok b, l2) /\ l = l1 ++ l2.
Proof.
  unfold bind. destruct m as [[a|e] l1]; [|discriminate].
  destruct (k a) as [o l2] eqn:Hk. intros [= -> <-]. eauto 6.
Qed.

Lemma bind_fst_Throw {A B} (m : P A) (k : A -> P B) e :
  fst m = Throw e -> fst (bind m k) = Throw e.
Proof. destruct m as [o l]. simpl. intros ->. reflexivity. Qed.

Lemma bind_fst_Ok {A B} (m : P A) (k : A -> P B) a l :
  m = (Ok a, l) -> fst (bind m k) = fst (k a).
Proof. intros ->. unfold bind. by destruct (k a). Qed.

Lemma finalize_missing (asset : Asset) (generate : GenFn) :
  asset_ast asset <> None ->
  t_generate (gen_transformer generate) = None ->
  finalize asset generate = (Throw MissingGenerate, []).
Proof.
  intros Hast Hgen. unfold finalize, callGenerate.
  destruct (asset_ast asset); [|contradiction]. by rewrite Hgen.
Qed.

Lemma forEachResult_throws (rec : Opts -> P PipelineResult) (input : Asset)
    inputType (originalPipeline : JsArray Plugin) pipeline cacheEntry
    (generate : GenFn) done result more assets assets' l0 step l e :
  forEachResult pf this rec input inputType originalPipeline pipeline
                cacheEntry generate done assets = (Ok assets', l0) ->
  planChild pf this input inputType originalPipeline pipeline cacheEntry
            generate result = (Ok step, l) ->
  fst (runChild rec step assets') = Throw e ->
  fst (forEachResult pf this rec input inputType originalPipeline pipeline
                     cacheEntry generate (done ++ result :: more) assets)
  = Throw e.
Proof.
  revert assets l0. induction done as [|d done IH]; intros assets l0 Hdone Hplan Hrun.
  - simpl in Hdone. injection Hdone as -> _. simpl.
    erewrite bind_fst_Ok by exact Hplan. by apply bind_fst_Throw.
  - simpl in Hdone |- *.
    apply bind_Ok_inv in Hdone as (s1 & la & lb & Hp1 & Hrest & _).
    apply bind_Ok_inv in Hrest as (a1 & lc & ld & Hr1 & Hdone & _).
    erewrite bind_fst_Ok by exact Hp1. erewrite bind_fst_Ok by exact Hr1.
    eapply IH; eassumption.
Qed.

(** C8.  An AST that has to be turned into code by a transformer without a
    [generate] hook fails the request with [MissingGenerate]: at
    finalization, and at the next transformer when it cannot reuse the AST
    (before its [parse] and [transform] are called).  The error is caught
    nowhere: it ends the loop over the results, the run of the pipeline at
    every level, and [transform], which then writes nothing to the cache. *)
Theorem missing_generate_fails_the_request :
  (forall (asset : Asset) (generate : GenFn),
     asset_ast asset <> None ->
     t_generate (gen_transformer generate) = None ->
     finalize asset generate = (Throw MissingGenerate, []))
  /\ (forall (original input : Asset) (transformer : Plugin) (prev : GenFn)
             ast config l0,
        loadConfig original transformer = (Ok (config, input), l0) ->
        asset_ast input = Some ast ->
        fst (cannotReuse transformer ast) = Ok true ->
        t_generate (gen_transformer prev) = None ->
        runTransform original transformer (Some prev)
        = (Throw MissingGenerate, l0 ++ snd (cannotReuse transformer ast)))
  /\ (forall (rec : Opts -> P PipelineResult) (asset : Asset)
             (generate : GenFn) assets,
        asset_ast asset <> None ->
        t_generate (gen_transformer generate) = None ->
        fst (runChild rec (Finalize asset generate) assets)
        = Throw MissingGenerate)
  /\ (forall (rec : Opts -> P PipelineResult) (o : Opts)
             (assets : list Asset) e,
        fst (rec o) = Throw e ->
        fst (runChild rec (RunTail o) assets) = Throw e
        /\ fst (runChild rec (Jump o) assets) = Throw e)
  /\ (forall (rec : Opts -> P PipelineResult) (input : Asset) inputType
             (originalPipeline : JsArray Plugin) pipeline cacheEntry
             (generate : GenFn) done result more assets assets' l0 step l e,
        forEachResult pf this rec input inputType originalPipeline pipeline
                      cacheEntry generate done assets = (Ok assets', l0) ->
        planChild pf this input inputType originalPipeline pipeline
                  cacheEntry generate result = (Ok step, l) ->
        fst (runChild rec step assets') = Throw e ->
        fst (forEachResult pf this rec input inputType originalPipeline
                           pipeline cacheEntry generate
                           (done ++ result :: more) assets)
        = Throw e)
  /\ (forall fuel (opts : Opts) (transformer : Plugin) rest e,
        po_pipeline opts = transformer :: rest ->
        (fst (runTransform (po_input opts) transformer
                           (po_previousGenerate opts)) = Throw e ->
         fst (runPipeline pf this (S fuel) opts) = Throw e)
        /\ (forall step l1,
              runTransform (po_input opts) transformer
                           (po_previousGenerate opts) = (Ok step, l1) ->
              fst (childrenOf pf this fuel opts step) = Throw e ->
              fst (runPipeline pf this (S fuel) opts) = Throw e))
  /\ (forall fuel req (st : Store) s e,
        summarizeRequest pf req = Ok s ->
        validEntry pf (lookedUp pf this req st) (sum_hash s) = Ok None ->
        fst (requestPipeline pf this fuel req (lookedUp pf this req st) s)
          = Throw e ->
        outcomeOf (transform pf this fuel req st) = Throw e
        /\ storeOf (transform pf this fuel req st) = st).
Proof.
  split; [exact finalize_missing|].
  split.
  { intros original input transformer prev ast config l0 Hcfg Hast Hcannot Hgen.
    unfold runTransform. unfold bind at 1. rewrite Hcfg.
    rewrite (regenerate_calls_previous input transformer prev ast Hast Hcannot).
    unfold callGenerate. rewrite Hgen. simpl. by rewrite app_nil_r. }
  split.
  { intros rec asset generate assets Hast Hgen. simpl.
    by rewrite finalize_missing. }
  split.
  { intros rec o assets e He. split; simpl; by apply bind_fst_Throw. }
  split; [exact forEachResult_throws|].
  split.
  { intros fuel opts transformer rest e Hpipe. split.
    - intros Hthrow. simpl. rewrite Hpipe. by apply bind_fst_Throw.
    - intros step l1 Hstep Hloop. unfold childrenOf in Hloop. simpl.
      rewrite Hpipe in *. erewrite bind_fst_Ok by exact Hstep.
      by apply bind_fst_Throw. }
  intros fuel req st s e Hsum Hvalid Hpipe. rewrite transform_eq, Hsum, Hvalid.
  destruct (requestPipeline pf this fuel req _ s) as [o hooks].
  simpl in Hpipe. subst o. auto.
Qed.

(** ** The head of the pipeline is in bounds *)

Lemma headInBounds_bind {A B} (m : P A) (k : A -> P B) :
  headInBounds m ->
  (forall a l, m = (Ok a, l) -> headInBounds (k a)) ->
  headInBounds (bind m k).
Proof.
  unfold headInBounds, bind. destruct m as [[a|e] l]; simpl;
    [|intros H _ [= ->]; by apply H].
  intros _ Hk. specialize (Hk a l eq_refl).
  destruct (k a) as [o l']. exact Hk.
Qed.

Lemma headInBounds_invoke {X} t h (r : HookResult X) :
  headInBounds (invoke t h r).
Proof. unfold headInBounds, invoke. by destruct r. Qed.

Lemma headInBounds_ret {A} (a : A) : headInBounds (ret a).
Proof. discriminate. Qed.

Create HintDb bounds.
Local Hint Resolve headInBounds_invoke headInBounds_ret : bounds.

Lemma headInBounds_callGenerate (g : GenFn) (input : Asset) :
  headInBounds (callGenerate g input).
Proof.
  unfold callGenerate. destruct (t_generate (gen_transformer g));
    [auto with bounds|discriminate].
Qed.

Lemma headInBounds_finalize (asset : Asset) (generate : GenFn) :
  headInBounds (finalize asset generate).
Proof.
  unfold finalize. destruct (asset_ast asset); [|auto with bounds].
  apply headInBounds_bind; [apply headInBounds_callGenerate|].
  intros [? ?] ? _. auto with bounds.
Qed.

Lemma headInBounds_runTransform (input : Asset) (transformer : Plugin)
    (previousGenerate : option GenFn) :
  headInBounds (runTransform input transformer previousGenerate).
Proof.
  unfold runTransform.
  apply headInBounds_bind.
  { unfold loadConfig. destruct (t_getConfig transformer); auto with bounds. }
  intros [config a] ? _. apply headInBounds_bind.
  { unfold regenerate. destruct (asset_ast a); [|auto with bounds].
    apply headInBounds_bind.
    - unfold cannotReuse. destruct (t_canReuseAST transformer);
        [|auto with bounds].
      apply headInBounds_bind; auto with bounds.
    - intros [] ? _; destruct previousGenerate; auto with bounds.
      apply headInBounds_bind; [apply headInBounds_callGenerate|].
      intros [? ?] ? _. auto with bounds. }
  intros a' ? _. apply headInBounds_bind.
  { unfold parseIfMissing.
    destruct (asset_ast a'), (t_parse transformer); auto with bounds.
    apply headInBounds_bind; auto with bounds. intros [? ?] ? _. auto with bounds. }
  intros a'' ? _. apply headInBounds_bind; auto with bounds.
  intros [? ?] ? _. auto with bounds.
Qed.

Lemma allO_error {A B} (f : A -> Outcome B) (Q : Err -> Prop) xs e :
  (forall x e, f x = Throw e -> Q e) -> allO f xs = Throw e -> Q e.
Proof.
  intros Hf. induction xs as [|x xs IH]; simpl; [discriminate|].
  destruct (f x) eqn:Hx; [|intros [= <-]; eauto].
  destruct (allO f xs); [discriminate|]. intros [= <-]. auto.
Qed.

Lemma checkCachedAssets_error (assets : list Asset) e :
  checkCachedAssets pf assets = Throw e -> exists path, e = IOError path.
Proof.
  unfold checkCachedAssets.
  destruct (allO _ assets) as [rs|e1] eqn:Hall; [discriminate|].
  intros [= <-]. revert Hall.
  apply (allO_error _ (fun e => exists path, e = IOError path)).
  intros a e2. unfold checkConnectedFiles.
  destruct (allO _ (asset_connectedFiles a)) as [hs|e3] eqn:Hfiles;
    [discriminate|].
  intros [= <-]. revert Hfiles.
  apply (allO_error _ (fun e => exists path, e = IOError path)).
  intros f e4. unfold md5FromFilePath. destruct (disk pf _); [discriminate|].
  intros [= <-]. eauto.
Qed.

Lemma headInBounds_planChild (input : Asset) inputType
    (originalPipeline : JsArray Plugin) pipeline (cacheEntry : option Entry)
    (generate : GenFn) result :
  headInBounds (planChild pf this input inputType originalPipeline pipeline
                          cacheEntry generate result).
Proof.
  unfold planChild. apply headInBounds_bind.
  - unfold headInBounds, liftO, reuseFromCache. simpl.
    destruct cacheEntry as [ce|]; [|discriminate].
    destruct (cachedMatches ce _); [discriminate|].
    destruct (checkCachedAssets pf _) as [[]|e] eqn:Hc; try discriminate.
    apply checkCachedAssets_error in Hc as [path ->]. discriminate.
  - intros [cached|] ? _; [auto with bounds|].
    destruct (isEqualPipeline _ _); [|auto with bounds].
    destruct (length pipeline =? 1)%nat; auto with bounds.
Qed.

(** The pipelines [planChild] sends a child to are not empty. *)
Lemma planChild_nonempty (input : Asset) inputType
    (originalPipeline : JsArray Plugin) pipeline (cacheEntry : option Entry)
    (generate : GenFn) result step l :
  (forall path, items (getTransformers (config this) path) <> []) ->
  pipeline <> [] ->
  planChild pf this input inputType originalPipeline pipeline cacheEntry
            generate result = (Ok step, l) ->
  forall o, step = RunTail o \/ step = Jump o ->
    po_pipeline o <> []
    /\ (step = Jump o -> po_originalPipeline o
                         = getTransformers (config this)
                                           (nextFilePath pf input result)).
Proof.
  intros Hres Hne. unfold planChild. intros Hplan.
  apply bind_Ok_inv in Hplan as (reuse & l1 & l2 & _ & Hk & _).
  destruct reuse as [cached|].
  { injection Hk as <- _. intros o [|]; discriminate. }
  unfold nextPipelineFor in Hk.
  destruct (String.eqb (res_type result) inputType).
  - rewrite isEqualPipeline_refl in Hk.
    destruct (Nat.eqb_spec (length pipeline) 1) as [Hlen|Hlen];
      injection Hk as <- _; intros o [H|H]; try discriminate.
    injection H as <-. simpl. split; [|discriminate].
    destruct pipeline as [|p [|q rest]]; simpl in *; congruence.
  - destruct (isEqualPipeline _ _).
    + destruct (Nat.eqb_spec (length pipeline) 1) as [Hlen|Hlen];
        injection Hk as <- _; intros o [H|H]; try discriminate.
      injection H as <-. simpl. split; [|discriminate].
      destruct pipeline as [|p [|q rest]]; simpl in *; congruence.
    + injection Hk as <- _. intros o [H|H]; try discriminate.
      injection H as <-. simpl. split; [apply Hres|reflexivity].
Qed.

Lemma headInBounds_forEachResult (rec : Opts -> P PipelineResult)
    (input : Asset) inputType (originalPipeline : JsArray Plugin) pipeline
    (cacheEntry : option Entry) (generate : GenFn) results assets :
  (forall path, items (getTransformers (config this) path) <> []) ->
  pipeline <> [] ->
  (forall o, po_pipeline o <> [] -> headInBounds (rec o)) ->
  headInBounds (forEachResult pf this rec input inputType originalPipeline
                              pipeline cacheEntry generate results assets).
Proof.
  intros Hres Hne Hrec. revert assets.
  induction results as [|result more IH]; intros assets; simpl;
    [auto with bounds|].
  apply headInBounds_bind; [apply headInBounds_planChild|].
  intros step l Hplan.
  pose proof (planChild_nonempty _ _ _ _ _ _ _ _ _ Hres Hne Hplan) as Hstep.
  apply headInBounds_bind; [|intros; apply IH].
  destruct step as [cached|asset g|o|o]; simpl.
  - auto with bounds.
  - apply headInBounds_bind; [apply headInBounds_finalize|].
    intros; auto with bounds.
  - apply headInBounds_bind; [|intros; auto with bounds].
    apply Hrec. apply (Hstep o). auto.
  - apply headInBounds_bind; [|intros; auto with bounds].
    apply Hrec. apply (Hstep o). auto.
Qed.


Lemma headInBounds_runPipeline fuel (opts : Opts) :
  (forall path, items (getTransformers (config this) path) <> []) ->
  po_pipeline opts <> [] ->
  headInBounds (runPipeline pf this fuel opts).
Proof.
  intros Hres. revert opts. induction fuel as [|fuel IH]; intros opts Hne;
    simpl; [discriminate|].
  destruct (po_pipeline opts) as [|transformer rest] eqn:Hpipe;
    [contradiction|].
  apply headInBounds_bind; [apply headInBounds_runTransform|].
  intros step l _. apply headInBounds_bind.
  - apply headInBounds_forEachResult; [assumption|discriminate|exact IH].
  - intros assets l' _. unfold finishPipeline.
    apply headInBounds_bind; [|intros [? ?] ? ?; auto with bounds].
    unfold postProcess. destruct (t_postProcess transformer);
      [|auto with bounds].
    apply headInBounds_bind; [auto with bounds|].
    intros [[results|] views] ? ?; [auto with bounds|discriminate].
Qed.

Lemma commitAll_error (assets : list Asset) (st : Store) e :
  outcomeOf (commitAll pf assets st) = Throw e -> exists path, e = IOError path.
Proof.
  revert st. induction assets as [|a l IH]; intros st; simpl; [discriminate|].
  unfold bindT, commit, blobBytes.
  destruct (asset_content a) as [c|b|path]; simpl;
    [| |destruct (disk pf path); simpl; [|intros [= <-]; eauto]];
    match goal with
    | |- context [commitAll pf ?l' ?s] =>
        specialize (IH s); destruct (commitAll pf l' s) as [[o st'] lg]
    end; exact IH.
Qed.

Lemma summarizeRequest_error (req : @AssetRequest Env) e :
  summarizeRequest pf req = Throw e -> exists path, e = IOError path.
Proof.
  unfold summarizeRequest. destruct (req_code req); [discriminate|].
  destruct (disk pf (req_filePath req)) as [chunks|].
  - destruct (fold_left _ chunks _). discriminate.
  - intros [= <-]. eauto.
Qed.

Lemma validEntry_error (cached : option Entry) h e :
  validEntry pf cached h = Throw e -> exists path, e = IOError path.
Proof.
  unfold validEntry. destruct cached as [ce|]; [|discriminate].
  destruct (String.eqb _ _); [|discriminate].
  destruct (checkCachedAssets pf _) as [[]|e'] eqn:Hc; try discriminate.
  intros [= <-]. by apply checkCachedAssets_error in Hc.
Qed.

Lemma transform_Throw_inv fuel req (st : Store) e :
  outcomeOf (transform pf this fuel req st) = Throw e ->
  (exists path, e = IOError path)
  \/ exists s,
       fst (requestPipeline pf this fuel req (lookedUp pf this req st) s)
       = Throw e.
Proof.
  rewrite transform_eq.
  destruct (summarizeRequest pf req) as [s|e1] eqn:Hs.
  2:{ intros [= <-]. left. by apply summarizeRequest_error in Hs. }
  destruct (validEntry pf _ (sum_hash s)) as [[ce|]|e1] eqn:Hv.
  - discriminate.
  - destruct (requestPipeline pf this fuel req _ s) as [[r|e1] hooks] eqn:Hp.
    + match goal with
      | |- context [commitAll pf ?l st] =>
          pose proof (commitAll_error l st) as Hc;
          destruct (commitAll pf l st) as [[[[]|e1] st1] lg]
      end; [discriminate|].
      intros [= <-]. left. by apply Hc.
    + intros [= <-]. right. exists s. by rewrite Hp.
  - intros [= <-]. left. by apply validEntry_error in Hv.
Qed.

(** C9.  When [config.getTransformers] never returns an empty list, no
    pipeline that reaches [runPipeline] is empty: not the request's own, not
    the tail taken when more than one transformer is left, not the pipeline
    of a jump.  The head access then never fails, at any depth, and
    [transform] never ends in that error.  With an empty pipeline the head
    access fails at once. *)
Theorem head_of_pipeline_in_bounds :
  (forall path, items (getTransformers (config this) path) <> []) ->
  (forall req : @AssetRequest Env,
     items (getTransformers (config this) (req_filePath req)) <> [])
  /\ (forall (input : Asset) inputType (originalPipeline : JsArray Plugin)
             pipeline (cacheEntry : option Entry) (generate : GenFn)
             result step l o,
        pipeline <> [] ->
        planChild pf this input inputType originalPipeline pipeline
                  cacheEntry generate result = (Ok step, l) ->
        step = RunTail o \/ step = Jump o ->
        po_pipeline o <> [])
  /\ (forall fuel (opts : Opts),
        po_pipeline opts <> [] ->
        headInBounds (runPipeline pf this fuel opts))
  /\ (forall fuel req (st : Store),
        outcomeOf (transform pf this fuel req st)
        <> Throw HeadOfEmptyPipeline)
  /\ (forall fuel (opts : Opts),
        po_pipeline opts = [] ->
        runPipeline pf this (S fuel) opts = (Throw HeadOfEmptyPipeline, [])).
Proof.
  intros Hres. split; [intros req; apply Hres|].
  split.
  { intros input inputType originalPipeline pipeline cacheEntry generate
           result step l o Hne Hplan Hstep.
    by apply (planChild_nonempty _ _ _ _ _ _ _ _ _ Hres Hne Hplan o). }
  split; [intros fuel opts; by apply headInBounds_runPipeline|].
  split.
  { intros fuel req st Hthrow.
    apply transform_Throw_inv in Hthrow as [[path [=]]|[s Hthrow]].
    revert Hthrow. apply headInBounds_runPipeline; [assumption|apply Hres]. }
  intros fuel opts Hempty. simpl. by rewrite Hempty.
Qed.

(** * Further properties of TransformerRunner.js *)

(** ** checkConnectedFiles and checkCachedAssets *)

Lemma checkConnectedFiles_cons (file : File) files :
  checkConnectedFiles pf (file :: files)
  = match disk pf (file_filePath file) with
    | None => Throw (IOError (file_filePath file))
    | Some chunks =>
        match checkConnectedFiles pf files with
        | Throw e => Throw e
        | Ok b => Ok (String.eqb (file_hash file) (md5 pf (concat chunks)) && b)
        end
    end.
Proof.
  unfold checkConnectedFiles, md5FromFilePath. simpl.
  destruct (disk pf (file_filePath file)) as [chunks|]; [|reflexivity].
  destruct (allO _ files) as [hashes|e]; reflexivity.
Qed.

Lemma checkCachedAssets_cons (asset : Asset) assets :
  checkCachedAssets pf (asset :: assets)
  = match checkConnectedFiles pf (asset_connectedFiles asset) with
    | Throw e => Throw e
    | Ok b =>
        match checkCachedAssets pf assets with
        | Throw e => Throw e
        | Ok b' => Ok (b && b')
        end
    end.
Proof.
  unfold checkCachedAssets. simpl.
  destruct (checkConnectedFiles pf (asset_connectedFiles asset)) as [b|e];
    [|reflexivity].
  destruct (allO _ assets) as [results|e]; reflexivity.
Qed.

Lemma checkConnectedFiles_true_iff files :
  checkConnectedFiles pf files = Ok true <-> Forall (unchanged pf) files.
Proof.
  induction files as [|file files IH].
  - split; [constructor|reflexivity].
  - rewrite checkConnectedFiles_cons. split.
    + destruct (disk pf (file_filePath file)) as [chunks|] eqn:Hdisk;
        [|discriminate].
      destruct (checkConnectedFiles pf files) as [b|]; [|discriminate].
      intros [= Hb]. apply andb_true_iff in Hb as [Hh ->].
      constructor; [|by apply IH].
      exists chunks. split; [assumption|].
      symmetry. by apply String.eqb_eq.
    + intros Hall. inversion Hall as [|? ? (chunks & Hdisk & Hh) Hrest]; subst.
      rewrite Hdisk. apply IH in Hrest. rewrite Hrest, <- Hh.
      by rewrite String.eqb_refl.
Qed.

Lemma checkConnectedFiles_readable files :
  Forall (readable pf) files ->
  exists b, checkConnectedFiles pf files = Ok b.
Proof.
  induction 1 as [|file files Hfile _ [b IH]]; [by exists true|].
  rewrite checkConnectedFiles_cons, IH. unfold readable in Hfile.
  destruct (disk pf (file_filePath file)); [eauto|contradiction].
Qed.

Lemma checkCachedAssets_readable (assets : list Asset) :
  Forall (fun a => Forall (readable pf) (asset_connectedFiles a)) assets ->
  exists b, checkCachedAssets pf assets = Ok b.
Proof.
  induction 1 as [|a assets Ha _ [b IH]]; [by exists true|].
  rewrite checkCachedAssets_cons, IH.
  destruct (checkConnectedFiles_readable _ Ha) as [b' ->]. eauto.
Qed.

Lemma checkCachedAssets_true_iff (assets : list Asset) :
  checkCachedAssets pf assets = Ok true
  <-> Forall (fun a => Forall (unchanged pf) (asset_connectedFiles a)) assets.
Proof.
  induction assets as [|a assets IH].
  - split; [constructor|reflexivity].
  - rewrite checkCachedAssets_cons. split.
    + destruct (checkConnectedFiles pf (asset_connectedFiles a)) as [b|] eqn:Ha;
        [|discriminate].
      destruct (checkCachedAssets pf assets) as [b'|]; [|discriminate].
      intros [= Hb]. apply andb_true_iff in Hb as [-> ->].
      constructor; [by apply checkConnectedFiles_true_iff|by apply IH].
    + intros Hall. inversion Hall as [|? ? Ha Hrest]; subst.
      apply checkConnectedFiles_true_iff in Ha. apply IH in Hrest.
      by rewrite Ha, Hrest.
Qed.

(** X1.  [checkConnectedFiles] answers true exactly when every file can be
    read and its digest is the recorded one, and [checkCachedAssets] exactly
    when this holds for every connected file of every asset; both answer
    true for an empty list. *)
Theorem checks_pass_iff_files_unchanged files (assets : list Asset) :
  (checkConnectedFiles pf files = Ok true <-> Forall (unchanged pf) files)
  /\ (checkCachedAssets pf assets = Ok true
      <-> Forall (fun a => Forall (unchanged pf) (asset_connectedFiles a))
                 assets)
  /\ checkConnectedFiles pf [] = Ok true
  /\ checkCachedAssets pf (@nil Asset) = Ok true.
Proof.
  split; [apply checkConnectedFiles_true_iff|].
  split; [apply checkCachedAssets_true_iff|]. split; reflexivity.
Qed.

Lemma changed_not_unchanged (file : File) :
  changed pf file -> ~ unchanged pf file.
Proof.
  intros (chunks & Hdisk & Hne) (chunks' & Hdisk' & Heq). congruence.
Qed.

(** X2.  A request is not answered from the cache when an asset of the
    entry found has a connected file whose content no longer has the
    recorded digest, whether or not the entry has the hash of the source:
    with all connected files readable, [checkCachedAssets] answers false and
    [transform] runs the pipeline, to which it hands the entry.  When that
    run fails so does the request, with the store as it was; a request that
    completes returns a new entry made of the assets of that run and stores
    it under its key, after the hooks. *)
Theorem changed_connected_file_invalidates fuel req (st : Store) (ce : Entry)
    s :
  lookedUp pf this req st = Some ce ->
  summarizeRequest pf req = Ok s ->
  Forall (fun a => Forall (readable pf) (asset_connectedFiles a))
         (entry_assets ce) ->
  Exists (fun a => Exists (changed pf) (asset_connectedFiles a))
         (entry_assets ce) ->
  checkCachedAssets pf (entry_assets ce) = Ok false
  /\ (forall e hooks,
        requestPipeline pf this fuel req (Some ce) s = (Throw e, hooks) ->
        transform pf this fuel req st
        = (Throw e, st, lookupLog pf this req ++ List.map Hook hooks))
  /\ (forall e,
        outcomeOf (transform pf this fuel req st) = Ok e ->
        exists r hooks,
          requestPipeline pf this fuel req (Some ce) s = (Ok r, hooks)
          /\ e = freshEntry req s r
          /\ entries (storeOf (transform pf this fuel req st))
               !! reqCacheKey pf req = Some e
          /\ logOf (transform pf this fuel req st)
             = lookupLog pf this req ++ List.map Hook hooks
                 ++ [CacheSet (reqCacheKey pf req)]).
Proof.
  intros Hlook Hsum Hread Hchanged.
  assert (Hcheck : checkCachedAssets pf (entry_assets ce) = Ok false).
  { destruct (checkCachedAssets_readable _ Hread) as [[] Hb]; [|exact Hb].
    apply checkCachedAssets_true_iff in Hb. exfalso.
    apply Exists_exists in Hchanged as (a & Ha & Hfile).
    apply Exists_exists in Hfile as (f & Hf & Hch).
    rewrite Forall_forall in Hb. specialize (Hb a Ha).
    rewrite Forall_forall in Hb. by apply (changed_not_unchanged f Hch), Hb. }
  assert (Hvalid : validEntry pf (Some ce) (sum_hash s) = Ok None).
  { unfold validEntry. rewrite Hcheck. by destruct (String.eqb _ _). }
  split; [exact Hcheck|].
  rewrite transform_eq, Hsum, Hlook, Hvalid. split.
  - intros e hooks ->. reflexivity.
  - intros e.
    destruct (requestPipeline pf this fuel req (Some ce) s) as [[r|] hooks];
      [|discriminate].
    match goal with
    | |- context [commitAll pf ?l st] =>
        destruct (commitAll pf l st) as [[[[]|] st1] lg]; [|discriminate]
    end.
    unfold outcomeOf, storeOf, logOf. simpl. intros [= <-].
    exists r, hooks. split; [reflexivity|]. split; [reflexivity|].
    split; [apply lookup_insert_eq|reflexivity].
Qed.

(** ** transform: misses and failures *)

(** X3.  When the source no longer has the hash of the entry found in the
    cache, the entry is not returned: a run that completes returns an entry
    with the new hash, made of the assets of the pipeline run, and that
    entry replaces the old one in the cache. *)
Theorem changed_source_replaces_entry fuel req (st : Store) (ce e : Entry) s :
  lookedUp pf this req st = Some ce ->
  summarizeRequest pf req = Ok s ->
  entry_hash ce <> sum_hash s ->
  outcomeOf (transform pf this fuel req st) = Ok e ->
  entry_hash e = sum_hash s
  /\ e <> ce
  /\ entries (storeOf (transform pf this fuel req st)) !! reqCacheKey pf req
     = Some e
  /\ (exists r hooks,
        requestPipeline pf this fuel req (Some ce) s = (Ok r, hooks)
        /\ e = freshEntry req s r
        /\ logOf (transform pf this fuel req st)
           = lookupLog pf this req ++ List.map Hook hooks
               ++ [CacheSet (reqCacheKey pf req)]).
Proof.
  intros Hlook Hsum Hne. rewrite transform_eq, Hsum, Hlook.
  unfold validEntry. destruct (String.eqb_spec (entry_hash ce) (sum_hash s));
    [contradiction|].
  destruct (requestPipeline pf this fuel req (Some ce) s) as [[r|] hooks];
    [|discriminate].
  match goal with
  | |- context [commitAll pf ?l st] =>
      destruct (commitAll pf l st) as [[[[]|] st1] lg]; [|discriminate]
  end.
  unfold outcomeOf, storeOf, logOf. simpl. intros [= <-].
  split; [reflexivity|]. split; [|split; [apply lookup_insert_eq|eauto]].
  intros <-. by apply Hne.
Qed.

(** X4.  A run of [transform] that fails leaves the request cache as it was
    and logs no cache write. *)
Theorem failed_request_writes_no_entry fuel req (st : Store) e :
  outcomeOf (transform pf this fuel req st) = Throw e ->
  entries (storeOf (transform pf this fuel req st)) = entries st
  /\ forall k, ~ In (CacheSet k) (logOf (transform pf this fuel req st)).
Proof.
  rewrite transform_eq. unfold lookupLog.
  assert (Hpre : forall k,
            ~ In (CacheSet k)
                 (if lookupEnabled this req
                  then [CacheGet (reqCacheKey pf req)] else [])).
  { intros k H.
    destruct (lookupEnabled this req); [destruct H as [H|[]]|destruct H];
      discriminate. }
  destruct (summarizeRequest pf req) as [s|].
  2:{ intros _. split; [reflexivity|]. intros k [H|H]; [discriminate|].
      by apply (Hpre k). }
  destruct (validEntry pf _ (sum_hash s)) as [[ce|]|]; [discriminate| |].
  2:{ intros _. split; [reflexivity|]. intros k [H|H]; [discriminate|].
      by apply (Hpre k). }
  destruct (requestPipeline pf this fuel req _ s) as [[r|] hooks].
  - match goal with
    | |- context [commitAll pf ?l st] =>
        pose proof (commitAll_log l st) as [_ Hent];
        destruct (commitAll pf l st) as [[[[]|] st1] lg]; [discriminate|]
    end.
    unfold outcomeOf, storeOf, logOf in *. simpl in *. intros _.
    split; [exact Hent|]. intros k [Hk|Hk]; [discriminate|].
    apply in_app_or in Hk as [Hk|Hk]; [by apply (Hpre k)|].
    revert Hk. apply not_in_hooks. discriminate.
  - unfold outcomeOf, storeOf, logOf. simpl. intros _.
    split; [reflexivity|]. intros k [Hk|Hk]; [discriminate|].
    apply in_app_or in Hk as [Hk|Hk]; [by apply (Hpre k)|].
    revert Hk. apply not_in_hooks. discriminate.
Qed.

(** X5.  An entry written by a run for inline code is found by a later
    request for the file at the same path and environment; it is returned,
    with no hook called, when the file's bytes are those of the code and the
    connected files of its assets check. *)
Theorem inline_entry_serves_file_request fuel fuel' inline file (st : Store)
    (e : Entry) code chunks :
  req_filePath file = req_filePath inline ->
  req_env file = req_env inline ->
  req_code inline = Some code ->
  lookupEnabled this file = true ->
  outcomeOf (transform pf this fuel inline st) = Ok e ->
  disk pf (req_filePath file) = Some chunks ->
  concat chunks = String.list_byte_of_string code ->
  checkCachedAssets pf (entry_assets e) = Ok true ->
  transform pf this fuel' file (storeOf (transform pf this fuel inline st))
  = (Ok e, storeOf (transform pf this fuel inline st),
     [Report; CacheGet (reqCacheKey pf file)]).
Proof.
  intros Hpath Henv Hcode Hlook Hfirst Hdisk Hbytes Hfiles.
  assert (Hkey : reqCacheKey pf file = reqCacheKey pf inline).
  { unfold reqCacheKey. by rewrite Hpath, Henv. }
  apply transform_Ok_inv in Hfirst as ((s & Hs & Hhash) & Hstored & _).
  unfold summarizeRequest in Hs. rewrite Hcode in Hs. injection Hs as <-.
  simpl in Hhash.
  assert (Hfile : req_code file = None).
  { unfold lookupEnabled in Hlook.
    destruct (opt_cache (options this)) as [[]|], (req_code file);
      congruence. }
  eapply transform_hit; try eassumption.
  - by rewrite Hkey.
  - by apply summarizeRequest_file.
  - simpl. rewrite Hhash, Hbytes. reflexivity.
Qed.

(** ** summarizeRequest: the buffer *)

(** X6.  At every point of the stream the buffered content holds at most
    [BUFFER_LIMIT] bytes: after any chunks, the content is a buffer of all
    the bytes read so far, as many as [size] and no more than the limit, or
    it is a stream on the path and more than the limit has been read. *)
Theorem buffer_stays_within_limit path chunks :
  match fold_left (tap path) chunks (BBuffer [], 0) with
  | (BBuffer b, size) =>
      b = concat chunks /\ size = Z.of_nat (length b) /\ size <= BUFFER_LIMIT
  | (BStream p, size) =>
      p = path /\ size = Z.of_nat (length (concat chunks))
      /\ BUFFER_LIMIT < size
  | (BString _, _) => False
  end.
Proof.
  change 0 with (Z.of_nat (length (@nil byte))).
  rewrite tap_buffer by (unfold BUFFER_LIMIT; simpl; lia). simpl.
  destruct (Z.leb_spec (Z.of_nat (length (concat chunks))) BUFFER_LIMIT);
    auto.
Qed.

(** ** The path of the next pipeline *)

Lemma length_string_app (s1 s2 : string) :
  String.length (s1 +:+ s2) = (String.length s1 + String.length s2)%nat.
Proof. induction s1 as [|c s1 IH]; simpl; [reflexivity|by rewrite IH]. Qed.

Lemma substring_string_app (s1 s2 : string) :
  String.substring 0 (String.length s1) (s1 +:+ s2) = s1.
Proof.
  induction s1 as [|c s1 IH]; simpl; [by destruct s2|by rewrite IH].
Qed.

(** X7.  The path handed to [getTransformers] after a change of type: when
    [path.extname] of the input's path is a non-empty ending of that path,
    the ending is replaced by a dot and the new type; when the path has no
    extension, nothing of the path is kept and the result is a dot and the
    new type. *)
Theorem nextFilePath_replaces_extension (input : Asset)
    (result : TransformerResult) :
  (forall stem ext,
     asset_filePath input = stem +:+ ext ->
     extname pf (asset_filePath input) = ext ->
     ext <> EmptyString ->
     nextFilePath pf input result = stem +:+ "." +:+ res_type result)
  /\ (extname pf (asset_filePath input) = EmptyString ->
      nextFilePath pf input result = "." +:+ res_type result).
Proof.
  unfold nextFilePath, slice_0_neg. split.
  - intros stem ext Hpath Hext Hne. rewrite Hext, Hpath.
    destruct (String.length ext) as [|n] eqn:Hlen.
    { destruct ext; [contradiction|discriminate]. }
    rewrite <- Hlen, length_string_app.
    replace (String.length stem + String.length ext - String.length ext)%nat
      with (String.length stem) by lia.
    by rewrite substring_string_app.
  - intros ->. reflexivity.
Qed.

(** ** isEqualPipeline *)

Lemma forallb_combine_tid_sym (a b : list Plugin) :
  forallb (fun '(p, q) => (tid p =? tid q)%nat) (combine a b)
  = forallb (fun '(p, q) => (tid p =? tid q)%nat) (combine b a).
Proof.
  revert b. induction a as [|p a IH]; intros [|q b]; simpl; try reflexivity.
  by rewrite IH, (Nat.eqb_sym (tid p)).
Qed.

(** X8.  [isEqualPipeline] does not depend on the order of its arguments,
    and for two different arrays it answers true exactly when they have the
    same length and hold the same plugins position by position. *)
Theorem isEqualPipeline_symmetric_and_shallow (a b : JsArray Plugin) :
  isEqualPipeline a b = isEqualPipeline b a
  /\ (addr a <> addr b ->
      (isEqualPipeline a b = true
       <-> length (items a) = length (items b)
           /\ forall i p q, items a !! i = Some p -> items b !! i = Some q ->
                            tid p = tid q)).
Proof.
  split.
  - unfold isEqualPipeline.
    rewrite (Nat.eqb_sym (addr a)), (Nat.eqb_sym (length (items a))).
    by rewrite forallb_combine_tid_sym.
  - intros Hne.
    etransitivity; [apply isEqualPipeline_shallow; intros ?; contradiction|].
    unfold shallowEqual. etransitivity; [apply Forall2_lookup|]. split.
    + intros Hall. split.
      * eapply Forall2_length. apply Forall2_lookup. exact Hall.
      * intros i p q Hp Hq. specialize (Hall i). rewrite Hp, Hq in Hall.
        by inversion Hall.
    + intros [Hlen Hsame] i.
      destruct (items a !! i) as [p|] eqn:Hp, (items b !! i) as [q|] eqn:Hq.
      * constructor. by eapply Hsame.
      * apply lookup_lt_Some in Hp. apply lookup_ge_None in Hq. lia.
      * apply lookup_ge_None in Hp. apply lookup_lt_Some in Hq. lia.
      * constructor.
Qed.

(** ** The loop over the results *)

(** X9.  The assets taken over from the cache entry for a child are never
    an empty list; each is an asset of the entry ([initialAssets] when there
    are some, [assets] otherwise) with a non-empty hash equal to the child's,
    and together they pass [checkCachedAssets].  A child without a hash is
    never replaced. *)
Theorem reuseFromCache_sound (cacheEntry : option Entry) (asset : Asset) :
  (forall cachedAssets,
     reuseFromCache pf cacheEntry asset = Ok (Some cachedAssets) ->
     exists ce,
       cacheEntry = Some ce
       /\ cachedAssets <> []
       /\ checkCachedAssets pf cachedAssets = Ok true
       /\ forall cached, In cached cachedAssets ->
            In cached (default (entry_assets ce) (entry_initialAssets ce))
            /\ asset_hash cached = asset_hash asset
            /\ asset_hash cached <> None
            /\ asset_hash cached <> Some EmptyString)
  /\ (asset_hash asset = None -> reuseFromCache pf cacheEntry asset = Ok None).
Proof.
  unfold reuseFromCache, cachedMatches. split.
  - intros cachedAssets. destruct cacheEntry as [ce|]; [|discriminate].
    destruct (List.filter _ _) as [|c cs] eqn:Hfilter; [discriminate|].
    destruct (checkCachedAssets pf (c :: cs)) as [[]|] eqn:Hcheck;
      try discriminate.
    intros [= <-]. exists ce. split; [reflexivity|]. split; [discriminate|].
    split; [assumption|]. intros cached Hin. rewrite <- Hfilter in Hin.
    apply filter_In in Hin as [Hpool Hmatch]. split; [assumption|].
    destruct (asset_hash cached) as [h|], (asset_hash asset) as [h'|];
      try discriminate.
    apply andb_true_iff in Hmatch as [Htruthy Heq].
    apply String.eqb_eq in Heq as ->. repeat split; try discriminate.
    intros [= ->]. discriminate.
  - intros Hnone. destruct cacheEntry as [ce|]; [|reflexivity].
    rewrite Hnone.
    assert (Hfilter : forall l : list Asset,
              List.filter
                (fun child : Asset =>
                   match asset_hash child with
                   | Some _ => false
                   | None => false
                   end) l = []).
    { induction l as [|x l IH]; simpl; [reflexivity|].
      by destruct (asset_hash x). }
    replace (List.filter _ _) with (@nil Asset); [reflexivity|].
    symmetry. etransitivity; [|apply Hfilter]. f_equal.
Qed.

Lemma reuseFromCache_pool (ce : Entry) (asset : Asset) cachedAssets :
  reuseFromCache pf (Some ce) asset = Ok (Some cachedAssets) ->
  forall a, In a cachedAssets ->
    In a (default (entry_assets ce) (entry_initialAssets ce)).
Proof.
  unfold reuseFromCache, cachedMatches.
  destruct (List.filter _ _) as [|c cs] eqn:Hfilter; [discriminate|].
  destruct (checkCachedAssets pf (c :: cs)) as [[]|]; try discriminate.
  intros [= <-] a Hin. rewrite <- Hfilter in Hin.
  by apply filter_In in Hin as [Hpool _].
Qed.

(** X10.  When every child of a step is taken over from the cache entry,
    the loop over the results starts no further run of a pipeline and calls
    no hook: it returns the assets collected so far followed by assets of
    the entry, whatever the rest of the pipeline is. *)
Theorem reused_children_run_nothing (input : Asset) inputType
    (originalPipeline : JsArray Plugin) (pipeline : list Plugin) (ce : Entry)
    (generate : GenFn) results :
  Forall (fun result =>
            exists cachedAssets,
              reuseFromCache pf (Some ce) (createChildAsset pf input result)
              = Ok (Some cachedAssets))
         results ->
  exists taken,
    (forall a, In a taken ->
       In a (default (entry_assets ce) (entry_initialAssets ce)))
    /\ forall (rec : Opts -> P PipelineResult) assets,
         forEachResult pf this rec input inputType originalPipeline pipeline
                       (Some ce) generate results assets
         = (Ok (assets ++ taken), []).
Proof.
  induction 1 as [|result results [cs Hcs] _ (taken & Hpool & IH)].
  - exists []. split; [intros a []|]. intros rec assets. simpl.
    by rewrite app_nil_r.
  - exists (cs ++ taken). split.
    + intros a Hin. apply in_app_or in Hin as [Hin|Hin]; [|by apply Hpool].
      by apply (reuseFromCache_pool ce _ cs Hcs).
    + intros rec assets. simpl. unfold planChild. rewrite Hcs.
      unfold liftO, bind at 1. simpl. rewrite IH. by rewrite app_assoc.
Qed.

(** X11.  A step whose transformer emits no result ends the run there: the
    transformers after it in the pipeline are not run, whatever their number
    and the fuel, and without a [postProcess] hook the run returns no
    asset. *)
Theorem no_result_ends_the_run fuel (opts : Opts) (transformer : Plugin)
    rest step l1 :
  po_pipeline opts = transformer :: rest ->
  runTransform (po_input opts) transformer (po_previousGenerate opts)
    = (Ok step, l1) ->
  ts_results step = [] ->
  runPipeline pf this (S fuel) opts
    = (fst (finishPipeline pf (ts_input step) transformer (ts_config step) []),
       l1 ++ snd (finishPipeline pf (ts_input step) transformer
                                 (ts_config step) []))
  /\ (t_postProcess transformer = None ->
      runPipeline pf this (S fuel) opts
      = (Ok {| pr_assets := []; pr_initialAssets := None |}, l1)).
Proof.
  intros Hpipe Hstep Hnone.
  assert (Hrun : runPipeline pf this (S fuel) opts
                 = (fst (finishPipeline pf (ts_input step) transformer
                                        (ts_config step) []),
                    l1 ++ [] ++ snd (finishPipeline pf (ts_input step)
                                       transformer (ts_config step) []))).
  { apply (runPipeline_finish fuel opts transformer rest step l1 [] []);
      [assumption..|].
    unfold childrenOf. by rewrite Hnone. }
  split; [exact Hrun|]. intros Hpost. rewrite Hrun.
  unfold finishPipeline, postProcess. rewrite Hpost. simpl.
  by rewrite app_nil_r.
Qed.

(** ** The hooks of one step *)

Lemma beforeTransform_loadConfig (input : Asset) (transformer : Plugin) c :
  In c (snd (loadConfig input transformer)) -> beforeTransform transformer c.
Proof.
  unfold loadConfig. destruct (t_getConfig transformer); [|intros []].
  intros [<-|[]]. repeat split; try discriminate. by right.
Qed.

Lemma beforeTransform_regenerate (input : Asset) (transformer : Plugin)
    (previousGenerate : option GenFn) c :
  In c (snd (regenerate input transformer previousGenerate)) ->
  beforeTransform transformer c.
Proof.
  unfold regenerate. destruct (asset_ast input) as [ast|]; [|intros []].
  unfold cannotReuse, callGenerate.
  destruct (t_canReuseAST transformer) as [h|].
  - unfold invoke, bind. destruct (h ast) as [[]|]; simpl.
    + intros [<-|[]]. repeat split; try discriminate. by right.
    + destruct previousGenerate as [prev|]; simpl.
      * destruct (t_generate (gen_transformer prev)) as [g|]; simpl.
        -- destruct (g input (gen_config prev)) as [[? ?]|]; simpl;
             (intros [<-|[<-|[]]]; repeat split; try discriminate;
              [by right|by left]).
        -- intros [<-|[]]. repeat split; try discriminate. by right.
      * intros [<-|[]]. repeat split; try discriminate. by right.
    + intros [<-|[]]. repeat split; try discriminate. by right.
  - destruct previousGenerate as [prev|]; simpl; [|intros []].
    destruct (t_generate (gen_transformer prev)) as [g|]; simpl; [|intros []].
    unfold invoke, bind.
    destruct (g input (gen_config prev)) as [[? ?]|]; simpl;
      (intros [<-|[]]; repeat split; try discriminate; by left).
Qed.

Lemma beforeTransform_parseIfMissing (input : Asset) (transformer : Plugin)
    config c :
  In c (snd (parseIfMissing input transformer config)) ->
  beforeTransform transformer c.
Proof.
  unfold parseIfMissing.
  destruct (asset_ast input), (t_parse transformer) as [h|]; try intros [].
  unfold invoke, bind. destruct (h input config) as [[? ?]|]; simpl;
    (intros [<-|[]]; repeat split; try discriminate; by right).
Qed.

(** X12.  A step that completes has called [transform] exactly once, as its
    last hook; the calls before it are calls of the other hooks of the same
    transformer or of a [generate], never of a [postProcess].  The config of
    the step is what the transformer's [getConfig] returned for the input,
    null without that hook; [transform] was called with it, the step's
    results are what [transform] returned, and the [generate] closure the
    step returns hands it to the [generate] hook of the same transformer. *)
Theorem runTransform_calls_transform_last (input : Asset)
    (transformer : Plugin) (previousGenerate : option GenFn) step l :
  runTransform input transformer previousGenerate = (Ok step, l) ->
  (exists before,
     l = before ++ [transformCall transformer]
     /\ forall c, In c before -> beforeTransform transformer c)
  /\ gen_transformer (ts_generate step) = transformer
  /\ gen_config (ts_generate step) = ts_config step
  /\ (forall h,
        t_getConfig transformer = Some h ->
        exists input', h input = Returned (ts_config step, input'))
  /\ (t_getConfig transformer = None -> ts_config step = None)
  /\ (exists a outputs,
        t_transform transformer a (ts_config step)
        = Returned (outputs, ts_input step)
        /\ ts_results step = normalizeAssets outputs)
  /\ (forall asset,
        callGenerate (ts_generate step) asset
        = match t_generate transformer with
          | Some h =>
              invoke (tid transformer) Generate (h asset (ts_config step))
          | None => throw MissingGenerate
          end).
Proof.
  unfold runTransform. intros Hrun.
  apply bind_Ok_inv in Hrun as ([config a] & la & lb & Hcfg & Hrun & ->).
  apply bind_Ok_inv in Hrun as (a' & lc & ld & Hreg & Hrun & ->).
  apply bind_Ok_inv in Hrun as (a'' & le & lf & Hparse & Hrun & ->).
  apply bind_Ok_inv in Hrun as ([outputs a3] & lg & lh & Hcall & Hret & ->).
  injection Hret as <- <-. cbn [ts_generate ts_config ts_input ts_results
                                 gen_transformer gen_config].
  unfold invoke in Hcall.
  destruct (t_transform transformer a'' config) as [[outputs' a4]|] eqn:Hhook;
    [|discriminate].
  injection Hcall as -> -> <-.
  split; [|split; [reflexivity|split; [reflexivity|]]].
  { exists (la ++ lc ++ le). split.
    { unfold transformCall. rewrite app_nil_r, <- !app_assoc. reflexivity. }
    intros c Hin.
    apply in_app_or in Hin as [Hin|Hin];
      [apply (beforeTransform_loadConfig input); by rewrite Hcfg|].
    apply in_app_or in Hin as [Hin|Hin].
    - apply (beforeTransform_regenerate a transformer previousGenerate).
      by rewrite Hreg.
    - apply (beforeTransform_parseIfMissing a' transformer config).
      by rewrite Hparse. }
  unfold loadConfig in Hcfg. split; [|split; [|split]].
  - intros h Hh. rewrite Hh in Hcfg. unfold invoke in Hcfg.
    destruct (h input) as [[c i]|]; [|discriminate].
    injection Hcfg as -> -> _. eauto.
  - intros Hnone. rewrite Hnone in Hcfg. by injection Hcfg as <- _ _.
  - eauto.
  - intros asset. reflexivity.
Qed.

(** ** A pipeline whose type never changes *)

Lemma plainStep_runTransform ty (transformer : Plugin) (input : Asset)
    (previousGenerate : option GenFn) :
  plainStep ty transformer ->
  asset_type input = ty ->
  asset_ast input = None ->
  exists input' result,
    runTransform input transformer previousGenerate
    = (Ok {| ts_input := input';
             ts_results := [result];
             ts_generate := {| gen_transformer := transformer;
                               gen_config := None |};
             ts_config := None |},
       [transformCall transformer])
    /\ res_type result = ty /\ res_ast result = None.
Proof.
  intros (Hcfg & Hreuse & Hparse & _ & Htransform) Hty Hast.
  destruct (Htransform input None Hty Hast)
    as (outputs & input' & result & Hcall & Hnorm & Hrty & Hrast).
  exists input', result. split; [|auto].
  unfold runTransform, loadConfig. rewrite Hcfg, bind_ret. cbn beta iota.
  unfold regenerate. rewrite Hast, bind_ret.
  unfold parseIfMissing. rewrite Hast, Hparse, bind_ret.
  unfold invoke, bind. rewrite Hcall. simpl. by rewrite Hnorm.
Qed.

Lemma bind_ret_r {A} (m : P A) : bind m ret = m.
Proof.
  destruct m as [[a|e] l]; unfold bind, ret; simpl; [|reflexivity].
  by rewrite app_nil_r.
Qed.

Lemma planChild_same_type (input : Asset) inputType
    (originalPipeline : JsArray Plugin) (pipeline : list Plugin)
    (generate : GenFn) result :
  res_type result = inputType ->
  planChild pf this input inputType originalPipeline pipeline None generate
            result
  = ret (if (length pipeline =? 1)%nat
         then Finalize (createChildAsset pf input result) generate
         else RunTail {| po_input := createChildAsset pf input result;
                         po_originalPipeline := originalPipeline;
                         po_pipeline := tail pipeline;
                         po_cacheEntry := None;
                         po_previousGenerate := Some generate |}).
Proof.
  intros Hty. unfold planChild, nextPipelineFor. cbn [reuseFromCache].
  unfold liftO, bind. rewrite Hty, String.eqb_refl, isEqualPipeline_refl.
  by destruct (length pipeline =? 1)%nat.
Qed.

(** X13.  A pipeline of [n] transformers, each with a [transform] hook only
    that emits one result of the input's type without AST, run on an asset of
    that type without cache entry, completes with fuel [n]: it calls the [n]
    [transform] hooks once each, in the order of the pipeline, and no other
    hook, and returns one asset of that type. *)
Theorem straight_pipeline_calls_each_transform_once ty
    (pipeline : list Plugin) :
  pipeline <> [] ->
  Forall (plainStep ty) pipeline ->
  forall (input : Asset) (originalPipeline : JsArray Plugin)
         (previousGenerate : option GenFn),
    asset_type input = ty ->
    asset_ast input = None ->
    exists asset,
      runPipeline pf this (length pipeline)
        {| po_input := input;
           po_originalPipeline := originalPipeline;
           po_pipeline := pipeline;
           po_cacheEntry := None;
           po_previousGenerate := previousGenerate |}
      = (Ok {| pr_assets := [asset]; pr_initialAssets := None |},
         List.map transformCall pipeline)
      /\ asset_type asset = ty.
Proof.
  induction pipeline as [|transformer rest IH]; [contradiction|].
  intros _ Hall input originalPipeline previousGenerate Hty Hast.
  inversion Hall as [|? ? Hplain Hrest]; subst.
  destruct (plainStep_runTransform _ transformer input previousGenerate
              Hplain eq_refl Hast)
    as (input' & result & Hstep & Hrty & Hrast).
  assert (Hpost : t_postProcess transformer = None) by apply Hplain.
  assert (Hchildren : exists asset,
            childrenOf pf this (length rest)
              {| po_input := input;
                 po_originalPipeline := originalPipeline;
                 po_pipeline := transformer :: rest;
                 po_cacheEntry := None;
                 po_previousGenerate := previousGenerate |}
              {| ts_input := input';
                 ts_results := [result];
                 ts_generate := {| gen_transformer := transformer;
                                   gen_config := None |};
                 ts_config := None |}
            = (Ok [asset], List.map transformCall rest)
            /\ asset_type asset = asset_type input).
  { unfold childrenOf.
    cbn [ts_input ts_results ts_generate po_input po_originalPipeline
         po_pipeline po_cacheEntry forEachResult].
    rewrite (planChild_same_type _ _ _ _ _ _ Hrty), bind_ret.
    rewrite bind_ret_r.
    destruct rest as [|next rest'].
    - cbn [length Nat.eqb runChild]. unfold finalize.
      cbn [createChildAsset asset_ast]. rewrite Hrast, bind_ret.
      eexists. split; [reflexivity|]. exact Hrty.
    - cbn [length Nat.eqb tail runChild].
      destruct (IH ltac:(discriminate) Hrest
                   (createChildAsset pf input' result) originalPipeline
                   (Some {| gen_transformer := transformer;
                            gen_config := None |}) Hrty Hrast)
        as (asset & Hrun & Hatype).
      cbn [length] in Hrun. rewrite Hrun. unfold bind, ret.
      cbn [pr_assets app]. rewrite app_nil_r. eauto. }
  destruct Hchildren as (asset & Hchildren & Hatype).
  exists asset. split; [|exact Hatype].
  cbn [length].
  rewrite (runPipeline_finish (length rest)
             {| po_input := input;
                po_originalPipeline := originalPipeline;
                po_pipeline := transformer :: rest;
                po_cacheEntry := None;
                po_previousGenerate := previousGenerate |}
             transformer rest _ _ _ _ eq_refl Hstep Hchildren).
  unfold finishPipeline, postProcess. rewrite Hpost, bind_ret.
  unfold ret. cbn [fst snd default List.map]. by rewrite app_nil_r.
Qed.

(** ** transform: the cache as a round trip *)


Lemma checkConnectedFiles_unreadable files :
  Exists (fun f => ~ readable pf f) files ->
  exists path,
    checkConnectedFiles pf files = Throw (IOError path)
    /\ disk pf path = None
    /\ In path (List.map file_filePath files).
Proof.
  induction files as [|file files IH]; intros Hex;
    [by apply Exists_nil in Hex|].
  rewrite checkConnectedFiles_cons.
  destruct (disk pf (file_filePath file)) as [chunks|] eqn:Hdisk.
  - apply Exists_cons in Hex as [Hbad|Hex].
    { exfalso. apply Hbad. unfold readable. by rewrite Hdisk. }
    destruct (IH Hex) as (path & -> & Hnone & Hin).
    exists path. simpl. auto.
  - exists (file_filePath file). simpl. auto.
Qed.

(** X19.  A connected file that cannot be read does not make a cache miss:
    when the entry found has the hash of the source and one of the connected
    files of its assets cannot be read, [transform] fails with the error of
    reading such a file, having called no hook and written nothing. *)
Theorem unreadable_connected_file_fails_request fuel req (st : Store)
    (ce : Entry) s :
  lookedUp pf this req st = Some ce ->
  summarizeRequest pf req = Ok s ->
  entry_hash ce = sum_hash s ->
  Exists (fun a => Exists (fun f => ~ readable pf f) (asset_connectedFiles a))
         (entry_assets ce) ->
  exists path,
    disk pf path = None
    /\ transform pf this fuel req st
       = (Throw (IOError path), st, lookupLog pf this req).
Proof.
  intros Hlook Hsum Hhash Hbad.
  assert (Hcheck : exists path,
            disk pf path = None
            /\ checkCachedAssets pf (entry_assets ce) = Throw (IOError path)).
  { clear Hlook Hhash. induction (entry_assets ce) as [|a assets IH];
      [by apply Exists_nil in Hbad|].
    rewrite checkCachedAssets_cons.
    destruct (checkConnectedFiles pf (asset_connectedFiles a)) as [b|e] eqn:Ha.
    - apply Exists_cons in Hbad as [Hbad|Hbad].
      { apply checkConnectedFiles_unreadable in Hbad as (path & Hp & _).
        congruence. }
      destruct (IH Hbad) as (path & Hnone & ->). eauto.
    - assert (Hex : Exists (fun f => ~ readable pf f) (asset_connectedFiles a)).
      { apply not_Forall_Exists; [|intros Hall].
        - intros f. unfold readable.
          destruct (disk pf (file_filePath f)); [left|right]; congruence.
        - destruct (checkConnectedFiles_readable _ Hall) as [b Hb].
          congruence. }
      apply checkConnectedFiles_unreadable in Hex as (path & Hp & Hnone & _).
      exists path. split; [assumption|]. congruence. }
  destruct Hcheck as (path & Hnone & Hcheck). exists path.
  split; [assumption|].
  rewrite transform_eq, Hsum, Hlook. unfold validEntry.
  by rewrite Hhash, String.eqb_refl, Hcheck.
Qed.

End RunnerFacts.

(** * Properties of requests/AssetRequest.js *)

Section RequestFacts.

Import AssetRequest_js.

Context {Env OptionsRef Payload ConfigRequest : Type}.
Variable o : @RunOpts Env OptionsRef Payload ConfigRequest.

Local Abbreviation Input := (@AssetRequestInput Env OptionsRef).
Local Abbreviation WAsset := (@Asset Payload).

Lemma set_time_stats time (assets : list WAsset) :
  Forall (fun a => stats_time a = time) (List.map (set_time time) assets).
Proof. induction assets; simpl; constructor; auto. Qed.

Lemma forEach_calls {A} (f : A -> R unit) (g : A -> list ApiCall) xs :
  (forall x st, f x st = (Ok tt, {| reads := reads st;
                                    calls := calls st ++ g x |})) ->
  forall st, forEach f xs st
             = (Ok tt, {| reads := reads st;
                          calls := calls st ++ flat_map g xs |}).
Proof.
  intros Hf. induction xs as [|x xs IH]; intros st; simpl.
  - rewrite app_nil_r. by destruct st.
  - unfold bindR. rewrite Hf, IH. simpl. by rewrite <- app_assoc.
Qed.

Lemma flat_map_singleton {A B} (h : A -> B) (l : list A) :
  flat_map (fun x => [h x]) l = List.map h l.
Proof. induction l as [|x l IH]; simpl; [reflexivity|by rewrite IH]. Qed.

Lemma assetCalls_set_time time (assets : list WAsset) :
  flat_map assetCalls (List.map (set_time time) assets)
  = flat_map assetCalls assets.
Proof. induction assets as [|a l IH]; simpl; [reflexivity|by rewrite IH]. Qed.

(** ** Awaited child requests *)

Lemma awaitCalls_app cs cs' :
  awaitCalls o (cs ++ cs')
  = match snd (awaitCalls o cs) with
    | Ok _ => (fst (awaitCalls o cs) ++ fst (awaitCalls o cs'),
               snd (awaitCalls o cs'))
    | Throw e => awaitCalls o cs
    end.
Proof.
  induction cs as [|c cs IH]; simpl.
  - by destruct (awaitCalls o cs').
  - destruct (settles o c) as [[]|e]; simpl; [|reflexivity].
    rewrite IH. destruct (awaitCalls o cs) as [done [[]|e]]; reflexivity.
Qed.

Lemma awaitCalls_ok cs :
  snd (awaitCalls o cs) = Ok tt
  <-> Forall (fun c => settles o c = Ok tt) cs.
Proof.
  induction cs as [|c cs IH]; simpl; [by split; [constructor|]|].
  destruct (settles o c) as [[]|e] eqn:Hc; simpl.
  - rewrite IH. split; [by constructor|]. by inversion 1.
  - split; [discriminate|]. inversion 1; congruence.
Qed.

Lemma awaitCalls_all cs :
  snd (awaitCalls o cs) = Ok tt -> fst (awaitCalls o cs) = cs.
Proof.
  induction cs as [|c cs IH]; simpl; [reflexivity|].
  destruct (settles o c) as [[]|e]; simpl; [|discriminate].
  intros H. by rewrite IH.
Qed.

Lemma awaitCalls_throw cs e :
  snd (awaitCalls o cs) = Throw e ->
  exists done failing rest,
    cs = done ++ failing :: rest
    /\ Forall (fun c => settles o c = Ok tt) done
    /\ settles o failing = Throw e
    /\ fst (awaitCalls o cs) = done ++ [failing].
Proof.
  induction cs as [|c cs IH]; simpl; [discriminate|].
  destruct (settles o c) as [[]|e'] eqn:Hc; simpl.
  - intros H. destruct (IH H) as (done & failing & rest & -> & Hok & Hf & ->).
    exists (c :: done), failing, rest. repeat split; auto.
  - intros [= ->]. exists [], c, cs. repeat split; auto.
Qed.

Lemma forEach_await {A} (f : A -> R unit) (g : A -> list ApiCall) xs :
  (forall x st,
     f x st = (snd (awaitCalls o (g x)),
               {| reads := reads st;
                  calls := calls st ++ fst (awaitCalls o (g x)) |})) ->
  forall st,
    forEach f xs st
    = (snd (awaitCalls o (flat_map g xs)),
       {| reads := reads st;
          calls := calls st ++ fst (awaitCalls o (flat_map g xs)) |}).
Proof.
  intros Hf. induction xs as [|x xs IH]; intros st; simpl.
  - rewrite app_nil_r. by destruct st.
  - unfold bindR. rewrite Hf, awaitCalls_app.
    destruct (awaitCalls o (g x)) as [done [[]|e]]; simpl; [|reflexivity].
    rewrite IH. simpl. by rewrite app_assoc.
Qed.

Lemma runRequest_await id ty installs st :
  runRequest o id ty installs st
  = (snd (awaitCalls o [RunRequest id ty installs]),
     {| reads := reads st;
        calls := calls st ++ fst (awaitCalls o [RunRequest id ty installs]) |}).
Proof.
  unfold runRequest, bindR, api, liftR. simpl.
  by destruct (childRequest o id ty) as [[]|e].
Qed.

Lemma addConfigRequest_calls (cr : @ConfigRequestPair ConfigRequest) st :
  addConfigRequest o cr st
  = (snd (awaitCalls o (configRequestCalls o cr)),
     {| reads := reads st;
        calls := calls st ++ fst (awaitCalls o (configRequestCalls o cr)) |}).
Proof.
  unfold addConfigRequest, configRequestCalls, bindR.
  rewrite runRequest_await.
  change (?c :: List.map ?h ?l) with ([c] ++ List.map h l).
  rewrite awaitCalls_app.
  destruct (awaitCalls o [RunRequest _ _ _]) as [done [[]|e]]; simpl;
    [|reflexivity].
  rewrite (forEach_await _
             (fun dep : string * string =>
                [RunRequest
                   (generateRequestId o "dep_version_request"
                      (HDepVersion {| moduleSpecifier := fst dep;
                                      resolveFrom := resolvedPath (result cr) |}))
                   "version_request" (versionRequestEdges o)]))
    by (intros; apply runRequest_await).
  simpl. by rewrite flat_map_singleton, app_assoc.
Qed.

(** [run] once the path has resolved, the configuration request has yielded
    a cache path and the worker has returned: the edges of the assets are
    registered, then the child requests are awaited in turn. *)
Lemma run_eq (input : Input) (st : RunState) real cachePath r :
  realpath o (filePath input) = Ok real ->
  parcelConfig o = Ok (Some cachePath) ->
  farmRunTransform o {| wa_configCachePath := cachePath;
                        wa_optionsRef := optionsRef input;
                        wa_request := withoutOptionsRef input |} = Ok r ->
  run o input st
  = (match snd (awaitCalls o (flat_map (configRequestCalls o)
                                       (wr_configRequests r))) with
     | Ok _ =>
         Ok (List.map (set_time (clock o (S (reads st)) - clock o (reads st)))
                      (wr_assets r))
     | Throw e => Throw e
     end,
     {| reads := S (S (reads st));
        calls := calls st
                 ++ [Edge (InvalidateOnFileUpdate real); RunParcelConfigRequest]
                 ++ flat_map assetCalls (wr_assets r)
                 ++ fst (awaitCalls o (flat_map (configRequestCalls o)
                                                (wr_configRequests r))) |}).
Proof.
  intros Hreal Hcfg Hfarm.
  unfold run, bindR, liftR, api, now. rewrite Hreal. simpl.
  rewrite Hcfg, Hfarm. simpl.
  rewrite (forEach_calls _ assetCalls).
  2:{ intros asset s. unfold assetCalls.
      apply (forEach_calls _
               (fun filePath =>
                  [Edge (InvalidateOnFileUpdate filePath);
                   Edge (InvalidateOnFileDelete filePath)])).
      intros filePath s'. unfold bindR, api. simpl.
      by rewrite <- app_assoc. }
  rewrite (forEach_await _ (configRequestCalls o))
    by apply addConfigRequest_calls.
  simpl. rewrite assetCalls_set_time, <- !app_assoc.
  by destruct (awaitCalls o _) as [done [[]|e]].
Qed.

(** When the path resolves, the configuration request yields a cache path,
    the worker returns and every child request completes, [run] completes
    with the worker's assets, each stamped with the difference of the two
    clock readings. *)
Lemma run_completes (input : Input) (st : RunState) real cachePath r :
  realpath o (filePath input) = Ok real ->
  parcelConfig o = Ok (Some cachePath) ->
  farmRunTransform o {| wa_configCachePath := cachePath;
                        wa_optionsRef := optionsRef input;
                        wa_request := withoutOptionsRef input |} = Ok r ->
  Forall (fun c => settles o c = Ok tt)
         (flat_map (configRequestCalls o) (wr_configRequests r)) ->
  fst (run o input st)
  = Ok (List.map (set_time (clock o (S (reads st)) - clock o (reads st)))
                 (wr_assets r)).
Proof.
  intros Hreal Hcfg Hfarm Hchildren. apply awaitCalls_ok in Hchildren.
  rewrite (run_eq input st real cachePath r Hreal Hcfg Hfarm), Hchildren.
  reflexivity.
Qed.

(** C10.  When [run] completes, the assets it returns are the worker's,
    and each has [stats.time] set to the time that elapsed between the two
    readings of the clock, the first taken before the configuration request
    and the second after the worker's transformation. *)
Theorem run_records_elapsed_time (input : Input) (st : RunState)
    (assets : list WAsset) :
  fst (run o input st) = Ok assets ->
  Forall (fun a => stats_time a = clock o (S (reads st)) - clock o (reads st))
         assets
  /\ exists cachePath r,
       farmRunTransform o {| wa_configCachePath := cachePath;
                             wa_optionsRef := optionsRef input;
                             wa_request := withoutOptionsRef input |} = Ok r
       /\ assets
          = List.map (set_time (clock o (S (reads st)) - clock o (reads st)))
                     (wr_assets r).
Proof.
  intros Hrun.
  destruct (realpath o (filePath input)) as [real|e] eqn:Hreal.
  2:{ unfold run, bindR, liftR in Hrun. rewrite Hreal in Hrun. discriminate. }
  destruct (parcelConfig o) as [[cachePath|]|e] eqn:Hcfg.
  2,3: unfold run, bindR, liftR, api, now in Hrun;
       rewrite Hreal in Hrun; simpl in Hrun; rewrite Hcfg in Hrun;
       discriminate.
  destruct (farmRunTransform o
              {| wa_configCachePath := cachePath;
                 wa_optionsRef := optionsRef input;
                 wa_request := withoutOptionsRef input |}) as [r|e] eqn:Hfarm.
  2:{ unfold run, bindR, liftR, api, now in Hrun.
      rewrite Hreal in Hrun. simpl in Hrun. rewrite Hcfg in Hrun.
      simpl in Hrun. rewrite Hfarm in Hrun. discriminate. }
  rewrite (run_eq input st real cachePath r Hreal Hcfg Hfarm) in Hrun.
  simpl in Hrun.
  destruct (snd (awaitCalls o _)) as [u|e]; [|discriminate].
  injection Hrun as <-. split; [apply set_time_stats|eauto].
Qed.

(** * Further properties of requests/AssetRequest.js *)

(** X14.  What a completed [run] registers, in order: the update edge on the
    real path of the source; the configuration request; for every asset and
    every included file, an update and a delete edge; for every config
    request, a child [config_request] followed by one child
    [version_request] per entry of its [devDeps].  The clock is read
    twice. *)
Theorem run_registers_invalidations (input : Input) (st : RunState) real
    cachePath r (assets : list WAsset) :
  realpath o (filePath input) = Ok real ->
  parcelConfig o = Ok (Some cachePath) ->
  farmRunTransform o {| wa_configCachePath := cachePath;
                        wa_optionsRef := optionsRef input;
                        wa_request := withoutOptionsRef input |} = Ok r ->
  fst (run o input st) = Ok assets ->
  snd (run o input st)
  = {| reads := S (S (reads st));
       calls := calls st
                ++ [Edge (InvalidateOnFileUpdate real); RunParcelConfigRequest]
                ++ flat_map assetCalls (wr_assets r)
                ++ flat_map (configRequestCalls o) (wr_configRequests r) |}.
Proof.
  intros Hreal Hcfg Hfarm.
  rewrite (run_eq input st real cachePath r Hreal Hcfg Hfarm). simpl.
  destruct (snd (awaitCalls o _)) as [[]|e] eqn:Hchildren; [|discriminate].
  intros _. by rewrite (awaitCalls_all _ Hchildren).
Qed.

(** X15.  The edges a config request installs: a delete edge for the
    resolved path only, update edges for the resolved path and for every
    included file, a create edge for the watch glob, a startup edge when the
    result asks for it.  An included file gets no delete edge of its own. *)
Theorem configRequestEdges_spec (res : ConfigRequestResult) :
  (forall p, In (InvalidateOnFileDelete p) (configRequestEdges res)
             <-> resolvedPath res = Some p)
  /\ (forall p, In (InvalidateOnFileUpdate p) (configRequestEdges res)
                <-> resolvedPath res = Some p \/ In p (cfg_includedFiles res))
  /\ (forall g, In (InvalidateOnFileCreate g) (configRequestEdges res)
                <-> watchGlob res = Some g)
  /\ (In InvalidateOnStartup (configRequestEdges res)
      <-> shouldInvalidateOnStartup res = true).
Proof.
  unfold configRequestEdges.
  repeat split; intros H;
    repeat (rewrite ?in_app_iff, ?in_flat_map in H);
    repeat (rewrite ?in_app_iff, ?in_flat_map);
    destruct (resolvedPath res) as [rp|], (watchGlob res) as [wg|],
             (shouldInvalidateOnStartup res);
    simpl in *;
    repeat match goal with
           | H : _ \/ _ |- _ => destruct H
           | H : exists _, _ |- _ => destruct H
           | H : _ /\ _ |- _ => destruct H
           | H : False |- _ => destruct H
           | H : Some _ = Some _ |- _ => injection H as ->
           | H : InvalidateOnFileDelete _ = InvalidateOnFileDelete _ |- _ =>
               injection H as ->
           | H : InvalidateOnFileUpdate _ = InvalidateOnFileUpdate _ |- _ =>
               injection H as ->
           | H : InvalidateOnFileCreate _ = InvalidateOnFileCreate _ |- _ =>
               injection H as ->
           end;
    try discriminate; try reflexivity; auto 6;
    try (right; left; eexists; split; [eassumption|simpl; auto]).
Qed.

(** X16.  [run] catches nothing, and a run that fails has failed at one of
    its awaited calls; what it has registered by then tells which.  When the
    real path cannot be resolved: nothing.  When the configuration request
    fails or yields null, or the worker fails: the update edge on the real
    path and the configuration request, with the clock read once, and no
    edge for an asset nor any child request.  Otherwise the worker has
    returned and a child request has failed: the clock was read twice, the
    edges of all assets are registered, and of the child requests those up
    to the failing one, which all completed, and the failing one, the last
    call made. *)
Theorem run_fails_at_an_awaited_call (input : Input) (st : RunState) e :
  fst (run o input st) = Throw e ->
  (realpath o (filePath input) = Throw e /\ snd (run o input st) = st)
  \/ (exists real,
        realpath o (filePath input) = Ok real
        /\ snd (run o input st)
           = {| reads := S (reads st);
                calls := calls st ++ [Edge (InvalidateOnFileUpdate real);
                                      RunParcelConfigRequest] |}
        /\ (parcelConfig o = Throw e
            \/ (parcelConfig o = Ok None /\ e = NullConfig)
            \/ exists cachePath,
                 parcelConfig o = Ok (Some cachePath)
                 /\ farmRunTransform o
                      {| wa_configCachePath := cachePath;
                         wa_optionsRef := optionsRef input;
                         wa_request := withoutOptionsRef input |} = Throw e))
  \/ (exists real cachePath r done failing rest,
        realpath o (filePath input) = Ok real
        /\ parcelConfig o = Ok (Some cachePath)
        /\ farmRunTransform o
             {| wa_configCachePath := cachePath;
                wa_optionsRef := optionsRef input;
                wa_request := withoutOptionsRef input |} = Ok r
        /\ flat_map (configRequestCalls o) (wr_configRequests r)
           = done ++ failing :: rest
        /\ Forall (fun c => settles o c = Ok tt) done
        /\ settles o failing = Throw e
        /\ snd (run o input st)
           = {| reads := S (S (reads st));
                calls := calls st
                         ++ [Edge (InvalidateOnFileUpdate real);
                             RunParcelConfigRequest]
                         ++ flat_map assetCalls (wr_assets r)
                         ++ done ++ [failing] |}).
Proof.
  intros Hfail.
  destruct (realpath o (filePath input)) as [real|e1] eqn:Hreal.
  2:{ left. unfold run, bindR, liftR in *. rewrite Hreal in *.
      simpl in *. by injection Hfail as ->. }
  right.
  destruct (parcelConfig o) as [[cachePath|]|e1] eqn:Hcfg.
  - destruct (farmRunTransform o
                {| wa_configCachePath := cachePath;
                   wa_optionsRef := optionsRef input;
                   wa_request := withoutOptionsRef input |}) as [r|e1] eqn:Hfarm.
    + right. rewrite (run_eq input st real cachePath r Hreal Hcfg Hfarm) in *.
      simpl in *.
      destruct (snd (awaitCalls o _)) as [u|e1] eqn:Hchildren;
        [discriminate|]. injection Hfail as ->.
      apply awaitCalls_throw in Hchildren
        as (done & failing & rest & Hsplit & Hok & Hbad & ->).
      exists real, cachePath, r, done, failing, rest. auto 8.
    + left. exists real. split; [reflexivity|].
      unfold run, bindR, liftR, api, now in *. rewrite Hreal in *.
      simpl in *. rewrite Hcfg in *. simpl in *. rewrite Hfarm in *.
      simpl in *. injection Hfail as ->. rewrite <- app_assoc. eauto 8.
  - left. exists real. split; [reflexivity|].
    unfold run, bindR, liftR, api, now in *. rewrite Hreal in *.
    simpl in *. rewrite Hcfg in *. simpl in *. injection Hfail as <-.
    rewrite <- app_assoc. auto.
  - left. exists real. split; [reflexivity|].
    unfold run, bindR, liftR, api, now in *. rewrite Hreal in *.
    simpl in *. rewrite Hcfg in *. simpl in *. injection Hfail as ->.
    rewrite <- app_assoc. auto.
Qed.

End RequestFacts.

(** * summarizeRequest on two disks *)

Section Chunking.

Import TransformerRunner_js.

Context {Env : Type}.

(** X17.  The summary of a file does not depend on the chunks in which the
    stream delivers it: two disks that give the same bytes for the path give
    the same content, hash and size. *)
Theorem summary_ignores_chunking (pf pf' : @Platform Env) req chunks chunks' :
  md5 pf' = md5 pf ->
  req_code req = None ->
  disk pf (req_filePath req) = Some chunks ->
  disk pf' (req_filePath req) = Some chunks' ->
  concat chunks = concat chunks' ->
  summarizeRequest pf req = summarizeRequest pf' req.
Proof.
  intros Hmd5 Hcode Hdisk Hdisk' Hbytes.
  rewrite (summarizeRequest_file pf req chunks Hcode Hdisk).
  rewrite (summarizeRequest_file pf' req chunks' Hcode Hdisk').
  by rewrite Hmd5, Hbytes.
Qed.

End Chunking.

(** * The theorems at concrete requests *)

Section RunnerExamples.

Import TransformerRunner_js Demo.

(** C1 at a.md: the stored entry is fresh and b.txt is unchanged. *)
Lemma cache_hit_at_a_md :
  outcomeOf (transform pf runner 0 (fileRequest "a.md") (storeWith freshMdEntry))
    = Ok freshMdEntry
  /\ storeOf (transform pf runner 0 (fileRequest "a.md")
                        (storeWith freshMdEntry))
     = storeWith freshMdEntry
  /\ logOf (transform pf runner 0 (fileRequest "a.md") (storeWith freshMdEntry))
     = [Report; CacheGet (reqCacheKey pf (fileRequest "a.md"))]
  /\ forall c, Hook c ∉ logOf (transform pf runner 0 (fileRequest "a.md")
                                         (storeWith freshMdEntry)).
Proof.
  apply (cache_hit_runs_no_hook pf runner 0 (fileRequest "a.md")
           (storeWith freshMdEntry) freshMdEntry mdSummary);
    vm_compute; reflexivity.
Defined.

(** The claim C2 as stated fails for a child taken over from the cache: the
    result's type differs from the input's and the recomputed pipeline is
    another one, yet no jump is made; the run of the stale request calls no
    hook of the HTML pipeline. *)
Lemma reused_child_does_not_jump :
  planChild pf runner (inputOf "a.md" "# hi") "md" mdPipeline (items mdPipeline)
            (Some staleMdEntry) genMd htmlResult
    = (Ok (ReuseCached [cachedHtml]), [])
  /\ res_type htmlResult <> "md"
  /\ ~ shallowEqual (items mdPipeline)
         (items (getTransformers (config runner)
                   (nextFilePath pf (inputOf "a.md" "# hi") htmlResult)))
  /\ logOf (transform pf runner 5 (fileRequest "a.md") (storeWith staleMdEntry))
     = [Report; CacheGet "#a.md{}";
        Hook {| hc_transformer := 1; hc_hook := Transform |};
        CacheSet "#a.md{}"].
Proof.
  split; [vm_compute; reflexivity|]. split; [discriminate|].
  split; [|vm_compute; reflexivity].
  intros Hsh. vm_compute in Hsh. inversion Hsh as [|? ? ? ? Htid _]; subst.
  discriminate.
Qed.

(** C2 at a.md without a cache entry: the child jumps to the HTML pipeline,
    and the asset of that pipeline is the one collected. *)
Lemma jump_at_a_md :
  exists o,
    planChild pf runner (inputOf "a.md" "# hi") "md" mdPipeline
              (items mdPipeline) None genMd htmlResult = (Ok (Jump o), [])
    /\ po_pipeline o = [htmlT]
    /\ po_previousGenerate o = Some genMd
    /\ forEachResult pf runner (runPipeline pf runner 1)
                     (inputOf "a.md" "# hi") "md" mdPipeline (items mdPipeline)
                     None genMd [htmlResult] []
       = let* r := runPipeline pf runner 1 o in ret (pr_assets r).
Proof.
  destruct (jump_iff_type_and_pipeline_differ pf runner
              (runPipeline pf runner 1)
              (inputOf "a.md" "# hi") "md" mdPipeline (items mdPipeline)
              None genMd htmlResult [] [])
    as (_ & Hmiss & _).
  - intros Haddr. vm_compute in Haddr. discriminate.
  - destruct (Hmiss eq_refl) as (step & Hplan & Hiff & Hjump & _).
    destruct (proj2 Hiff) as [o ->].
    + split; [discriminate|]. intros Hsh. vm_compute in Hsh.
      inversion Hsh as [|? ? ? ? Htid _]; subst. discriminate.
    + exists o. split; [exact Hplan|].
      destruct (Hjump o eq_refl) as [Ho Hloop].
      split; [by rewrite Ho|]. split; [by rewrite Ho|]. exact Hloop.
Defined.

(** C3 at the second JavaScript stage, which cannot reuse the AST left by
    the first: the first stage's [generate] is called and its output
    replaces content and map. *)
Lemma regenerate_at_second_js_stage :
  exists regenerated,
    fst (regenerate withAst jsQ (Some genP)) = Ok regenerated
    /\ In {| hc_transformer := 3; hc_hook := Generate |}
          (snd (regenerate withAst jsQ (Some genP)))
    /\ asset_content regenerated = BString "y=1;"
    /\ asset_map regenerated = Some "m"
    /\ asset_ast regenerated = None.
Proof.
  apply (proj1 (proj2 (runTransform_reconciles_ast withAst jsQ (Some genP) None))
           7%nat genP
           (fun input _ =>
              Returned ({| out_code := BString "y=1;"; out_map := Some "m" |},
                        input))
           {| out_code := BString "y=1;"; out_map := Some "m" |} withAst).
  - reflexivity.
  - right. eexists. split; reflexivity.
  - reflexivity.
  - reflexivity.
  - reflexivity.
Defined.

(** The whole step at that stage, and at a stage that can reuse the AST. *)
Example runTransform_second_js_stage :
  snd (runTransform withAst jsQ (Some genP))
  = [{| hc_transformer := 4; hc_hook := CanReuseAST |};
     {| hc_transformer := 3; hc_hook := Generate |};
     {| hc_transformer := 4; hc_hook := Parse |};
     {| hc_transformer := 4; hc_hook := Transform |}]
  /\ snd (runTransform withAst jsR (Some genP))
     = [{| hc_transformer := 7; hc_hook := CanReuseAST |};
        {| hc_transformer := 7; hc_hook := Transform |}].
Proof. split; reflexivity. Qed.

(** The claim C4 as stated fails for inline code: the request has
    [code != null], the cache is empty before the run and holds an entry
    under the request's key after it. *)
Lemma inline_request_is_persisted :
  req_code inlineRequest <> None
  /\ entries emptyStore !! reqCacheKey pf inlineRequest = None
  /\ exists e,
       entries (storeOf (transform pf runner 5 inlineRequest emptyStore))
         !! reqCacheKey pf inlineRequest = Some e
       /\ entry_hash e = md5FromString pf "# inline".
Proof.
  split; [discriminate|]. split; [reflexivity|].
  eexists. split; vm_compute; reflexivity.
Qed.

(** C4, as the code has it, at the file request for a.md. *)
Lemma file_request_is_persisted :
  exists e,
    outcomeOf (transform pf runner 5 (fileRequest "a.md") emptyStore) = Ok e
    /\ entries (storeOf (transform pf runner 5 (fileRequest "a.md") emptyStore))
         !! reqCacheKey pf (fileRequest "a.md") = Some e.
Proof.
  eexists. split; [vm_compute; reflexivity|].
  apply completed_request_is_persisted. vm_compute. reflexivity.
Defined.

(** C5 at the inline request: no cache read, whatever the cache holds. *)
Lemma inline_request_makes_no_lookup :
  (forall k, ~ In (CacheGet k)
                  (logOf (transform pf runner 5 inlineRequest
                                    (storeWith freshMdEntry))))
  /\ outcomeOf (transform pf runner 5 inlineRequest (storeWith freshMdEntry))
     = outcomeOf (transform pf runner 5 inlineRequest emptyStore).
Proof.
  apply (proj1 (proj2 (lookup_only_for_files_with_cache_on
                         pf runner 5 inlineRequest))).
  reflexivity.
Defined.

(** The claim C6 as stated fails for a [postProcess] hook that yields
    null: the step and the loop complete with two assets, the hook is called
    on them and yields null, and the run fails instead of returning them
    with [initialAssets] null.  It also fails for a hook that edits the
    assets it is handed: [initialAssets] then holds the two assets as the
    hook left them, not as they were collected. *)
Lemma postProcess_null_or_edits_at_a_pp :
  (exists step l1 one two hook,
     runTransform (po_input nullOpts) nullT None = (Ok step, l1)
     /\ childrenOf pf runner 2 nullOpts step = (Ok [one; two], [])
     /\ t_postProcess nullT = Some hook
     /\ hook [one; two] (ts_config step) = Returned (None, [one; two])
     /\ runPipeline pf runner 3 nullOpts
        = (Throw MapOfNull,
           [{| hc_transformer := 9; hc_hook := Transform |};
            {| hc_transformer := 9; hc_hook := PostProcess |}])
     /\ fst (runPipeline pf runner 3 nullOpts)
        <> Ok {| pr_assets := [one; two]; pr_initialAssets := None |})
  /\ (exists step l1 one two r,
        runTransform (po_input editOpts) editT None = (Ok step, l1)
        /\ childrenOf pf runner 2 editOpts step = (Ok [one; two], [])
        /\ asset_content one = BString "one"
        /\ fst (runPipeline pf runner 3 editOpts) = Ok r
        /\ List.map asset_content (default [] (pr_initialAssets r))
           = [BString "edited"; BString "edited"]
        /\ pr_initialAssets r <> Some [one; two]).
Proof.
  split.
  - do 5 eexists. split; [reflexivity|]. split; [reflexivity|].
    split; [reflexivity|]. split; [reflexivity|]. split; [reflexivity|].
    discriminate.
  - do 5 eexists. split; [reflexivity|]. split; [reflexivity|].
    split; [reflexivity|]. split; [reflexivity|]. split; [reflexivity|].
    discriminate.
Qed.

(** C6, as the code has it, at a.pp: the merged asset is returned, the two
    it was made of are kept as [initialAssets]. *)
Lemma postProcess_at_a_pp :
  exists one two merged,
    fst (runPipeline pf runner 3 ppOpts)
    = Ok {| pr_assets := [merged]; pr_initialAssets := Some [one; two] |}
    /\ asset_content one = BString "one"
    /\ asset_content two = BString "two"
    /\ asset_content merged = BString "merged".
Proof.
  do 3 eexists. split.
  - erewrite (proj1 (proj1 (postProcess_decides_initialAssets pf runner 2 ppOpts
                              postT [] _ _ _ _ eq_refl eq_refl eq_refl)
                       _ _ _ eq_refl eq_refl)).
    reflexivity.
  - repeat split; reflexivity.
Defined.

Lemma bigChunk_size : Z.of_nat (length (concat [bigChunk])) = 5000001.
Proof.
  rewrite concat_cons, concat_nil, app_nil_r. unfold bigChunk.
  rewrite repeat_length. apply Z2Nat.id. lia.
Qed.

(** The claim C7 as stated fails between 5,000,000 bytes and 5 MiB: a file
    of 5,000,001 bytes is at most 5 MiB (5,242,880 bytes) long, and its
    content is a stream, not a buffer. *)
Lemma file_below_5MiB_is_streamed :
  Z.of_nat (length (concat [bigChunk])) <= 5 * 1024 * 1024
  /\ exists s,
       summarizeRequest bigPf (fileRequest "big.bin") = Ok s
       /\ sum_size s = 5000001
       /\ sum_content s = BStream "big.bin".
Proof.
  split; [rewrite bigChunk_size; lia|].
  eexists. split.
  - apply (summarizeRequest_file bigPf (fileRequest "big.bin") [bigChunk]);
      reflexivity.
  - cbn [sum_size sum_content]. rewrite bigChunk_size. split; reflexivity.
Qed.

(** C7, as the code has it, at a.md (4 bytes) *)
Lemma small_file_is_buffered :
  exists s,
    summarizeRequest pf (fileRequest "a.md") = Ok s
    /\ sum_hash s = "## hi"
    /\ sum_size s = 4
    /\ sum_content s = BBuffer (String.list_byte_of_string "# hi").
Proof.
  destruct (file_is_buffered_up_to_BUFFER_LIMIT pf (fileRequest "a.md")
              [String.list_byte_of_string "# hi"] eq_refl eq_refl)
    as (s & Hs & Hhash & Hsize & Hsmall & _).
  exists s. split; [exact Hs|]. split; [rewrite Hhash; reflexivity|].
  split; [rewrite Hsize; reflexivity|].
  rewrite Hsmall; [reflexivity|]. rewrite Hsize. vm_compute. discriminate.
Defined.

(** C8 at a.ng: the only transformer leaves an AST and has no [generate];
    finalization fails and so does the request, which stores nothing. *)
Lemma missing_generate_at_a_ng :
  finalize (createChildAsset pf (inputOf "a.ng" "n")
                             (emitted "ng" "data" (Some 1%nat)))
           genNone
    = (Throw MissingGenerate, [])
  /\ outcomeOf (transform pf runner 5 (fileRequest "a.ng") emptyStore)
     = Throw MissingGenerate
  /\ storeOf (transform pf runner 5 (fileRequest "a.ng") emptyStore)
     = emptyStore.
Proof.
  split.
  - apply (proj1 (missing_generate_fails_the_request pf runner));
      [discriminate|reflexivity].
  - apply (proj2 (proj2 (proj2 (proj2 (proj2 (proj2
             (missing_generate_fails_the_request pf runner))))))
             5%nat (fileRequest "a.ng") emptyStore
             {| sum_content := BBuffer (String.list_byte_of_string "n");
                sum_hash := "#n"; sum_size := 1 |} MissingGenerate);
      vm_compute; reflexivity.
Defined.

Lemma pipelineFor_nonempty path : items (pipelineFor path) <> [].
Proof.
  unfold pipelineFor.
  repeat match goal with
         | |- context [String.eqb ?a ?b] => destruct (String.eqb a b)
         end; discriminate.
Qed.

(** C9 at the demo configuration, whose pipelines all have a transformer. *)
Lemma head_in_bounds_at_demo :
  outcomeOf (transform pf runner 5 (fileRequest "a.md") emptyStore)
    <> Throw HeadOfEmptyPipeline
  /\ runPipeline pf runner 1
       {| po_input := inputOf "a.md" "# hi";
          po_originalPipeline := {| addr := 0; items := [] |};
          po_pipeline := [];
          po_cacheEntry := None;
          po_previousGenerate := None |}
     = (Throw HeadOfEmptyPipeline, []).
Proof.
  destruct (head_of_pipeline_in_bounds pf runner pipelineFor_nonempty)
    as (_ & _ & _ & Htransform & Hempty).
  split; [apply Htransform|apply Hempty; reflexivity].
Defined.

(** ** The further properties at concrete requests *)

(** X2 at an entry for a.md recorded when b.txt had other content: the
    entry has the hash of a.md, and both pipelines are run. *)
Lemma outdated_entry_is_not_valid :
  entry_hash outdatedEntry = sum_hash mdSummary
  /\ exists e,
       outcomeOf (transform pf runner 5 (fileRequest "a.md")
                            (storeWith outdatedEntry)) = Ok e
       /\ entries (storeOf (transform pf runner 5 (fileRequest "a.md")
                                      (storeWith outdatedEntry)))
            !! reqCacheKey pf (fileRequest "a.md") = Some e
       /\ logOf (transform pf runner 5 (fileRequest "a.md")
                           (storeWith outdatedEntry))
          = [Report; CacheGet "#a.md{}";
             Hook {| hc_transformer := 1; hc_hook := Transform |};
             Hook {| hc_transformer := 2; hc_hook := Transform |};
             CacheSet "#a.md{}"].
Proof.
  split; [reflexivity|].
  destruct (changed_connected_file_invalidates pf runner 5 (fileRequest "a.md")
              (storeWith outdatedEntry) outdatedEntry mdSummary)
    as (_ & _ & Hdone).
  - vm_compute. reflexivity.
  - vm_compute. reflexivity.
  - repeat constructor. vm_compute. discriminate.
  - apply Exists_cons_hd. apply Exists_cons_hd.
    exists [String.list_byte_of_string "dep"].
    split; [reflexivity|]. vm_compute. discriminate.
  - eexists. split; [vm_compute; reflexivity|].
    match goal with
    | |- entries _ !! _ = Some ?e /\ _ =>
        destruct (Hdone e) as (r & hooks & Hrun & _ & Hstored & Hlog);
        [vm_compute; reflexivity|]
    end.
    split; [exact Hstored|]. rewrite Hlog.
    injection Hrun as _ <-. vm_compute. reflexivity.
Defined.

(** X3 at a.md with an entry recorded for other content of a.md. *)
Lemma stale_entry_is_replaced_at_a_md :
  exists e,
    outcomeOf (transform pf runner 5 (fileRequest "a.md")
                         (storeWith staleMdEntry)) = Ok e
    /\ entry_hash e = "## hi"
    /\ e <> staleMdEntry.
Proof.
  eexists. split; [vm_compute; reflexivity|].
  match goal with
  | |- entry_hash ?e = _ /\ _ =>
      destruct (changed_source_replaces_entry pf runner 5 (fileRequest "a.md")
                  (storeWith staleMdEntry) staleMdEntry e mdSummary)
        as (Hhash & Hne & _);
      [vm_compute; reflexivity | vm_compute; reflexivity
       | vm_compute; discriminate | vm_compute; reflexivity
       | split; [exact Hhash|exact Hne]]
  end.
Defined.

(** X4 at a.ng, whose run fails for want of a [generate]. *)
Lemma failed_request_at_a_ng :
  entries (storeOf (transform pf runner 5 (fileRequest "a.ng") emptyStore))
    = entries emptyStore
  /\ forall k, ~ In (CacheSet k)
                    (logOf (transform pf runner 5 (fileRequest "a.ng")
                                      emptyStore)).
Proof.
  apply (failed_request_writes_no_entry pf runner 5 (fileRequest "a.ng")
           emptyStore MissingGenerate).
  vm_compute. reflexivity.
Defined.

(** X5 at a.md: the entry of the inline run serves the file request. *)
Lemma inline_entry_serves_a_md :
  exists e,
    transform pf runner 0 (fileRequest "a.md")
              (storeOf (transform pf runner 5 inlineHi emptyStore))
    = (Ok e, storeOf (transform pf runner 5 inlineHi emptyStore),
       [Report; CacheGet (reqCacheKey pf (fileRequest "a.md"))]).
Proof.
  eexists.
  eapply (inline_entry_serves_file_request pf runner 5 0 inlineHi
            (fileRequest "a.md") emptyStore _ "# hi"
            [String.list_byte_of_string "# hi"]);
    try reflexivity; vm_compute; reflexivity.
Defined.


(** X19 at a.md with an entry that depends on a file that is gone. *)
Lemma unreadable_file_at_a_md :
  exists path,
    disk pf path = None
    /\ transform pf runner 5 (fileRequest "a.md") (storeWith danglingEntry)
       = (Throw (IOError path), storeWith danglingEntry,
          lookupLog pf runner (fileRequest "a.md")).
Proof.
  apply (unreadable_connected_file_fails_request pf runner 5
           (fileRequest "a.md") (storeWith danglingEntry) danglingEntry
           mdSummary).
  - vm_compute. reflexivity.
  - vm_compute. reflexivity.
  - reflexivity.
  - apply Exists_cons_hd. apply Exists_cons_hd. intros Hread.
    apply Hread. reflexivity.
Defined.

(** X7 at a.md and at a path without extension. *)
Lemma nextFilePath_at_a_md_and_Makefile :
  nextFilePath pf (inputOf "a.md" "# hi") htmlResult = "a.html"
  /\ nextFilePath pf (inputOf "Makefile" "all:") htmlResult = ".html".
Proof.
  split.
  - apply (proj1 (nextFilePath_replaces_extension pf (inputOf "a.md" "# hi")
                    htmlResult) "a" ".md");
      [reflexivity|reflexivity|discriminate].
  - apply (proj2 (nextFilePath_replaces_extension pf
                    (inputOf "Makefile" "all:") htmlResult)).
    reflexivity.
Defined.

(** X10 at the child of a.md, found in the stale entry. *)
Lemma reused_child_at_a_md :
  exists taken,
    (forall a, In a taken -> In a (entry_assets staleMdEntry))
    /\ forall rec assets,
         forEachResult pf runner rec (inputOf "a.md" "# hi") "md" mdPipeline
                       (items mdPipeline) (Some staleMdEntry) genMd
                       [htmlResult] assets
         = (Ok (assets ++ taken), []).
Proof.
  apply (reused_children_run_nothing pf runner (inputOf "a.md" "# hi") "md"
           mdPipeline (items mdPipeline) staleMdEntry genMd [htmlResult]).
  constructor; [|constructor]. eexists. vm_compute. reflexivity.
Defined.

(** X11 at a pipeline whose first transformer emits nothing: the second,
    which would fail, is not run. *)
Lemma no_result_at_dropT :
  runPipeline pf runner 1 dropOpts
  = (Ok {| pr_assets := []; pr_initialAssets := None |},
     [{| hc_transformer := 8; hc_hook := Transform |}]).
Proof.
  apply (proj2 (no_result_ends_the_run pf runner 0 dropOpts dropT [noGen]
                  _ _ eq_refl eq_refl eq_refl)).
  reflexivity.
Defined.

(** X12 at the first JavaScript stage, whose [getConfig] returns the
    config 30. *)
Lemma transform_is_last_at_first_js_stage :
  exists step,
    fst (runTransform (inputOf "a.js" "x=1") jsP None) = Ok step
    /\ snd (runTransform (inputOf "a.js" "x=1") jsP None)
       = [{| hc_transformer := 3; hc_hook := GetConfig |};
          {| hc_transformer := 3; hc_hook := Parse |}] ++ [transformCall jsP]
    /\ ts_config step = Some 30%nat
    /\ gen_config (ts_generate step) = Some 30%nat
    /\ gen_transformer (ts_generate step) = jsP.
Proof.
  eexists. split; [reflexivity|]. split; [reflexivity|].
  match goal with
  | |- ts_config ?step = _ /\ _ =>
      destruct (runTransform_calls_transform_last (inputOf "a.js" "x=1") jsP
                  None step _ eq_refl)
        as (_ & Hgen & Hcfg & _)
  end.
  split; [reflexivity|]. split; [rewrite Hcfg; reflexivity|exact Hgen].
Defined.

Lemma htmlT_plain : plainStep "html" htmlT.
Proof.
  repeat split. intros input config Hty Hast.
  eexists _, _, _. split; [reflexivity|]. split; [reflexivity|]. auto.
Qed.

(** X13 at a pipeline of two HTML transformers. *)
Lemma straight_pipeline_at_html :
  exists asset,
    runPipeline pf runner 2 htmlOpts
    = (Ok {| pr_assets := [asset]; pr_initialAssets := None |},
       [{| hc_transformer := 2; hc_hook := Transform |};
        {| hc_transformer := 2; hc_hook := Transform |}])
    /\ asset_type asset = "html".
Proof.
  apply (straight_pipeline_calls_each_transform_once pf runner "html"
           [htmlT; htmlT]);
    [discriminate | repeat constructor; apply htmlT_plain
     | reflexivity | reflexivity].
Defined.

(** X17 at a.md, delivered in one chunk and in two. *)
Lemma chunking_at_a_md :
  summarizeRequest pf (fileRequest "a.md")
  = summarizeRequest splitPf (fileRequest "a.md").
Proof.
  apply (summary_ignores_chunking pf splitPf (fileRequest "a.md")
           [String.list_byte_of_string "# hi"]
           [String.list_byte_of_string "# "; String.list_byte_of_string "hi"]);
    reflexivity.
Defined.

End RunnerExamples.

Section RequestExamples.

Import AssetRequest_js DemoRequest.

(** C10 at a request whose two clock readings are 1000 and 1250. *)
Lemma elapsed_time_at_demo :
  fst (run opts input start)
    = Ok [set_time 250 htmlAsset; set_time 250 cssAsset]
  /\ Forall (fun a => stats_time a = 250)
            [set_time 250 htmlAsset; set_time 250 cssAsset].
Proof.
  split; [reflexivity|].
  apply (run_records_elapsed_time opts input start
           [set_time 250 htmlAsset; set_time 250 cssAsset]).
  reflexivity.
Defined.

(** X14 at the demo request: the calls of a completed run. *)
Lemma registered_calls_at_demo :
  snd (run opts input start)
  = {| reads := 2;
       calls :=
         [Edge (InvalidateOnFileUpdate "/real/a.md");
          RunParcelConfigRequest;
          Edge (InvalidateOnFileUpdate "a.md");
          Edge (InvalidateOnFileDelete "a.md");
          Edge (InvalidateOnFileUpdate "b.txt");
          Edge (InvalidateOnFileDelete "b.txt");
          RunRequest "config_request:babel" "config_request"
            [InvalidateOnFileUpdate ".babelrc";
             InvalidateOnFileDelete ".babelrc";
             InvalidateOnFileUpdate "package.json";
             InvalidateOnFileUpdate "package.json"];
          RunRequest "dep_version_request:dep" "version_request"
            [InvalidateOnFileUpdate "yarn.lock"]] |}.
Proof.
  rewrite (run_registers_invalidations opts input start "/real/a.md"
             ".parcel-cache/config"
             {| wr_assets := [htmlAsset; cssAsset];
                wr_configRequests := [babelrc] |}
             [set_time 250 htmlAsset; set_time 250 cssAsset])
    by reflexivity.
  reflexivity.
Defined.

(** X16 at the same request with a failing worker, and with a version
    request that is rejected: the run fails after the child has been
    requested, with the edges of the assets registered. *)
Lemma failed_run_at_demo :
  snd (run failingOpts input start)
  = {| reads := 1;
       calls := [Edge (InvalidateOnFileUpdate "/real/a.md");
                 RunParcelConfigRequest] |}
  /\ exists done failing,
       settles rejectingOpts failing = Throw (HookThrew "cancelled")
       /\ snd (run rejectingOpts input start)
          = {| reads := 2;
               calls := [Edge (InvalidateOnFileUpdate "/real/a.md");
                         RunParcelConfigRequest;
                         Edge (InvalidateOnFileUpdate "a.md");
                         Edge (InvalidateOnFileDelete "a.md");
                         Edge (InvalidateOnFileUpdate "b.txt");
                         Edge (InvalidateOnFileDelete "b.txt")]
                        ++ done ++ [failing] |}.
Proof.
  split.
  - destruct (run_fails_at_an_awaited_call failingOpts input start
                (HookThrew "worker") eq_refl)
      as [[Hreal _]|[(real & Hreal & Hstate & _)|Hchild]];
      [discriminate Hreal| |].
    + injection Hreal as <-. exact Hstate.
    + destruct Hchild as (real & cachePath & r & _ & _ & _ & _ & Hcfg & Hfarm & _).
      injection Hcfg as <-. discriminate Hfarm.
  - destruct (run_fails_at_an_awaited_call rejectingOpts input start
                (HookThrew "cancelled") eq_refl)
      as [[Hreal _]|[(real & _ & _ & [Hcfg|[[Hcfg _]|(c & _ & Hfarm)]])|Hchild]];
      try discriminate.
    destruct Hchild
      as (real & cachePath & r & done & failing & rest
          & Hreal & Hcfg & Hfarm & _ & _ & Hbad & Hstate).
    injection Hreal as <-. injection Hcfg as <-. injection Hfarm as <-.
    exists done, failing. split; [exact Hbad|exact Hstate].
Defined.

End RequestExamples.
